(** * docassemblecli3: the package synchronisation engine

    A shallow embedding of [docassemblecli3.py]: the descriptor scanner, the
    restart decision, the remote install protocol with its status polling,
    and the watch loop, followed by the properties established about them.

    Conventions.  Python [str] values are Rocq strings whose characters stand
    for code points below 256.  A Python function that may raise is a
    computation in the monad [M] below: it threads the observable world (the
    HTTP requests issued, the sleeps performed, the clock) and ends either
    with a value or with the exception that escaped. *)

From Stdlib Require Import String Ascii List ZArith Bool Lia DecimalString.
Import ListNotations.
Open Scope string_scope.

(* ------------------------------------------------------------------------- *)
(** ** Python string primitives *)
(* ------------------------------------------------------------------------- *)

Module PyStr.

(** [str.isspace] on one character, for code points below 256. *)
Definition is_space (c : ascii) : bool :=
  let n := nat_of_ascii c in
  (((9 <=? n) && (n <=? 13)) || ((28 <=? n) && (n <=? 32))
   || (n =? 133) || (n =? 160))%nat.

Definition newline : ascii := ascii_of_nat 10.

Definition is_empty (s : string) : bool :=
  match s with EmptyString => true | String _ _ => false end.

(** [s.lstrip()], [s.rstrip()] and [s.strip()]. *)
Fixpoint lstrip (s : string) : string :=
  match s with
  | EmptyString => EmptyString
  | String c r => if is_space c then lstrip r else s
  end.

Fixpoint rstrip (s : string) : string :=
  match s with
  | EmptyString => EmptyString
  | String c r =>
      let r' := rstrip r in
      if is_empty r' && is_space c then EmptyString else String c r'
  end.

Definition strip (s : string) : string := rstrip (lstrip s).

(** [s.rstrip(c)] for a one-character argument. *)
Fixpoint rstrip_char (c0 : ascii) (s : string) : string :=
  match s with
  | EmptyString => EmptyString
  | String c r =>
      let r' := rstrip_char c0 r in
      if is_empty r' && Ascii.eqb c c0 then EmptyString else String c r'
  end.

(** [s.startswith(p)]; on a match [strip_prefix] also gives the rest. *)
Fixpoint strip_prefix (p s : string) : option string :=
  match p, s with
  | EmptyString, _ => Some s
  | String a p', String b s' => if Ascii.eqb a b then strip_prefix p' s' else None
  | String _ _, EmptyString => None
  end.

Definition startswith (p s : string) : bool :=
  match strip_prefix p s with Some _ => true | None => false end.

(** [s.endswith(suf)]: some suffix of [s] is [suf]. *)
Fixpoint endswith (suf s : string) : bool :=
  (s =? suf) ||
  match s with
  | EmptyString => false
  | String _ r => endswith suf r
  end.

(** [s.split(sep)] for a one-character separator: never the empty list. *)
Fixpoint split (sep : ascii) (s : string) : list string :=
  match s with
  | EmptyString => [EmptyString]
  | String c r =>
      if Ascii.eqb c sep then EmptyString :: split sep r
      else match split sep r with
           | [] => [String c EmptyString]
           | w :: ws => String c w :: ws
           end
  end.

(** [sep.join(parts)]. *)
Fixpoint join (sep : string) (parts : list string) : string :=
  match parts with
  | [] => EmptyString
  | [w] => w
  | w :: ws => w ++ sep ++ join sep ws
  end.

(** [s[0]], [s[-1]] and [s[1:-1]]; the first two raise on the empty string,
    which the callers exclude by a length test. *)
Definition first_char (s : string) : option ascii :=
  match s with EmptyString => None | String c _ => Some c end.

Fixpoint last_char (s : string) : option ascii :=
  match s with
  | EmptyString => None
  | String c EmptyString => Some c
  | String _ r => last_char r
  end.

Fixpoint drop_last (s : string) : string :=
  match s with
  | EmptyString => EmptyString
  | String _ EmptyString => EmptyString
  | String c r => String c (drop_last r)
  end.

Definition slice_1_m1 (s : string) : string :=
  match s with
  | EmptyString => EmptyString
  | String _ r => drop_last r
  end.

(** [c in t] for a one-character string [c]: a substring test. *)
Fixpoint char_in (c : ascii) (t : string) : bool :=
  match t with
  | EmptyString => false
  | String a r => Ascii.eqb c a || char_in c r
  end.

(** [s.replace(a, b)] for one-character [a] and [b]. *)
Fixpoint replace_char (a b : ascii) (s : string) : string :=
  match s with
  | EmptyString => EmptyString
  | String c r => String (if Ascii.eqb c a then b else c) (replace_char a b r)
  end.

(** [k in l] on a list of strings. *)
Definition str_in (k : string) (l : list string) : bool :=
  existsb (String.eqb k) l.

End PyStr.

Arguments PyStr.newline : simpl never.

(* ------------------------------------------------------------------------- *)
(** ** Python dictionaries with string keys

    Insertion ordered, as [dict] is: assigning to a present key keeps its
    place, assigning to a new one appends. *)
(* ------------------------------------------------------------------------- *)

Module PyDict.

Definition t (V : Type) : Type := list (string * V).

Fixpoint set {V} (k : string) (v : V) (d : t V) : t V :=
  match d with
  | [] => [(k, v)]
  | (k', v') :: d' =>
      if String.eqb k' k then (k, v) :: d' else (k', v') :: set k v d'
  end.

Fixpoint get {V} (k : string) (d : t V) : option V :=
  match d with
  | [] => None
  | (k', v') :: d' => if String.eqb k' k then Some v' else get k d'
  end.

Definition mem {V} (k : string) (d : t V) : bool :=
  match get k d with Some _ => true | None => false end.

Definition values {V} (d : t V) : list V := map snd d.

End PyDict.

(* ------------------------------------------------------------------------- *)
(** ** The version-operator pattern of the descriptor scanner

    The [re.search] call on [package_name] whose pattern is three groups: any
    characters (greedy), one of the operators [<=], [>=], [==], [<], [>], and
    any characters again.  It is modelled by the backtracking the [re] module
    performs: the dot is any character but a line feed, the star is greedy,
    the alternatives are tried left to right, and [search] takes the leftmost
    start at which the pattern matches. *)
(* ------------------------------------------------------------------------- *)

Module OperatorPattern.

Definition operators : list string := ["<="; ">="; "=="; "<"; ">"].

(** The last group: the longest run free of line feeds. *)
Fixpoint dot_star (s : string) : string :=
  match s with
  | EmptyString => EmptyString
  | String c r =>
      if Ascii.eqb c PyStr.newline then EmptyString else String c (dot_star r)
  end.

(** The operator group and the last group at the head of [s]. *)
Fixpoint alternation (ops : list string) (s : string) : option (string * string) :=
  match ops with
  | [] => None
  | op :: ops' =>
      match PyStr.strip_prefix op s with
      | Some rest => Some (op, dot_star rest)
      | None => alternation ops' s
      end
  end.

(** The whole pattern anchored at the head of [s]: the greedy first group
    takes one more character whenever the rest still matches, and gives it
    back otherwise. *)
Fixpoint match_here (s : string) : option (string * string * string) :=
  match s with
  | EmptyString => None
  | String c r =>
      let stop :=
        match alternation operators s with
        | Some (op, g3) => Some (EmptyString, op, g3)
        | None => None
        end in
      if Ascii.eqb c PyStr.newline then stop
      else match match_here r with
           | Some (g1, op, g3) => Some (String c g1, op, g3)
           | None => stop
           end
  end.

(** [re.search]: the leftmost start position that matches. *)
Fixpoint search (s : string) : option (string * string * string) :=
  match match_here s with
  | Some m => Some m
  | None =>
      match s with
      | EmptyString => None
      | String _ r => search r
      end
  end.

End OperatorPattern.

(* ------------------------------------------------------------------------- *)
(** ** Declared dependencies (package_installer, the descriptor part) *)
(* ------------------------------------------------------------------------- *)

(** One value of the [dependencies] dictionary. *)
Record dependency_info : Type := mk_dependency {
  installed : bool;
  operator : option string;
  version : option string
}.

Definition dependencies_t : Type := PyDict.t dependency_info.

(** The pattern applied to one unquoted entry, and the dictionary entry the
    two branches on [mm] assign: on a match the key is the stripped first
    group, the operator the second group and the version the stripped third
    group; without a match the key is the entry itself and both the operator
    and the version are [None].  [installed] starts [False]. *)
Definition split_dependency (package_name : string) : string * dependency_info :=
  match OperatorPattern.search package_name with
  | Some (g1, op, g3) =>
      (PyStr.strip g1, mk_dependency false (Some op) (Some (PyStr.strip g3)))
  | None => (package_name, mk_dependency false None None)
  end.

(** The test that guards the pattern: at least three characters, the same
    first and last character, and the first character found in the
    two-character string made of a comma and a blank, which is what the
    literal between the parentheses of the source denotes. *)
Definition is_quoted_entry (package_name : string) : bool :=
  (3 <=? String.length package_name)%nat &&
  match PyStr.first_char package_name, PyStr.last_char package_name with
  | Some a, Some b => Ascii.eqb a b && PyStr.char_in a ", "
  | _, _ => false
  end.

(** One round of [for package_text in m.group(1).split(",")]. *)
Definition add_dependency (dependencies : dependencies_t) (package_text : string)
  : dependencies_t :=
  let package_name := PyStr.strip package_text in
  if is_quoted_entry package_name then
    let (k, info) := split_dependency (PyStr.slice_1_m1 package_name) in
    PyDict.set k info dependencies
  else dependencies.

(** The loop over the bracketed text [m.group(1)] of [install_requires]. *)
Definition parse_install_requires (dependencies : dependencies_t) (inner : string)
  : dependencies_t :=
  fold_left add_dependency (PyStr.split "," inner) dependencies.

(* ------------------------------------------------------------------------- *)
(** ** JSON values and the operations the client applies to them *)
(* ------------------------------------------------------------------------- *)

(** What [r.json()] can give.  Numbers are integers here; the client reads
    none. *)
#[warnings="-register-all"]
Inductive json : Type :=
| JNull
| JBool (b : bool)
| JNum (z : Z)
| JStr (s : string)
| JList (items : list json)
| JObj (fields : list (string * json)).

(** The exceptions that can escape the modelled functions. *)
Inductive exn : Type :=
| UnboundLocalError (variable : string)
| KeyError (key : string)
| TypeError
| AttributeError
| JSONDecodeError
| InvalidVersion
| ValueError
| RequestException
| ClickException
| KeyboardInterrupt.

Inductive outcome (A : Type) : Type :=
| Returned (a : A)
| Raised (e : exn).
Arguments Returned {A} a.
Arguments Raised {A} e.

Module Json.

(** Truth value of a JSON value in a condition. *)
Definition truthy (j : json) : bool :=
  match j with
  | JNull => false
  | JBool b => b
  | JNum z => negb (z =? 0)%Z
  | JStr s => negb (PyStr.is_empty s)
  | JList l => match l with [] => false | _ => true end
  | JObj l => match l with [] => false | _ => true end
  end.

(** [j == s] for a string [s]. *)
Definition eq_str (j : json) (s : string) : bool :=
  match j with JStr t => String.eqb t s | _ => false end.

(** [j[key]] for a string key: a dictionary gives the value or [KeyError];
    nothing else can be subscripted by a string. *)
Definition subscript (j : json) (key : string) : outcome json :=
  match j with
  | JObj fields =>
      match PyDict.get key fields with
      | Some v => Returned v
      | None => Raised (KeyError key)
      end
  | _ => Raised TypeError
  end.

(** [j.get(key, default)]: only dictionaries have the method. *)
Definition get (j : json) (key : string) (default : json) : outcome json :=
  match j with
  | JObj fields =>
      match PyDict.get key fields with
      | Some v => Returned v
      | None => Returned default
      end
  | _ => Raised AttributeError
  end.

(** A value used where only text is accepted: anything else is a
    [TypeError]. *)
Definition as_str (j : json) : outcome string :=
  match j with JStr s => Returned s | _ => Raised TypeError end.

Fixpoint chars (s : string) : list json :=
  match s with
  | EmptyString => []
  | String c r => JStr (String c EmptyString) :: chars r
  end.

(** [for x in j]: the items of a list, the keys of a dictionary, the
    characters of a string; nothing else can be iterated. *)
Definition iter (j : json) : outcome (list json) :=
  match j with
  | JList items => Returned items
  | JObj fields => Returned (map (fun kv => JStr (fst kv)) fields)
  | JStr s => Returned (chars s)
  | _ => Raised TypeError
  end.

End Json.

(* ------------------------------------------------------------------------- *)
(** ** The remote server and the observable world *)
(* ------------------------------------------------------------------------- *)

(** An HTTP response: [r.status_code], [r.text], and what [r.json()] gives
    ([None] when the body does not decode and the call raises). *)
Record response : Type := mk_response {
  status_code : Z;
  text : string;
  json_body : option json
}.

(** What a [requests] call comes back with: a response, or a
    [RequestException]. *)
Inductive reply : Type :=
| Resp (r : response)
| NetErr.

Inductive http_method : Type := GET | POST.

(** A request as the client builds it. *)
Record request : Type := mk_request {
  meth : http_method;
  url : string;
  api_key : string;
  params : list (string * json);
  data : PyDict.t string;
  upload : option string
}.

Inductive event : Type :=
| Request (q : request)
| Sleep (milliseconds : Z).

(** The world a run has produced so far: the events in order, how many
    requests were sent, and the clock in milliseconds. *)
Record world : Type := mk_world {
  events : list event;
  sent : nat;
  clock : Z
}.

Definition initial_world : world := mk_world [] 0 0.

(** The environment of a run: the reply to the n-th request and the time that
    request takes, and the module-level [DEBUG] flag. *)
Record env : Type := mk_env {
  server : nat -> reply;
  latency : nat -> Z;
  DEBUG : bool
}.

Definition M (A : Type) : Type := env -> world -> outcome A * world.

Definition ret {A} (a : A) : M A := fun _ w => (Returned a, w).

Definition raise {A} (e : exn) : M A := fun _ w => (Raised e, w).

Definition bind {A B} (m : M A) (k : A -> M B) : M B :=
  fun e w =>
    match m e w with
    | (Returned a, w') => k a e w'
    | (Raised x, w') => (Raised x, w')
    end.

Notation "x <- m ;; k" := (bind m (fun x => k))
  (at level 61, m at next level, right associativity).
Notation "m ;;; k" := (bind m (fun _ => k))
  (at level 61, right associativity).

Definition lift {A} (o : outcome A) : M A := fun _ w => (o, w).

Definition debug_flag : M bool := fun e w => (Returned (DEBUG e), w).

(** [time.time()]. *)
Definition time_time : M Z := fun _ w => (Returned (clock w), w).

(** The world after a sleep, and after a request was sent and answered. *)
Definition after_sleep (d : Z) (w : world) : world :=
  mk_world (events w ++ [Sleep d]) (sent w) (clock w + d).

Definition after_request (q : request) (e : env) (w : world) : world :=
  mk_world (events w ++ [Request q]) (S (sent w))
           (clock w + latency e (sent w)).

(** [time.sleep(d)]: a negative argument is a [ValueError]. *)
Definition time_sleep (d : Z) : M unit :=
  fun _ w =>
    if (d <? 0)%Z then (Raised ValueError, w)
    else (Returned tt, after_sleep d w).

(** One call of [requests.get] or [requests.post]; the exception, if any, is
    handed to the caller, who decides what catching it means. *)
Definition http (q : request) : M reply :=
  fun e w => (Returned (server e (sent w)), after_request q e w).

(** [r.json()]. *)
Definition response_json (r : response) : M json :=
  match json_body r with
  | Some j => ret j
  | None => raise JSONDecodeError
  end.

(** A local variable that may not have been assigned yet. *)
Definition read_local {A} (name : string) (v : option A) : M A :=
  match v with
  | Some a => ret a
  | None => raise (UnboundLocalError name)
  end.

(** [str(n)] for an integer. *)
Definition str_of_Z (z : Z) : string :=
  DecimalString.NilZero.string_of_int (Z.to_int z).

(* ------------------------------------------------------------------------- *)
(** ** The version library

    [packaging.version] is used through [parse] and the comparisons of the
    values it returns; [parse] raises [InvalidVersion] on text it rejects. *)
(* ------------------------------------------------------------------------- *)

Class PackagingVersion : Type := {
  Version : Type;
  parse : string -> option Version;
  vcompare : Version -> Version -> comparison
}.

Section VersionOps.
Context {PV : PackagingVersion}.

Definition parse_version (s : string) : M Version :=
  match parse s with
  | Some v => ret v
  | None => raise InvalidVersion
  end.

Definition v_eq (a b : Version) : bool :=
  match vcompare a b with Eq => true | _ => false end.
Definition v_le (a b : Version) : bool :=
  match vcompare a b with Gt => false | _ => true end.
Definition v_ge (a b : Version) : bool :=
  match vcompare a b with Lt => false | _ => true end.
Definition v_lt (a b : Version) : bool :=
  match vcompare a b with Lt => true | _ => false end.
Definition v_gt (a b : Version) : bool :=
  match vcompare a b with Gt => true | _ => false end.

End VersionOps.

(* ------------------------------------------------------------------------- *)
(** ** wait_for_server *)
(* ------------------------------------------------------------------------- *)

Section WaitForServer.
Context {PV : PackagingVersion}.

Variable playground : bool.
Variable task_id : json.
Variable apikey : string.
Variable apiurl : string.

Definition status_url : string :=
  if playground then apiurl ++ "/api/restart_status"
  else apiurl ++ "/api/package_update_status".

Definition status_request : request :=
  mk_request GET status_url apikey [("task_id", task_id)] [] None.

(** What the [while tries < 300] loop leaves behind: the value of an early
    [return], or the locals the code after the loop reads. *)
Inductive poll_exit : Type :=
| EarlyReturn (message : string)
| LoopDone (info : option json).

(** The loop, by the number of rounds [tries] still allows.  [r] and [info]
    are the locals as the previous rounds left them; a [RequestException] is
    passed over, so the round goes on with [r] unchanged. *)
Fixpoint poll (rounds : nat) (r : option response) (info : option json)
  : M poll_exit :=
  match rounds with
  | O => ret (LoopDone info)
  | S rounds' =>
      answer <- http status_request ;;
      let r := match answer with Resp x => Some x | NetErr => r end in
      resp <- read_local "r" r ;;
      if negb (status_code resp =? 200)%Z then
        ret (EarlyReturn ("package_update_status returned "
                            ++ str_of_Z (status_code resp) ++ ": " ++ text resp))
      else
        info <- response_json resp ;;
        status <- lift (Json.subscript info "status") ;;
        if Json.eq_str status "completed" || Json.eq_str status "unknown" then
          ret (LoopDone (Some info))
        else
          time_sleep 1000 ;;;
          poll rounds' r (Some info)
  end.

(** The two ways the terminal answer is read. *)
Definition poll_success (info : json) : outcome bool :=
  if playground then
    match Json.get info "status" JNull with
    | Returned status => Returned (Json.eq_str status "completed")
    | Raised x => Raised x
    end
  else
    match Json.get info "ok" (JBool false) with
    | Returned ok => Returned (Json.truthy ok)
    | Raised x => Raised x
    end.

(** The condition under which the settle sleep is skipped.  The version is
    whatever the caller found in the package list, or the text [norestart];
    only text can be parsed. *)
Definition settle_not_needed (server_version_da : json) : outcome bool :=
  if Json.eq_str server_version_da "norestart" then Returned true
  else
    match server_version_da with
    | JStr version_text =>
        match parse version_text with
        | None => Raised InvalidVersion
        | Some v =>
            match parse "1.5.3" with
            | None => Raised InvalidVersion
            | Some threshold => Returned (v_ge v threshold)
            end
        end
    | _ => Raised TypeError
    end.

(** The value returned: [True], [False], or the text of the early return. *)
Inductive wait_result : Type :=
| WaitBool (success : bool)
| WaitMessage (message : string).

Definition wait_for_server (server_version_da : json) : M wait_result :=
  before_wait_for_server <- time_time ;;
  exit <- poll 300 None None ;;
  match exit with
  | EarlyReturn message => ret (WaitMessage message)
  | LoopDone info =>
      after_wait_for_server <- time_time ;;
      info <- read_local "info" info ;;
      success <- lift (poll_success info) ;;
      skip <- lift (settle_not_needed server_version_da) ;;
      (if negb skip
       then time_sleep (after_wait_for_server - before_wait_for_server)
       else ret tt) ;;;
      ret (WaitBool success)
  end.

End WaitForServer.

(** In a condition the returned value counts as true unless it is [False]:
    the message of an early return is never empty. *)
Definition wait_truthy (v : wait_result) : bool :=
  match v with
  | WaitBool b => b
  | WaitMessage m => negb (PyStr.is_empty m)
  end.

(* ------------------------------------------------------------------------- *)
(** ** package_installer: the directory scan *)
(* ------------------------------------------------------------------------- *)

(** [os.path.join(a, b)] with the POSIX separator. *)
Definition path_join (a b : string) : string :=
  if PyStr.startswith "/" b then b
  else if PyStr.is_empty a || PyStr.endswith "/" a then a ++ b
  else a ++ "/" ++ b.

(** A file with its text (the scan reads that of [setup.py] only) and a
    directory with what [os.walk] lists in it, in listing order.  The names
    in one directory are distinct. *)
Record file : Type := mk_file {
  fname : string;
  ftext : string
}.

#[warnings="-register-all"]
Inductive tree : Type :=
| Dir (dname : string) (subdirs : list tree) (files : list file).

Definition dname_of (t : tree) : string :=
  match t with Dir n _ _ => n end.

(** The two searches of the descriptor text, made with the [re] module: the
    groups of the quoted [name=] argument, and the bracketed text of
    [install_requires]. *)
Class DescriptorPatterns : Type := {
  search_name : string -> option (string * string * string);
  search_install_requires : string -> option string
}.

(** The locals the walk updates, and the archive members written so far. *)
Record scan_state : Type := mk_scan {
  root_directory : option string;
  has_python_files : bool;
  this_package_name : option string;
  dependencies : dependencies_t;
  archive : list string
}.

Definition initial_scan : scan_state := mk_scan None false None [] [].

Section Scan.
Context {DP : DescriptorPatterns}.

(** The ignore listing, each path without its trailing slashes. *)
Variable to_ignore : list string.

(** [os.sep.join(root.split(os.sep)[1:])]. *)
Definition adjusted (root : string) : string :=
  PyStr.join "/" (tl (PyStr.split "/" root)).

Definition pruned_names : list string :=
  [".git"; "__pycache__"; ".mypy_cache"; ".venv"; ".history"; "build"].

(** The filter assigned to [dirs[:]]: the directories the walk goes on
    into. *)
Definition keep_dir (adjusted_root d : string) : bool :=
  negb (PyStr.str_in d pruned_names)
  && negb (PyStr.endswith ".egg-info" d)
  && negb (PyStr.str_in (path_join adjusted_root d) to_ignore).

Definition has_file (name : string) (files : list file) : bool :=
  PyStr.str_in name (map fname files).

Definition read_file (name : string) (files : list file) : string :=
  match find (fun f => String.eqb (fname f) name) files with
  | Some f => ftext f
  | None => EmptyString
  end.

Definition is_root (st : scan_state) (root : string) : bool :=
  match root_directory st with
  | Some r => String.eqb r root
  | None => false
  end.

(** The first directory holding a descriptor becomes the package root, and
    its [setup.py], if any, is searched for the name and the dependencies. *)
Definition detect_root (st : scan_state) (root : string) (files : list file)
  : scan_state :=
  match root_directory st with
  | Some _ => st
  | None =>
      if has_file "setup.py" files || has_file "setup.cfg" files then
        if has_file "setup.py" files then
          let setup_text := read_file "setup.py" files in
          let name :=
            match search_name setup_text with
            | Some (g1, g2, g3) =>
                if String.eqb g1 g3 then Some (PyStr.strip g2)
                else this_package_name st
            | None => this_package_name st
            end in
          let deps :=
            match search_install_requires setup_text with
            | Some inner => parse_install_requires (dependencies st) inner
            | None => dependencies st
            end in
          mk_scan (Some root) (has_python_files st) name deps (archive st)
        else
          mk_scan (Some root) (has_python_files st) (this_package_name st)
                  (dependencies st) (archive st)
      else st
  end.

(** The test that makes the file loop [continue]. *)
Definition skip_file (st : scan_state) (root adjusted_root the_file : string) : bool :=
  PyStr.endswith "~" the_file || PyStr.endswith ".pyc" the_file
  || PyStr.endswith ".swp" the_file
  || PyStr.startswith "#" the_file || PyStr.startswith ".#" the_file
  || (String.eqb the_file ".gitignore" && is_root st root)
  || PyStr.str_in (path_join adjusted_root the_file) to_ignore.

(** One round of [for the_file in files]; the member is recorded by the path
    it is read from. *)
Definition scan_file (root adjusted_root : string) (st : scan_state) (f : file)
  : scan_state :=
  let the_file := fname f in
  if skip_file st root adjusted_root the_file then st
  else
    let py :=
      negb (has_python_files st) && PyStr.endswith ".py" the_file
      && negb (String.eqb the_file "setup.py" && is_root st root)
      && negb (String.eqb the_file "__init__.py") in
    mk_scan (root_directory st) (if py then true else has_python_files st)
            (this_package_name st) (dependencies st)
            (archive st ++ [path_join root the_file]).

(** The body of the walk loop for one [(root, dirs, files)]. *)
Definition visit (st : scan_state) (root : string) (files : list file) : scan_state :=
  fold_left (scan_file root (adjusted root)) files (detect_root st root files).

(** [os.walk(directory, topdown=True)] with the body above: a directory is
    visited, then the kept subdirectories in listing order. *)
Fixpoint walk (t : tree) (root : string) (st : scan_state) : scan_state :=
  match t with
  | Dir _ subdirs files =>
      fold_left
        (fun st sub =>
           if keep_dir (adjusted root) (dname_of sub)
           then walk sub (path_join root (dname_of sub)) st
           else st)
        subdirs (visit st root files)
  end.

End Scan.

(** [to_ignore] from the lines the version-control helper printed (none when
    the helper failed). *)
Definition to_ignore_of (raw_ignore : list string) : list string :=
  map (PyStr.rstrip_char "/") raw_ignore.

Definition scan {DP : DescriptorPatterns} (raw_ignore : list string)
  (directory : string) (t : tree) : scan_state :=
  walk (to_ignore_of raw_ignore) t directory initial_scan.

(* ------------------------------------------------------------------------- *)
(** ** package_installer: the restart decision *)
(* ------------------------------------------------------------------------- *)

(** What [package_installer] returns: [0], [1], or the text of an error. *)
Inductive installer_result : Type :=
| Code (z : Z)
| Message (s : string).

(** A step that either ends the function with a value or goes on. *)
Definition or_return {A} (m : M (installer_result + A))
  (k : A -> M installer_result) : M installer_result :=
  x <- m ;; match x with inl r => ret r | inr a => k a end.

Notation "x <-? m ;; k" := (or_return m (fun x => k))
  (at level 61, m at next level, right associativity).

Definition go_on {A} (a : A) : M (installer_result + A) := ret (inr a).
Definition return_now {A} (r : installer_result) : M (installer_result + A) :=
  ret (inl r).

(** A string in a condition. *)
Definition str_truthy (s : option string) : bool :=
  match s with
  | Some t => negb (PyStr.is_empty t)
  | None => false
  end.

(** The substitution that turns a leading [docassemble.] into
    [docassemble-]. *)
Definition alt_name_of (name : string) : string :=
  match PyStr.strip_prefix "docassemble." name with
  | Some rest => "docassemble-" ++ rest
  | None => name
  end.

Section RestartDecision.
Context {PV : PackagingVersion}.

Variable apiurl : string.
Variable apikey : string.

Definition package_list_request : request :=
  mk_request GET (apiurl ++ "/api/package") apikey [] [] None.

(** The two parsed versions of one comparison, left operand first. *)
Definition parsed_versions (package_info : json) (dependency_info : dependency_info)
  : M (Version * Version) :=
  pv <- lift (Json.subscript package_info "version") ;;
  pv_text <- lift (Json.as_str pv) ;;
  a <- parse_version pv_text ;;
  dv_text <- (match version dependency_info with
              | Some t => ret t
              | None => raise TypeError
              end) ;;
  b <- parse_version dv_text ;;
  ret (a, b).

(** [condition] for a dependency whose name matched the package. *)
Definition version_condition (package_info : json) (dependency_info : dependency_info)
  : M bool :=
  match operator dependency_info with
  | None => ret true
  | Some op =>
      if PyStr.is_empty op then ret true
      else if String.eqb op "==" then
        ab <- parsed_versions package_info dependency_info ;;
        ret (v_eq (fst ab) (snd ab))
      else if String.eqb op "<=" then
        ab <- parsed_versions package_info dependency_info ;;
        ret (v_le (fst ab) (snd ab))
      else if String.eqb op ">=" then
        ab <- parsed_versions package_info dependency_info ;;
        ret (v_ge (fst ab) (snd ab))
      else if String.eqb op "<" then
        ab <- parsed_versions package_info dependency_info ;;
        ret (v_lt (fst ab) (snd ab))
      else if String.eqb op ">" then
        ab <- parsed_versions package_info dependency_info ;;
        ret (v_gt (fst ab) (snd ab))
      else ret true
  end.

Definition mark_installed (d : dependency_info) : dependency_info :=
  mk_dependency true (operator d) (version d).

(** The inner loop over [dependencies.items()] for one installed package. *)
Fixpoint mark_dependencies (name alt_name : string) (package_info : json)
  (deps : dependencies_t) : M dependencies_t :=
  match deps with
  | [] => ret []
  | (dependency_name, dependency_info) :: rest =>
      info' <-
        (if String.eqb dependency_name name || String.eqb dependency_name alt_name
         then
           condition <- version_condition package_info dependency_info ;;
           ret (if condition then mark_installed dependency_info else dependency_info)
         else ret dependency_info) ;;
      rest' <- mark_dependencies name alt_name package_info rest ;;
      ret ((dependency_name, info') :: rest')
  end.

(** One round of [for package_info in installed_packages], on the pair
    [(already_installed, dependencies)]. *)
Definition lookup_package (this_package_name : option string)
  (acc : bool * dependencies_t) (package_info : json) : M (bool * dependencies_t) :=
  name_value <- lift (Json.subscript package_info "name") ;;
  name <- lift (Json.as_str name_value) ;;
  let alt_name := alt_name_of name in
  deps <- mark_dependencies name alt_name package_info (snd acc) ;;
  let found :=
    match this_package_name with
    | Some n => negb (PyStr.is_empty n) && (String.eqb n name || String.eqb n alt_name)
    | None => false
    end in
  ret (if found then true else fst acc, deps).

Fixpoint lookup_packages (this_package_name : option string)
  (installed_packages : list json) (acc : bool * dependencies_t)
  : M (bool * dependencies_t) :=
  match installed_packages with
  | [] => ret acc
  | package_info :: rest =>
      acc' <- lookup_package this_package_name acc package_info ;;
      lookup_packages this_package_name rest acc'
  end.

(** The last assignment of the dependency branch. *)
Definition restart_formula (already_installed : bool) (deps : dependencies_t) : bool :=
  (negb already_installed && (0 <? List.length deps)%nat)
  || negb (forallb installed (PyDict.values deps)).

(** [should_restart], or the early return of the dependency branch. *)
Definition decide_restart (restart : string) (st : scan_state)
  : M (installer_result + bool) :=
  if String.eqb restart "no" then go_on false
  else if String.eqb restart "yes" || has_python_files st then go_on true
  else if (0 <? List.length (dependencies st))%nat
          || str_truthy (this_package_name st) then
    answer <- http package_list_request ;;
    match answer with
    | NetErr => raise ClickException
    | Resp r =>
        if negb (status_code r =? 200)%Z then
          return_now (Message ("/api/package returned "
                                 ++ str_of_Z (status_code r) ++ ": " ++ text r))
        else
          installed_packages <- response_json r ;;
          packages <- lift (Json.iter installed_packages) ;;
          found <- lookup_packages (this_package_name st) packages
                     (false, dependencies st) ;;
          go_on (restart_formula (fst found) (snd found))
    end
  else go_on true.

End RestartDecision.

(* ------------------------------------------------------------------------- *)
(** ** package_installer: the remote install *)
(* ------------------------------------------------------------------------- *)

Section Installer.
Context {PV : PackagingVersion} {DP : DescriptorPatterns}.

Variable apiurl : string.
Variable apikey : string.

(** The loop that looks for the package named [docassemble] in the list and
    keeps the version of the last one found. *)
Fixpoint find_server_version (packages : list json) (current : option json)
  : outcome (option json) :=
  match packages with
  | [] => Returned current
  | package :: rest =>
      match Json.get package "name" (JStr "") with
      | Raised e => Raised e
      | Returned name =>
          if Json.eq_str name "docassemble" then
            match Json.get package "version" (JStr "0") with
            | Raised e => Raised e
            | Returned v => find_server_version rest (Some v)
            end
          else find_server_version rest current
      end
  end.

(** [raise_for_status] raises for the codes from 400 to 599. *)
Definition is_http_error (code : Z) : bool :=
  ((400 <=? code) && (code <? 600))%Z.

(** The local [server_version_da] after the block that follows the decision:
    every exception of the guarded part becomes a [ClickException]; when no
    restart is due the local is the text [norestart]. *)
Definition server_version_phase (should_restart : bool) : M (option json) :=
  if should_restart then
    answer <- http (package_list_request apiurl apikey) ;;
    match answer with
    | NetErr => raise ClickException
    | Resp server_packages =>
        if negb (status_code server_packages =? 200)%Z then
          if is_http_error (status_code server_packages)
          then raise ClickException
          else ret None
        else
          match json_body server_packages with
          | None => raise ClickException
          | Some installed_packages =>
              match Json.iter installed_packages with
              | Raised _ => raise ClickException
              | Returned packages =>
                  match find_server_version packages None with
                  | Raised _ => raise ClickException
                  | Returned v => ret v
                  end
              end
          end
    end
  else ret (Some (JStr "norestart")).

Definition initial_data (should_restart : bool) : PyDict.t string :=
  if should_restart then [] else PyDict.set "restart" "0" [].

Definition project_endpoint : string := apiurl ++ "/api/playground/project".

Definition project_list_request : request :=
  mk_request GET project_endpoint apikey [] [] None.

Definition create_project_request (project : string) : request :=
  mk_request POST project_endpoint apikey [] [("project", project)] None.

Definition playground_install_request (data : PyDict.t string) : request :=
  mk_request POST (apiurl ++ "/api/playground_install") apikey [] data (Some "file").

Definition package_request (data : PyDict.t string) : request :=
  mk_request POST (apiurl ++ "/api/package") apikey [] data (Some "zip").

Definition clear_cache_request : request :=
  mk_request POST (apiurl ++ "/api/clear_cache") apikey [] [] None.

(** A call whose [except Exception] raises a [ClickException]. *)
Definition http_or_click (q : request) : M response :=
  answer <- http q ;;
  match answer with
  | Resp r => ret r
  | NetErr => raise ClickException
  end.

(** The block for a 400 answer to the first submission: it ends the function,
    or it creates the project and gives the answer to the one
    resubmission. *)
Definition retry_invalid_project (data : PyDict.t string) (r : response)
  : M (installer_result + response) :=
  let error_message :=
    match json_body r with
    | Some j => j
    | None => JStr EmptyString
    end in
  match PyDict.get "project" data with
  | None =>
      return_now (Message ("playground_install POST returned "
                             ++ str_of_Z (status_code r) ++ ": " ++ text r))
  | Some project =>
      if negb (Json.eq_str error_message "Invalid project.") then
        return_now (Message ("playground_install POST returned "
                               ++ str_of_Z (status_code r) ++ ": " ++ text r))
      else
        created <- http_or_click (create_project_request project) ;;
        if negb (status_code created =? 204)%Z then
          return_now (Message
            ("needed to create playground project but POST to api/playground/project returned "
               ++ str_of_Z (status_code created) ++ ": " ++ text created))
        else
          again <- http_or_click (playground_install_request data) ;;
          go_on again
  end.

(** The branch taken when [playground] is a non-empty string. *)
Definition install_in_playground (playground : string)
  (server_version_da : option json) (data0 : PyDict.t string)
  : M installer_result :=
  let data :=
    if negb (String.eqb playground "default")
    then PyDict.set "project" playground data0 else data0 in
  listing <- http project_list_request ;;
  match listing with
  | NetErr => raise RequestException
  | Resp project_list =>
      _ <-? (if (status_code project_list =? 200)%Z then
               (* the membership test on the response object never finds
                  the name, so the project is always posted *)
               posted <- http (create_project_request playground) ;;
               match posted with
               | Resp _ => go_on tt
               | NetErr =>
                   return_now (Message ("create project POST returned "
                                          ++ text project_list))
               end
             else
               return_now (Message ("playground list of projects GET returned "
                                      ++ str_of_Z (status_code project_list)
                                      ++ ": " ++ text project_list))) ;;
      first <- http_or_click (playground_install_request data) ;;
      r <-? (if (status_code first =? 400)%Z
             then retry_invalid_project data first
             else go_on first) ;;
      success <-?
        (if (status_code r =? 200)%Z then
           match json_body r with
           | None => return_now (Message (text r))
           | Some info =>
               task_id <- lift (Json.subscript info "task_id") ;;
               version <- read_local "server_version_da" server_version_da ;;
               waited <- wait_for_server true task_id apikey apiurl version ;;
               go_on (wait_truthy waited)
           end
         else if (status_code r =? 204)%Z then go_on true
         else
           return_now (Message ("playground_install POST returned "
                                  ++ str_of_Z (status_code r) ++ ": " ++ text r))) ;;
      if success : bool then ret (Code 0) else ret (Code 1)
  end.

(** The branch taken otherwise: the package endpoint. *)
Definition install_as_package (should_restart : bool)
  (server_version_da : option json) (data : PyDict.t string)
  : M installer_result :=
  r <- http_or_click (package_request data) ;;
  if negb (status_code r =? 200)%Z then
    ret (Message ("package POST returned "
                    ++ str_of_Z (status_code r) ++ ": " ++ text r))
  else
    info <- response_json r ;;
    task_id <- lift (Json.subscript info "task_id") ;;
    version <- read_local "server_version_da" server_version_da ;;
    _ <- wait_for_server false task_id apikey apiurl version ;;
    if negb should_restart then
      cleared <- http_or_click clear_cache_request ;;
      if negb (status_code cleared =? 204)%Z then
        ret (Message ("clear_cache returned "
                        ++ str_of_Z (status_code cleared) ++ ": " ++ text cleared))
      else ret (Code 0)
    else ret (Code 0).

(** The part of [package_installer] after the scan. *)
Definition install_scanned (st : scan_state) (playground : option string)
  (restart : string) : M installer_result :=
  should_restart <-? decide_restart apiurl apikey restart st ;;
  server_version_da <- server_version_phase should_restart ;;
  let data := initial_data should_restart in
  debug <- debug_flag ;;
  (if debug : bool
   then _ <- read_local "server_version_da" server_version_da ;; ret tt
   else ret tt) ;;;
  match playground with
  | Some project =>
      if PyStr.is_empty project
      then install_as_package should_restart server_version_da data
      else install_in_playground project server_version_da data
  | None => install_as_package should_restart server_version_da data
  end.

(** [package_installer]: the scan of the directory, of which [raw_ignore] is
    the ignore listing, then the remote part. *)
Definition package_installer (raw_ignore : list string) (directory : string)
  (t : tree) (playground : option string) (restart : string)
  : M installer_result :=
  install_scanned (scan raw_ignore directory t) playground restart.

(** The [install] command for the selected server: the value of
    [package_installer] is dropped. *)
Definition install (raw_ignore : list string) (directory : string) (t : tree)
  (playground : option string) (restart : string) : M Z :=
  package_installer raw_ignore directory t playground restart ;;;
  ret 0%Z.

End Installer.

(* ------------------------------------------------------------------------- *)
(** ** The watch command *)
(* ------------------------------------------------------------------------- *)

(** A file-system event as the observer hands it to the handler. *)
Record fs_event : Type := mk_fs_event {
  is_directory : bool;
  event_type : string;
  src_path : string
}.

(** The module-level [LAST_MODIFIED] record. *)
Record last_modified : Type := mk_last_modified {
  lm_time : Z;
  lm_files : PyDict.t bool;
  lm_restart : bool
}.

Definition no_changes : last_modified := mk_last_modified 0 [] false.

(** The ignore matcher of the watch handler, made with the [gitmatch]
    library from the ignore file of the directory: path first, directory
    second. *)
Class IgnoreMatcher : Type := {
  matches_ignore_patterns : string -> string -> bool
}.

(** What the loop sees at one of its rounds: the events the observer thread
    delivered since the round before, and the directory as it then is. *)
Record tick : Type := mk_tick {
  delivered : list fs_event;
  snapshot : tree
}.

Definition backslash : ascii := ascii_of_nat 92.
Definition double_quote : string := String (ascii_of_nat 34) EmptyString.

Section Watch.
Context {PV : PackagingVersion} {DP : DescriptorPatterns} {IM : IgnoreMatcher}.

Variable directory : string.
Variable apiurl : string.
Variable apikey : string.
Variable playground : option string.
Variable restart_param : string.
Variable buffer : Z.
Variable raw_ignore : list string.

(** [WatchHandler.on_any_event] at clock reading [now]. *)
Definition on_any_event (now : Z) (lm : last_modified) (event : fs_event)
  : last_modified :=
  if is_directory event then lm
  else if String.eqb (event_type event) "created"
          || String.eqb (event_type event) "modified" then
    let path := PyStr.replace_char backslash "/" (src_path event) in
    if negb (matches_ignore_patterns path directory) then
      mk_last_modified now
        (PyDict.set (src_path event) true (lm_files lm))
        (if PyStr.endswith ".py" (src_path event) then true else lm_restart lm)
    else lm
  else lm.

(** One round of [while True]: the pending changes, if any, are cleared and
    one synchronisation is run; then the loop sleeps a second. *)
Definition drain_round (lm : last_modified) (t : tick) : M last_modified :=
  now <- time_time ;;
  let lm := fold_left (on_any_event now) (delivered t) lm in
  lm' <-
    (if negb (lm_time lm =? 0)%Z then
       let restart :=
         if String.eqb restart_param "yes"
            || (String.eqb restart_param "auto" && lm_restart lm)
         then "yes" else "no" in
       (if String.eqb restart "yes" then time_sleep (buffer * 1000) else ret tt) ;;;
       package_installer apiurl apikey raw_ignore directory (snapshot t)
         playground restart ;;;
       ret no_changes
     else ret lm) ;;
  time_sleep 1000 ;;;
  ret lm'.

(** The loop over the rounds that happen before the interrupt that ends the
    session. *)
Fixpoint drain (ticks : list tick) (lm : last_modified) : M unit :=
  match ticks with
  | [] => raise KeyboardInterrupt
  | t :: rest =>
      lm' <- drain_round lm t ;;
      drain rest lm'
  end.

Definition stop_message : string :=
  String PyStr.newline
    ("Stopping " ++ double_quote ++ "docassemblecli3 watch" ++ double_quote ++ ".").

(** [watch]: the loop inside [try]; the handler of [Exception] only prints,
    and the [finally] block stops the observer and returns, which also ends
    an interrupt that was on its way out. *)
Definition watch (ticks : list tick) : M string :=
  fun e w =>
    match drain ticks no_changes e w with
    | (Returned _, w') => (Returned stop_message, w')
    | (Raised _, w') => (Returned stop_message, w')
    end.

End Watch.

(* ------------------------------------------------------------------------- *)
(** ** The split the specification describes, for comparison *)
(* ------------------------------------------------------------------------- *)

Module SpecSplit.

(** The operator standing at the head of [s], if one does. *)
Definition head_operator (s : string) : option string :=
  match OperatorPattern.alternation OperatorPattern.operators s with
  | Some (op, _) => Some op
  | None => None
  end.

(** The text cut at the first place where an operator stands. *)
Fixpoint first_occurrence (s : string) : option (string * string * string) :=
  match head_operator s with
  | Some op =>
      match PyStr.strip_prefix op s with
      | Some rest => Some (EmptyString, op, rest)
      | None => None
      end
  | None =>
      match s with
      | EmptyString => None
      | String c r =>
          match first_occurrence r with
          | Some (name, op, rest) => Some (String c name, op, rest)
          | None => None
          end
      end
  end.

(** Whether an operator stands at some place of [s]. *)
Fixpoint contains_operator (s : string) : bool :=
  match head_operator s with
  | Some _ => true
  | None =>
      match s with
      | EmptyString => false
      | String _ r => contains_operator r
      end
  end.

(** [s] without its first character. *)
Definition after_first_char (s : string) : string :=
  match s with
  | EmptyString => EmptyString
  | String _ r => r
  end.

(** The entry as the specification words it: name, operator and version cut
    at the first occurrence of an operator. *)
Definition split_at_first_operator (s : string) : string * dependency_info :=
  match first_occurrence s with
  | Some (name, op, rest) =>
      (PyStr.strip name, mk_dependency false (Some op) (Some (PyStr.strip rest)))
  | None => (s, mk_dependency false None None)
  end.

End SpecSplit.

(* ------------------------------------------------------------------------- *)
(** ** Notions used in the statements *)
(* ------------------------------------------------------------------------- *)

(** A computation that leaves the world as it found it. *)
Definition stateless {A} (m : M A) : Prop := forall e w, snd (m e w) = w.

(** The directories the walk filter drops for their name alone. *)
Definition pruned_by_name (d : string) : bool :=
  PyStr.str_in d pruned_names || PyStr.endswith ".egg-info" d.

(** [drops to_ignore root t t']: [t'] is [t] without one directory that the
    walk filter drops at the place where the walk from [root] meets it. *)
Inductive drops (to_ignore : list string) : string -> tree -> tree -> Prop :=
| drops_here root name pre sub post files :
    keep_dir to_ignore (adjusted root) (dname_of sub) = false ->
    drops to_ignore root (Dir name (pre ++ sub :: post) files)
                         (Dir name (pre ++ post) files)
| drops_below root name pre sub sub' post files :
    dname_of sub' = dname_of sub ->
    drops to_ignore (path_join root (dname_of sub)) sub sub' ->
    drops to_ignore root (Dir name (pre ++ sub :: post) files)
                         (Dir name (pre ++ sub' :: post) files).

(** [without_pruned_name t t']: [t'] is [t] without one directory, at any
    depth, that the walk filter drops for its name. *)
Inductive without_pruned_name : tree -> tree -> Prop :=
| pruned_here name pre sub post files :
    pruned_by_name (dname_of sub) = true ->
    without_pruned_name (Dir name (pre ++ sub :: post) files)
                        (Dir name (pre ++ post) files)
| pruned_below name pre sub sub' post files :
    dname_of sub' = dname_of sub ->
    without_pruned_name sub sub' ->
    without_pruned_name (Dir name (pre ++ sub :: post) files)
                        (Dir name (pre ++ sub' :: post) files).

Section Rounds.
Context {PV : PackagingVersion} {DP : DescriptorPatterns} {IM : IgnoreMatcher}.

(** The rounds of the watch loop for the given ticks, without the interrupt
    that [drain] ends with: the pending changes they leave. *)
Fixpoint rounds (directory apiurl apikey : string) (playground : option string)
  (restart_param : string) (buffer : Z) (raw_ignore : list string)
  (ticks : list tick) (lm : last_modified) : M last_modified :=
  match ticks with
  | [] => ret lm
  | t :: rest =>
      lm' <- drain_round directory apiurl apikey playground restart_param
               buffer raw_ignore lm t ;;
      rounds directory apiurl apikey playground restart_param buffer raw_ignore
        rest lm'
  end.

End Rounds.

(** Whether an entry of the package list bears the declared name, as such or
    in the hyphenated form. *)
Definition names_package (this_package_name : option string) (package_info : json)
  : bool :=
  match this_package_name, Json.subscript package_info "name" with
  | Some n, Returned (JStr name) =>
      negb (PyStr.is_empty n)
      && (String.eqb n name || String.eqb n (alt_name_of name))
  | _, _ => false
  end.

(** The restart flag of the dependency branch as the specification words
    it: restart unless the package is installed and every dependency is. *)
Definition spec_restart_formula (already_installed : bool) (deps : dependencies_t)
  : bool :=
  negb (already_installed && forallb installed (PyDict.values deps)).

(** A text without line feed, as every entry written on one line is. *)
Definition one_line (s : string) : Prop :=
  PyStr.char_in PyStr.newline s = false.

(* ------------------------------------------------------------------------- *)
(** ** Instances for the examples *)
(* ------------------------------------------------------------------------- *)

(** Release versions: numbers separated by dots, compared component by
    component, a missing component counting as zero.  This is how the
    version library orders the versions that consist of a release only. *)
Module ReleaseVersion.

Definition digit (c : ascii) : option N :=
  let n := N_of_ascii c in
  if ((48 <=? n) && (n <=? 57))%N then Some (n - 48)%N else None.

(** [cur] is the component being read, [None] before its first digit. *)
Fixpoint parse_release (s : string) (cur : option N) : option (list N) :=
  match s with
  | EmptyString =>
      match cur with
      | Some n => Some [n]
      | None => None
      end
  | String c r =>
      if Ascii.eqb c "." then
        match cur with
        | Some n =>
            match parse_release r None with
            | Some l => Some (n :: l)
            | None => None
            end
        | None => None
        end
      else
        match digit c with
        | Some d =>
            parse_release r
              (Some (10 * match cur with Some n => n | None => 0 end + d)%N)
        | None => None
        end
  end.

Definition all_zero (l : list N) : bool := forallb (N.eqb 0) l.

Fixpoint compare_release (a b : list N) : comparison :=
  match a, b with
  | [], _ => if all_zero b then Eq else Lt
  | _, [] => if all_zero a then Eq else Gt
  | x :: a', y :: b' =>
      match N.compare x y with
      | Eq => compare_release a' b'
      | c => c
      end
  end.

#[export] Instance releases : PackagingVersion := {|
  Version := list N;
  parse := fun s => parse_release s None;
  vcompare := compare_release
|}.

End ReleaseVersion.

(** A descriptor in which the patterns find nothing. *)
Definition no_patterns : DescriptorPatterns := {|
  search_name := fun _ => None;
  search_install_requires := fun _ => None
|}.

(** A descriptor that declares the name [docassemble.demo] between double
    quotes and an empty dependency list, and what the two patterns find in
    it. *)
Definition demo_setup_text : string :=
  "setup(name=" ++ double_quote ++ "docassemble.demo" ++ double_quote
    ++ ", install_requires=[])".

Definition demo_patterns : DescriptorPatterns := {|
  search_name := fun text =>
    if String.eqb text demo_setup_text
    then Some (double_quote, "docassemble.demo", double_quote) else None;
  search_install_requires := fun text =>
    if String.eqb text demo_setup_text then Some EmptyString else None
|}.

(** A matcher that ignores nothing. *)
Definition ignore_nothing : IgnoreMatcher := {|
  matches_ignore_patterns := fun _ _ => false
|}.

(** A server that answers the n-th request with the n-th reply of a script,
    and no longer answers when the script is used up; every request takes
    [took] milliseconds. *)
Definition scripted (script : list reply) (took : Z) (debug : bool) : env :=
  mk_env (fun n => nth n script NetErr) (fun _ => took) debug.

Definition ok_json (body : json) : reply :=
  Resp (mk_response 200 EmptyString (Some body)).

Definition status_reply (status : string) : reply :=
  ok_json (JObj [("status", JStr status)]).

(** The answers of a server on which the install of a package with code
    fails: the package list, the task, and the terminal status. *)
Definition failing_install_script : list reply :=
  [ok_json (JList [JObj [("name", JStr "docassemble"); ("version", JStr "1.6.0")]]);
   ok_json (JObj [("task_id", JStr "task-1")]);
   ok_json (JObj [("status", JStr "completed"); ("ok", JBool false);
                  ("error_message", JStr "pip exited with an error")])].

Definition code_package : tree :=
  Dir "docassemble-demo" []
    [mk_file "setup.py" demo_setup_text; mk_file "util.py" ""].

(** The world in which the examples of the watch loop start: the clock
    reads a time after the epoch. *)
Definition watch_start : world := mk_world [] 0 1700000000000.

(** Two ticks that each bring a change to a data file. *)
Definition two_changes : list tick :=
  let t := Dir "docassemble-demo" [] [mk_file "interview.yml" ""] in
  [mk_tick [mk_fs_event false "modified" "/pkg/interview.yml"] t;
   mk_tick [mk_fs_event false "modified" "/pkg/interview.yml"] t].

(* ------------------------------------------------------------------------- *)
(** ** Observations on the replies to status requests *)
(* ------------------------------------------------------------------------- *)

(** The decoded body of a reply with code 200. *)
Definition polled_info (a : reply) : option json :=
  match a with
  | Resp r => if (status_code r =? 200)%Z then json_body r else None
  | NetErr => None
  end.

(** Its [status] entry. *)
Definition polled_status (a : reply) : option json :=
  match polled_info a with
  | Some info =>
      match Json.subscript info "status" with
      | Returned st => Some st
      | Raised _ => None
      end
  | None => None
  end.

Definition has_status (status : string) (a : reply) : bool :=
  match polled_status a with
  | Some st => Json.eq_str st status
  | None => false
  end.

(** Whether its [ok] entry is present and true. *)
Definition ok_flag (a : reply) : bool :=
  match polled_info a with
  | Some info =>
      match Json.get info "ok" (JBool false) with
      | Returned ok => Json.truthy ok
      | Raised _ => false
      end
  | None => false
  end.

(** The replies to the [k] requests that follow the world [w] all carry the
    given status. *)
Definition next_replies_have (status : string) (e : env) (w : world) (k : nat) : bool :=
  forallb (fun i => has_status status (server e i)) (seq (sent w) k).

(** The world after [k] rounds of the poll loop that went on to the sleep. *)
Fixpoint after_rounds (q : request) (e : env) (k : nat) (w : world) : world :=
  match k with
  | O => w
  | S k' => after_rounds q e k' (after_sleep 1000 (after_request q e w))
  end.

(** The environment in which the request numbered [i] gets the reply [a]
    and nothing else changes. *)
Definition with_reply (e : env) (i : nat) (a : reply) : env :=
  mk_env (fun n => if Nat.eqb n i then a else server e n) (latency e) (DEBUG e).

(** The requests among the events, in order. *)
Definition requests_of (evs : list event) : list request :=
  flat_map (fun ev => match ev with Request q => [q] | Sleep _ => [] end) evs.

(* ------------------------------------------------------------------------- *)
(** ** The list of servers of the configuration *)
(* ------------------------------------------------------------------------- *)

(** The network location that [urlparse] finds in a URL. *)
Class UrlParser : Type := {
  netloc : string -> string
}.

(** What the functions on the configuration end with: a value, one of the
    two exceptions of the command-line library, or an exception that escapes
    from the handling of the entries. *)
Inductive config_exn : Type :=
| BadParameter (message : string)
| Abort
| Escaped (e : exn).

Inductive config_outcome (A : Type) : Type :=
| Done (a : A)
| Failed (x : config_exn).
Arguments Done {A} a.
Arguments Failed {A} x.

Section Servers.
Context {UP : UrlParser}.

(** [name_from_url]. *)
Definition name_from_url (url : string) : string :=
  if PyStr.is_empty url then EmptyString else netloc url.

Definition default_mark : string := " (default)".

(** The loop of [display_servers] from the second entry on. *)
Fixpoint display_rest (env : list json) : outcome (list json) :=
  match env with
  | [] => Returned []
  | item :: rest =>
      match Json.get item "name" (JStr EmptyString) with
      | Raised x => Raised x
      | Returned name =>
          match display_rest rest with
          | Raised x => Raised x
          | Returned names => Returned (name :: names)
          end
      end
  end.

(** [display_servers]: the names, the first one marked as the default; the
    mark can only be appended to text. *)
Definition display_servers (env : list json) : outcome (list json) :=
  match env with
  | [] => Returned [JStr "No servers found."]
  | item :: rest =>
      match Json.get item "name" (JStr EmptyString) with
      | Raised x => Raised x
      | Returned (JStr name) =>
          match display_rest rest with
          | Raised x => Raised x
          | Returned names => Returned (JStr (name ++ default_mark) :: names)
          end
      | Returned _ => Raised TypeError
      end
  end.

(** The two assignments to the entry that bears the name. *)
Definition update_entry (apiurl apikey : string) (item : json) : json :=
  match item with
  | JObj fields =>
      JObj (PyDict.set "apikey" (JStr apikey)
              (PyDict.set "apiurl" (JStr apiurl) fields))
  | other => other
  end.

(** The loop of [add_or_update_env]: the list with the first entry of that
    name updated, or [None] when no entry bears the name. *)
Fixpoint update_named (apiname apiurl apikey : string) (env : list json)
  : outcome (option (list json)) :=
  match env with
  | [] => Returned None
  | item :: rest =>
      match Json.get item "name" JNull with
      | Raised x => Raised x
      | Returned name =>
          if Json.eq_str name apiname
          then Returned (Some (update_entry apiurl apikey item :: rest))
          else
            match update_named apiname apiurl apikey rest with
            | Raised x => Raised x
            | Returned (Some rest') => Returned (Some (item :: rest'))
            | Returned None => Returned None
            end
      end
  end.

Definition new_entry (apiurl apikey : string) : json :=
  JObj [("apiurl", JStr apiurl); ("apikey", JStr apikey);
        ("name", JStr (name_from_url apiurl))].

(** [add_or_update_env]. *)
Definition add_or_update_env (env : list json) (apiurl apikey : string)
  : outcome (list json) :=
  match update_named (name_from_url apiurl) apiurl apikey env with
  | Raised x => Raised x
  | Returned (Some env') => Returned env'
  | Returned None => Returned (env ++ [new_entry apiurl apikey])%list
  end.

(** The loop of [select_server] over the entries: the first one that bears
    the name. *)
Fixpoint find_server (server : string) (env : list json) : outcome (option json) :=
  match env with
  | [] => Returned None
  | item :: rest =>
      match Json.get item "name" JNull with
      | Raised x => Raised x
      | Returned name =>
          if Json.eq_str name server then Returned (Some item)
          else find_server server rest
      end
  end.

(** [test_apiurl_apikey]: the package list is requested with the key; only
    an answer with code 200 passes, and no exception leaves the function. *)
Definition test_apiurl_apikey (apiurl apikey : string) : M bool :=
  answer <- http (package_list_request apiurl apikey) ;;
  match answer with
  | Resp api_test => ret (status_code api_test =? 200)%Z
  | NetErr => ret false
  end.

(** What the successive calls of [prompt_for_api] give, in order: a URL and
    a key, or [None] when the user declines or interrupts.  The end of the
    list is the end of the input. *)
Definition prompt_answers : Type := list (option (string * string)).

(** The [while] loop of [add_server_to_env]: the pair that passed the test,
    or [None] when the prompt was left. *)
Fixpoint test_until_valid (answers : prompt_answers) (apiurl apikey : string)
  : M (option (string * string)) :=
  ok <- test_apiurl_apikey apiurl apikey ;;
  if ok : bool then ret (Some (apiurl, apikey))
  else
    match answers with
    | Some (u, k) :: rest => test_until_valid rest u k
    | _ => ret None
    end.

(** The list returned by [add_server_to_env], and the arguments of its call
    of [save_config], if it made one. *)
Record added_server : Type := mk_added {
  new_env : list json;
  saved : option (string * list json)
}.

(** [add_server_to_env]. *)
Definition add_server_to_env (cfg : option string) (env : list json)
  (apiurl apikey : option string) (answers : prompt_answers)
  : M (config_outcome added_server) :=
  let start :=
    match apiurl, apikey with
    | Some u, Some k =>
        if PyStr.is_empty u || PyStr.is_empty k
        then match answers with
             | Some given :: rest => Some (given, rest)
             | _ => None
             end
        else Some ((u, k), answers)
    | _, _ =>
        match answers with
        | Some given :: rest => Some (given, rest)
        | _ => None
        end
    end in
  match start with
  | None => ret (Failed Abort)
  | Some ((u, k), rest) =>
      tested <- test_until_valid rest u k ;;
      match tested with
      | None => ret (Failed Abort)
      | Some (u', k') =>
          match add_or_update_env env u' k' with
          | Raised x => ret (Failed (Escaped x))
          | Returned env' =>
              ret (Done (mk_added env'
                           (if str_truthy cfg then
                              match cfg with Some c => Some (c, env') | None => None end
                            else None)))
          end
      end
  end.

(** [select_server], for the list of servers that the loader of the
    configuration hands over; [environ] holds the two environment variables
    when both are set. *)
Definition select_server (cfg : option string) (env : list json)
  (apiurl apikey : option string) (server : string)
  (environ : option (string * string)) (answers : prompt_answers)
  : M (config_outcome json) :=
  if str_truthy apiurl && str_truthy apikey then
    added <- add_server_to_env cfg env apiurl apikey answers ;;
    match added with
    | Done a => ret (Done (last (new_env a) JNull))
    | Failed x => ret (Failed x)
    end
  else if negb (PyStr.is_empty server) then
    if negb (str_truthy cfg) then
      ret (Failed (BadParameter "Cannot be used without a config file."))
    else
      match find_server server env with
      | Raised x => ret (Failed (Escaped x))
      | Returned (Some item) => ret (Done item)
      | Returned None =>
          ret (Failed (BadParameter ("Server " ++ double_quote ++ server
                                       ++ double_quote ++ " was not found.")))
      end
  else
    match env with
    | item :: _ => ret (Done item)
    | [] =>
        match environ with
        | Some (u, k) =>
            match add_or_update_env [] u k with
            | Raised x => ret (Failed (Escaped x))
            | Returned env' => ret (Done (hd JNull env'))
            end
        | None =>
            added <- add_server_to_env cfg env None None answers ;;
            match added with
            | Done a => ret (Done (hd JNull (new_env a)))
            | Failed x => ret (Failed x)
            end
        end
    end.

End Servers.

(** An entry of the configuration with a name, a URL and a key. *)
Definition server_entry (name apiurl apikey : string) : json :=
  JObj [("apiurl", JStr apiurl); ("apikey", JStr apikey); ("name", JStr name)].

(** A parser for the examples: the text between the two slashes and the next
    slash. *)
Fixpoint until_slash (s : string) : string :=
  match s with
  | EmptyString => EmptyString
  | String c r => if Ascii.eqb c "/" then EmptyString else String c (until_slash r)
  end.

Fixpoint after_double_slash (s : string) : option string :=
  match s with
  | String a (String b r as t) =>
      if Ascii.eqb a "/" && Ascii.eqb b "/" then Some r else after_double_slash t
  | _ => None
  end.

Definition simple_urls : UrlParser := {|
  netloc := fun url =>
    match after_double_slash url with
    | Some rest => until_slash rest
    | None => EmptyString
    end
|}.

(* ------------------------------------------------------------------------- *)
(** ** The names of a new package *)
(* ------------------------------------------------------------------------- *)

(** The substitution of every whitespace character by nothing. *)
Fixpoint remove_whitespace (s : string) : string :=
  match s with
  | EmptyString => EmptyString
  | String c r =>
      if PyStr.is_space c then remove_whitespace r
      else String c (remove_whitespace r)
  end.

(** The lower-case form of a character.  Only the letters A to Z are
    changed: no other code point below 256 has a lower-case form among the
    letters a to z, which are all that the pattern of [create] asks for. *)
Definition lower (c : ascii) : ascii :=
  let n := nat_of_ascii c in
  if ((65 <=? n) && (n <=? 90))%nat then ascii_of_nat (n + 32) else c.

(** A lower-case literal matched at the start of a text without regard to
    case: what follows it, or [None]. *)
Fixpoint strip_prefix_ignore_case (p s : string) : option string :=
  match p with
  | EmptyString => Some s
  | String a p' =>
      match s with
      | EmptyString => None
      | String c s' =>
          if Ascii.eqb (lower c) a then strip_prefix_ignore_case p' s' else None
      end
  end.

(** The second substitution of [create]: the word docassemble at the very
    start, in any case, is removed together with the hyphen or the dot that
    follows it. *)
Definition remove_docassemble (s : string) : string :=
  match strip_prefix_ignore_case "docassemble" s with
  | Some (String c rest) =>
      if Ascii.eqb c "-" || Ascii.eqb c "." then rest else s
  | _ => s
  end.

(** How [create] starts: it gives up with a message, or goes on with the
    name of the package and its directory. *)
Inductive create_start : Type :=
| Invalid (message : string)
| Start (pkgname packagedir : string).

(** The name [create] works on: the option, or the answer to the prompt. *)
Definition entered_name (package : option string) (prompted : string) : string :=
  match package with
  | Some p => if PyStr.is_empty p then prompted else p
  | None => prompted
  end.

(** The first lines of [create]; [prompted] is the answer to the prompt for
    the name. *)
Definition create_names (package : option string) (prompted : string)
  (output : option string) : create_start :=
  let pkgname := remove_whitespace (entered_name package prompted) in
  if PyStr.is_empty pkgname
  then Invalid "The package name you entered is invalid."
  else
    let pkgname := remove_docassemble pkgname in
    Start pkgname
          (match output with
           | Some o => if PyStr.is_empty o then "docassemble-" ++ pkgname else o
           | None => "docassemble-" ++ pkgname
           end).

(* ------------------------------------------------------------------------- *)
(** ** Notions used in the further properties *)
(* ------------------------------------------------------------------------- *)

(** The file names the scan passes over for their shape alone: backup and
    swap files, compiled files, editor lock files. *)
Definition backup_like (the_file : string) : bool :=
  PyStr.endswith "~" the_file || PyStr.endswith ".pyc" the_file
  || PyStr.endswith ".swp" the_file
  || PyStr.startswith "#" the_file || PyStr.startswith ".#" the_file.

(** The name the first pattern gives for a descriptor text. *)
Definition declared_name {DP : DescriptorPatterns} (setup_text : string)
  : option string :=
  match search_name setup_text with
  | Some (g1, g2, g3) => if String.eqb g1 g3 then Some (PyStr.strip g2) else None
  | None => None
  end.

(** A path of the archive that is the path of a file without such a
    name. *)
Definition clean_member (p : string) : Prop :=
  exists root name, p = path_join root name /\ backup_like name = false.

(** An entry of the package list whose [name] is text. *)
Definition names_text (package_info : json) : bool :=
  match Json.subscript package_info "name" with
  | Returned (JStr _) => true
  | _ => false
  end.

(** The answers to the request for the server version that the guarded
    block turns into a [ClickException]: a network failure, an error code,
    or a body that does not decode. *)
Definition version_lookup_fails (a : reply) : bool :=
  match a with
  | NetErr => true
  | Resp r =>
      if (status_code r =? 200)%Z
      then match json_body r with None => true | Some _ => false end
      else is_http_error (status_code r)
  end.

(** The events the watch handler takes up: a file, created or modified,
    whose path the ignore matcher does not match. *)
Definition qualifies {IM : IgnoreMatcher} (directory : string) (event : fs_event)
  : bool :=
  negb (is_directory event)
  && (String.eqb (event_type event) "created"
      || String.eqb (event_type event) "modified")
  && negb (matches_ignore_patterns
             (PyStr.replace_char backslash "/" (src_path event)) directory).

(** A tick that brings no such event. *)
Definition quiet {IM : IgnoreMatcher} (directory : string) (t : tick) : bool :=
  forallb (fun event => negb (qualifies directory event)) (delivered t).

(** A text in which no character of an operator and no line feed occurs. *)
Definition operator_free (s : string) : bool :=
  negb (PyStr.char_in "<" s) && negb (PyStr.char_in ">" s)
  && negb (PyStr.char_in "=" s) && negb (PyStr.char_in PyStr.newline s).

(** A text of whitespace only, and a text without any. *)
Fixpoint blank (s : string) : bool :=
  match s with
  | EmptyString => true
  | String c r => PyStr.is_space c && blank r
  end.

Fixpoint spaceless (s : string) : bool :=
  match s with
  | EmptyString => true
  | String c r => negb (PyStr.is_space c) && spaceless r
  end.

(* ------------------------------------------------------------------------- *)
(** * Properties *)
(* ------------------------------------------------------------------------- *)

(** ** Strings *)

Lemma strip_prefix_app p s rest :
  PyStr.strip_prefix p s = Some rest -> s = p ++ rest.
Proof.
  revert s; induction p as [|a p IH]; intros s H; simpl in *.
  - now inversion H.
  - destruct s as [|b s]; [discriminate|].
    destruct (Ascii.eqb a b) eqn:E; [|discriminate].
    apply Ascii.eqb_eq in E; subst b.
    now rewrite (IH _ H).
Qed.

Lemma ascii_eqb_comm a b : Ascii.eqb a b = Ascii.eqb b a.
Proof.
  destruct (Ascii.eqb_spec a b) as [->|N].
  - now rewrite Ascii.eqb_refl.
  - destruct (Ascii.eqb_spec b a) as [->|_]; [now elim N|reflexivity].
Qed.

Lemma one_line_cons c r :
  one_line (String c r) <-> Ascii.eqb c PyStr.newline = false /\ one_line r.
Proof.
  unfold one_line. cbn [PyStr.char_in].
  rewrite (ascii_eqb_comm PyStr.newline c), orb_false_iff. reflexivity.
Qed.

Lemma one_line_tail c r : one_line (String c r) -> one_line r.
Proof. intros H; now apply one_line_cons in H. Qed.

Lemma one_line_head c r : one_line (String c r) -> Ascii.eqb c PyStr.newline = false.
Proof. intros H; now apply one_line_cons in H. Qed.

Lemma dot_star_one_line s : one_line s -> OperatorPattern.dot_star s = s.
Proof.
  induction s as [|c r IH]; intros H; [reflexivity|].
  cbn [OperatorPattern.dot_star].
  rewrite (one_line_head _ _ H), (IH (one_line_tail _ _ H)). reflexivity.
Qed.

Lemma one_line_app a b : one_line (a ++ b) <-> one_line a /\ one_line b.
Proof.
  induction a as [|c a IH].
  - cbn [append]. unfold one_line at 2. cbn [PyStr.char_in]. intuition.
  - cbn [append]. rewrite !one_line_cons, IH. intuition.
Qed.

(** ** The operator pattern *)

Lemma alternation_sound ops s op g3 :
  OperatorPattern.alternation ops s = Some (op, g3) ->
  In op ops /\ exists rest, s = op ++ rest /\ g3 = OperatorPattern.dot_star rest.
Proof.
  induction ops as [|o ops IH]; simpl; [discriminate|].
  destruct (PyStr.strip_prefix o s) as [rest|] eqn:E.
  - intros H; inversion H; subst. split; [now left|].
    exists rest; split; [now apply strip_prefix_app|reflexivity].
  - intros H; destruct (IH H) as [Hin Hex]. split; [now right|exact Hex].
Qed.

Lemma head_operator_alternation s :
  SpecSplit.head_operator s = None <->
  OperatorPattern.alternation OperatorPattern.operators s = None.
Proof.
  unfold SpecSplit.head_operator.
  destruct (OperatorPattern.alternation _ s) as [[op g]|]; split; congruence.
Qed.

(** When the anchored pattern fails on a one-line text, no operator stands
    anywhere in it. *)
Lemma match_here_none s :
  one_line s -> OperatorPattern.match_here s = None ->
  forall a b, s = a ++ b -> SpecSplit.head_operator b = None.
Proof.
  induction s as [|c r IH]; intros Hl Hm a b Hs.
  - destruct a; [|discriminate]. simpl in Hs; subst b. reflexivity.
  - cbn [OperatorPattern.match_here] in Hm. rewrite (one_line_head _ _ Hl) in Hm.
    destruct (OperatorPattern.match_here r) as [[[g1 op] g3]|] eqn:Er; [discriminate|].
    destruct a as [|c' a'].
    + simpl in Hs; subst b.
      apply head_operator_alternation.
      destruct (OperatorPattern.alternation OperatorPattern.operators (String c r))
        as [[op g3]|]; [discriminate|reflexivity].
    + simpl in Hs. inversion Hs; subst.
      eapply IH; eauto using one_line_tail.
Qed.

(** On a match the three groups make up the text, the operator is the first
    alternative standing where the first group ends, and no operator stands
    at any later place. *)
Lemma match_here_some s g1 op g3 :
  one_line s -> OperatorPattern.match_here s = Some (g1, op, g3) ->
  s = g1 ++ op ++ g3
  /\ SpecSplit.head_operator (op ++ g3) = Some op
  /\ (forall c a b, op ++ g3 = String c a ++ b -> SpecSplit.head_operator b = None).
Proof.
  revert g1; induction s as [|c r IH]; intros g1 Hl Hm; [discriminate|].
  cbn [OperatorPattern.match_here] in Hm. rewrite (one_line_head _ _ Hl) in Hm.
  destruct (OperatorPattern.match_here r) as [[[g1' op'] g3']|] eqn:Er.
  - inversion Hm; subst.
    destruct (IH g1' (one_line_tail _ _ Hl) eq_refl) as (Hs & Hh & Hlater).
    split; [simpl; now rewrite <- Hs|]. split; assumption.
  - destruct (OperatorPattern.alternation OperatorPattern.operators (String c r))
      as [[op0 g0]|] eqn:Ea; [|discriminate].
    inversion Hm; subst.
    destruct (alternation_sound _ _ _ _ Ea) as [_ (rest & Hs & Hg)].
    assert (Hrest : one_line rest).
    { rewrite Hs in Hl. now apply one_line_app in Hl. }
    rewrite (dot_star_one_line _ Hrest) in Hg. subst rest.
    split; [exact Hs|]. split.
    + unfold SpecSplit.head_operator. rewrite <- Hs, Ea. reflexivity.
    + intros c' a b Hcab. rewrite <- Hs in Hcab. inversion Hcab; subst.
      apply (match_here_none (a ++ b) (one_line_tail _ _ Hl) Er a b eq_refl).
Qed.

(** On a one-line text the search succeeds at the very start or not at
    all. *)
Lemma search_one_line s :
  one_line s -> OperatorPattern.search s = OperatorPattern.match_here s.
Proof.
  induction s as [|c r IH]; intros Hl; [reflexivity|].
  cbn [OperatorPattern.search].
  destruct (OperatorPattern.match_here (String c r)) as [m|] eqn:Em; [reflexivity|].
  rewrite (IH (one_line_tail _ _ Hl)).
  cbn [OperatorPattern.match_here] in Em. rewrite (one_line_head _ _ Hl) in Em.
  destruct (OperatorPattern.match_here r) as [[[g1 op] g3]|]; [discriminate|reflexivity].
Qed.

Lemma contains_operator_false_iff s :
  SpecSplit.contains_operator s = false <->
  forall a b, s = a ++ b -> SpecSplit.head_operator b = None.
Proof.
  induction s as [|c r IH].
  - cbn [SpecSplit.contains_operator]. split.
    + intros _ a b H. destruct a; [|discriminate]. cbn in H; now subst b.
    + intros _. reflexivity.
  - cbn [SpecSplit.contains_operator]. split.
    + intros H a b Hab.
      destruct (SpecSplit.head_operator (String c r)) eqn:E; [discriminate|].
      destruct a as [|c' a]; cbn [append] in Hab.
      * now subst b.
      * inversion Hab; subst. now apply (proj1 IH H a b).
    + intros H. rewrite (H EmptyString (String c r) eq_refl).
      apply IH. intros a b Hab. apply (H (String c a) b). cbn [append]. now rewrite Hab.
Qed.

Lemma match_here_none_iff s :
  one_line s ->
  OperatorPattern.match_here s = None <-> SpecSplit.contains_operator s = false.
Proof.
  intros Hl; split.
  - intros H. apply contains_operator_false_iff. now apply match_here_none.
  - revert Hl; induction s as [|c r IH]; intros Hl H; [reflexivity|].
    cbn [SpecSplit.contains_operator] in H.
    destruct (SpecSplit.head_operator (String c r)) eqn:E; [discriminate|].
    cbn [OperatorPattern.match_here].
    rewrite (one_line_head _ _ Hl), (IH (one_line_tail _ _ Hl) H).
    apply head_operator_alternation in E. now rewrite E.
Qed.

(** Without any operator the search fails, line feeds or not. *)
Lemma search_none s :
  SpecSplit.contains_operator s = false -> OperatorPattern.search s = None.
Proof.
  assert (Hm : forall t, SpecSplit.contains_operator t = false ->
                         OperatorPattern.match_here t = None).
  { induction t as [|c r IH]; intros H; [reflexivity|].
    cbn [SpecSplit.contains_operator] in H.
    destruct (SpecSplit.head_operator (String c r)) eqn:E; [discriminate|].
    apply head_operator_alternation in E.
    cbn [OperatorPattern.match_here]. rewrite E, (IH H).
    now destruct (Ascii.eqb c PyStr.newline). }
  induction s as [|c r IH]; intros H; [reflexivity|].
  cbn [OperatorPattern.search]. rewrite (Hm _ H).
  cbn [SpecSplit.contains_operator] in H.
  destruct (SpecSplit.head_operator (String c r)); [discriminate|]. now apply IH.
Qed.

(** ** C3: where the dependency entry is cut *)




(** ** The two splits on ordinary entries *)

Lemma append_inv_head a b c : a ++ b = a ++ c -> b = c.
Proof.
  induction a as [|x a IH]; cbn [append]; intros H; [exact H|].
  inversion H. now apply IH.
Qed.

(** When no operator stands after the first one, the pattern finds the first
    one. *)
Lemma match_here_single_occurrence s : forall n op rest,
  one_line s ->
  SpecSplit.first_occurrence s = Some (n, op, rest) ->
  SpecSplit.contains_operator (SpecSplit.after_first_char (op ++ rest)) = false ->
  OperatorPattern.match_here s = Some (n, op, rest).
Proof.
  induction s as [|c r IH]; intros n op rest Hl Hf Hlast.
  - discriminate.
  - cbn [SpecSplit.first_occurrence] in Hf.
    cbn [OperatorPattern.match_here]. rewrite (one_line_head _ _ Hl).
    destruct (SpecSplit.head_operator (String c r)) as [op0|] eqn:Eh.
    + destruct (PyStr.strip_prefix op0 (String c r)) as [rest0|] eqn:Ep;
        [|discriminate].
      inversion Hf; subst n op0 rest0. clear Hf.
      pose proof (strip_prefix_app _ _ _ Ep) as Hs.
      rewrite <- Hs in Hlast. cbn [SpecSplit.after_first_char] in Hlast.
      rewrite (proj2 (match_here_none_iff r (one_line_tail _ _ Hl)) Hlast).
      unfold SpecSplit.head_operator in Eh.
      destruct (OperatorPattern.alternation OperatorPattern.operators (String c r))
        as [[op1 g]|] eqn:Ea; [|discriminate].
      inversion Eh; subst op1.
      destruct (alternation_sound _ _ _ _ Ea) as [_ (rest1 & Hs1 & Hg)].
      rewrite Hs in Hs1. apply append_inv_head in Hs1. subst rest1.
      assert (Hrest : one_line rest).
      { rewrite Hs in Hl. now apply one_line_app in Hl. }
      rewrite (dot_star_one_line _ Hrest) in Hg. now subst g.
    + destruct (SpecSplit.first_occurrence r) as [[[n' op'] rest']|] eqn:Er;
        [|discriminate].
      inversion Hf; subst. 
      now rewrite (IH n' op rest (one_line_tail _ _ Hl) eq_refl Hlast).
Qed.

Lemma first_occurrence_none s :
  SpecSplit.first_occurrence s = None <-> SpecSplit.contains_operator s = false.
Proof.
  induction s as [|c r IH];
    cbn [SpecSplit.first_occurrence SpecSplit.contains_operator].
  - destruct (SpecSplit.head_operator "") eqn:E; [discriminate E|tauto].
  - destruct (SpecSplit.head_operator (String c r)) as [op|] eqn:E.
    + unfold SpecSplit.head_operator in E.
      destruct (OperatorPattern.alternation OperatorPattern.operators (String c r))
        as [[op1 g]|] eqn:Ea; [|discriminate].
      inversion E; subst op1.
      assert (Hp : exists rest, PyStr.strip_prefix op (String c r) = Some rest).
      { revert Ea. generalize OperatorPattern.operators as ops.
        induction ops as [|o ops IHo]; cbn [OperatorPattern.alternation];
          [discriminate|].
        destruct (PyStr.strip_prefix o (String c r)) as [rest|] eqn:Eo.
        - intros H; inversion H; subst. eauto.
        - exact IHo. }
      destruct Hp as [rest ->]. split; discriminate.
    + destruct (SpecSplit.first_occurrence r) as [[[n op] rest]|].
      * split; [discriminate|]. intros H. apply IH in H. discriminate.
      * split; [intros _; now apply IH|reflexivity].
Qed.

(** On a one-line entry with at most one operator occurrence the scanner and
    the specification cut alike. *)
Lemma split_dependency_agrees_on_single_occurrence s :
  one_line s ->
  match SpecSplit.first_occurrence s with
  | Some (_, op, rest) =>
      SpecSplit.contains_operator (SpecSplit.after_first_char (op ++ rest)) = false
  | None => True
  end ->
  split_dependency s = SpecSplit.split_at_first_operator s.
Proof.
  intros Hl H. unfold split_dependency, SpecSplit.split_at_first_operator.
  destruct (SpecSplit.first_occurrence s) as [[[n op] rest]|] eqn:Ef.
  - rewrite (search_one_line _ Hl).
    now rewrite (match_here_single_occurrence s n op rest Hl Ef H).
  - apply first_occurrence_none in Ef. now rewrite (search_none _ Ef).
Qed.

(** ** The entries of install_requires that reach the pattern *)

Lemma split_no_separator sep s :
  Forall (fun w => PyStr.char_in sep w = false) (PyStr.split sep s).
Proof.
  induction s as [|c r IH]; cbn [PyStr.split].
  - constructor; [reflexivity|constructor].
  - destruct (Ascii.eqb c sep) eqn:E.
    + constructor; [reflexivity|exact IH].
    + destruct (PyStr.split sep r) as [|w ws]; inversion IH; subst.
      * constructor; [|constructor]. cbn [PyStr.char_in].
        now rewrite ascii_eqb_comm, E.
      * constructor; [|assumption]. cbn [PyStr.char_in].
        now rewrite ascii_eqb_comm, E.
Qed.

Lemma lstrip_first s c :
  PyStr.first_char (PyStr.lstrip s) = Some c -> PyStr.is_space c = false.
Proof.
  induction s as [|a r IH]; cbn [PyStr.lstrip]; [discriminate|].
  destruct (PyStr.is_space a) eqn:E; [exact IH|].
  cbn [PyStr.first_char]. intros H; inversion H; now subst.
Qed.

Lemma rstrip_first t c :
  PyStr.first_char (PyStr.rstrip t) = Some c -> PyStr.first_char t = Some c.
Proof.
  destruct t as [|a r]; cbn [PyStr.rstrip]; [discriminate|].
  destruct (PyStr.is_empty (PyStr.rstrip r) && PyStr.is_space a); [discriminate|].
  auto.
Qed.

Lemma lstrip_char_in a s :
  PyStr.char_in a s = false -> PyStr.char_in a (PyStr.lstrip s) = false.
Proof.
  induction s as [|c r IH]; cbn [PyStr.lstrip]; [auto|].
  destruct (PyStr.is_space c); [|auto].
  cbn [PyStr.char_in]. intros H; apply orb_false_iff in H. now apply IH.
Qed.

Lemma rstrip_char_in a s :
  PyStr.char_in a s = false -> PyStr.char_in a (PyStr.rstrip s) = false.
Proof.
  induction s as [|c r IH]; cbn [PyStr.rstrip]; [auto|].
  cbn [PyStr.char_in]. intros H; apply orb_false_iff in H. destruct H as [H1 H2].
  destruct (PyStr.is_empty (PyStr.rstrip r) && PyStr.is_space c); [reflexivity|].
  cbn [PyStr.char_in]. now rewrite H1, IH.
Qed.

(** A stripped piece of a comma-separated text never passes the test that
    guards the pattern: its first character is neither a comma nor a
    blank. *)
Lemma stripped_piece_not_quoted w :
  PyStr.char_in "," w = false -> is_quoted_entry (PyStr.strip w) = false.
Proof.
  intros Hw. unfold is_quoted_entry.
  destruct (PyStr.first_char (PyStr.strip w)) as [a|] eqn:Ea;
    [|now rewrite andb_false_r].
  destruct (PyStr.last_char (PyStr.strip w)) as [b|]; [|now rewrite andb_false_r].
  assert (Hsp : PyStr.is_space a = false).
  { apply (lstrip_first w). now apply rstrip_first. }
  assert (Hc : Ascii.eqb a "," = false).
  { assert (H : PyStr.char_in "," (PyStr.strip w) = false)
      by (unfold PyStr.strip; now apply rstrip_char_in, lstrip_char_in).
    destruct (PyStr.strip w) as [|x t]; [discriminate|].
    cbn [PyStr.first_char] in Ea. inversion Ea; subst x.
    cbn [PyStr.char_in] in H. apply orb_false_iff in H.
    rewrite ascii_eqb_comm. tauto. }
  assert (Hb : Ascii.eqb a " " = false).
  { destruct (Ascii.eqb_spec a " ") as [->|]; [discriminate Hsp|reflexivity]. }
  cbn [PyStr.char_in]. rewrite Hc, Hb. cbn. now rewrite !andb_false_r.
Qed.

(** So the loop over the bracketed text records no dependency at all. *)
Lemma parse_install_requires_records_nothing deps inner :
  parse_install_requires deps inner = deps.
Proof.
  unfold parse_install_requires.
  generalize (split_no_separator "," inner).
  generalize (PyStr.split "," inner) as parts.
  induction parts as [|w ws IH]; intros H; cbn [fold_left]; [reflexivity|].
  inversion H; subst.
  unfold add_dependency at 2. rewrite stripped_piece_not_quoted by assumption.
  now apply IH.
Qed.

(** ** The poll loop *)

Section PollFacts.
Context {PV : PackagingVersion}.
Variable playground : bool.
Variable task_id : json.
Variable apikey apiurl : string.

#[local] Abbreviation q := (status_request playground task_id apikey apiurl).
#[local] Abbreviation poll' := (poll playground task_id apikey apiurl).

Lemma sent_after_rounds e k w :
  sent (after_rounds q e k w) = (sent w + k)%nat.
Proof.
  revert w; induction k as [|k IH]; intros w; cbn [after_rounds].
  - lia.
  - rewrite IH. cbn. lia.
Qed.

Lemma requests_after_rounds e k w :
  requests_of (events (after_rounds q e k w))
  = (requests_of (events w) ++ repeat q k)%list.
Proof.
  revert w; induction k as [|k IH]; intros w; cbn [after_rounds repeat].
  - now rewrite app_nil_r.
  - rewrite IH. cbn [after_sleep after_request events].
    unfold requests_of. rewrite !flat_map_app. cbn [flat_map app].
    rewrite app_nil_r, <- app_assoc. reflexivity.
Qed.

Lemma clock_after_rounds e k w :
  (forall i, 0 <= latency e i)%Z ->
  (clock w <= clock (after_rounds q e k w))%Z.
Proof.
  intros Hl; revert w; induction k as [|k IH]; intros w; cbn [after_rounds].
  - lia.
  - etransitivity; [|apply IH]. cbn. specialize (Hl (sent w)). lia.
Qed.

(** A reply with a status entry is a decodable answer with code 200. *)
Lemma has_status_inv status a :
  has_status status a = true ->
  exists r info st,
    a = Resp r /\ (status_code r =? 200)%Z = true /\ json_body r = Some info
    /\ Json.subscript info "status" = Returned st /\ Json.eq_str st status = true.
Proof.
  unfold has_status, polled_status, polled_info.
  destruct a as [r|]; [|discriminate].
  destruct (status_code r =? 200)%Z eqn:Ec; [|discriminate].
  destruct (json_body r) as [info|] eqn:Eb; [|discriminate].
  destruct (Json.subscript info "status") as [st|] eqn:Es; [|discriminate].
  intros H. now exists r, info, st.
Qed.

Lemma eq_str_other j s t :
  Json.eq_str j s = true -> String.eqb s t = false -> Json.eq_str j t = false.
Proof.
  destruct j; cbn; try discriminate.
  intros H; apply String.eqb_eq in H; now subst.
Qed.

(** A round that sees a pending status sleeps and hands the answer on. *)
Lemma poll_round_pending n r0 i0 e w :
  has_status "pending" (server e (sent w)) = true ->
  exists r info,
    server e (sent w) = Resp r /\ polled_info (server e (sent w)) = Some info
    /\ poll' (S n) r0 i0 e w
       = poll' n (Some r) (Some info) e (after_sleep 1000 (after_request q e w)).
Proof.
  intros H. destruct (has_status_inv _ _ H) as (r & info & st & Ha & Hc & Hb & Hs & Hst).
  exists r, info. split; [exact Ha|]. split.
  - unfold polled_info. now rewrite Ha, Hc.
  - cbn [poll]. unfold bind at 1, http at 1. rewrite Ha.
    unfold read_local, bind at 1, ret at 1. rewrite Hc. cbn [negb].
    unfold bind at 1, response_json at 1. rewrite Hb. unfold ret at 1.
    unfold bind at 1, lift at 1. rewrite Hs.
    rewrite (eq_str_other _ _ "completed" Hst eq_refl),
            (eq_str_other _ _ "unknown" Hst eq_refl).
    cbn [orb]. unfold bind at 1, time_sleep at 1. cbn [Z.ltb Z.compare].
    reflexivity.
Qed.

(** A round that sees the completed status leaves the loop. *)
Lemma poll_round_completed n r0 i0 e w :
  has_status "completed" (server e (sent w)) = true ->
  exists info,
    polled_info (server e (sent w)) = Some info
    /\ Json.subscript info "status" = Returned (JStr "completed")
    /\ poll' (S n) r0 i0 e w
       = (Returned (LoopDone (Some info)), after_request q e w).
Proof.
  intros H. destruct (has_status_inv _ _ H) as (r & info & st & Ha & Hc & Hb & Hs & Hst).
  exists info. split; [unfold polled_info; now rewrite Ha, Hc|]. split.
  - rewrite Hs. destruct st; cbn in Hst; try discriminate.
    apply String.eqb_eq in Hst. now subst.
  - cbn [poll]. unfold bind at 1, http at 1. rewrite Ha.
    unfold read_local, bind at 1, ret at 1. rewrite Hc. cbn [negb].
    unfold bind at 1, response_json at 1. rewrite Hb. unfold ret at 1.
    unfold bind at 1, lift at 1. rewrite Hs, Hst. cbn [orb]. reflexivity.
Qed.

(** The locals [r] and [info] after [k] pending rounds. *)
Lemma poll_pending_rounds e k : forall n r0 i0 w,
  next_replies_have "pending" e w k = true ->
  exists r info,
    (k = O -> r = r0 /\ info = i0)
    /\ (forall k', k = S k' -> info = polled_info (server e (sent w + k')))
    /\ poll' (k + n) r0 i0 e w = poll' n r info e (after_rounds q e k w).
Proof.
  induction k as [|k IH]; intros n r0 i0 w H.
  - exists r0, i0. split; [auto|]. split; [discriminate|reflexivity].
  - unfold next_replies_have in H. cbn [seq forallb] in H.
    apply andb_true_iff in H. destruct H as [H0 Hrest].
    destruct (poll_round_pending (k + n) r0 i0 e w H0) as (r & info & Ha & Hi & Hstep).
    destruct (IH n (Some r) (Some info) (after_sleep 1000 (after_request q e w)))
      as (r' & info' & Hz & Hs & Hrun).
    { unfold next_replies_have. cbn [after_sleep after_request sent]. exact Hrest. }
    exists r', info'. split; [discriminate|]. split.
    + intros k' Hk. inversion Hk; subst k'. destruct k as [|k''].
      * destruct (Hz eq_refl) as [_ ->]. now rewrite Nat.add_0_r, Hi.
      * rewrite (Hs k'' eq_refl). cbn [after_sleep after_request sent].
        f_equal. f_equal. lia.
    + cbn [Nat.add after_rounds]. now rewrite Hstep, Hrun.
Qed.

End PollFacts.

(** ** wait_for_server after the loop *)

Section WaitFacts.
Context {PV : PackagingVersion}.
Variable playground : bool.
Variable task_id : json.
Variable apikey apiurl : string.

#[local] Abbreviation q := (status_request playground task_id apikey apiurl).
#[local] Abbreviation poll' := (poll playground task_id apikey apiurl).
#[local] Abbreviation wait' := (wait_for_server playground task_id apikey apiurl).

(** Requests take time, they do not give it back: the clock does not run
    backwards during the loop. *)
Lemma poll_clock_monotone e n : forall r0 i0 w o w1,
  (forall i, 0 <= latency e i)%Z ->
  poll' n r0 i0 e w = (o, w1) -> (clock w <= clock w1)%Z.
Proof.
  induction n as [|n IH]; intros r0 i0 w o w1 Hl H.
  - cbn in H. inversion H; subst. lia.
  - cbn [poll] in H. unfold bind at 1, http at 1 in H.
    assert (Hq : (clock w <= clock (after_request q e w))%Z)
      by (cbn; specialize (Hl (sent w)); lia).
    set (w2 := after_request q e w) in *.
    destruct (match server e (sent w) with Resp x => Some x | NetErr => r0 end)
      as [resp|]; cbn [read_local] in H.
    2:{ cbn in H. inversion H; subst. exact Hq. }
    unfold bind at 1, ret at 1 in H.
    destruct (negb (status_code resp =? 200)%Z).
    { cbn in H. inversion H; subst. exact Hq. }
    unfold bind at 1, response_json at 1 in H.
    destruct (json_body resp) as [info|].
    2:{ cbn in H. inversion H; subst. exact Hq. }
    unfold ret at 1, bind at 1, lift at 1 in H.
    destruct (Json.subscript info "status") as [st|x].
    2:{ inversion H; subst. exact Hq. }
    destruct (Json.eq_str st "completed" || Json.eq_str st "unknown").
    { cbn in H. inversion H; subst. exact Hq. }
    unfold bind at 1, time_sleep at 1 in H. cbn [Z.ltb Z.compare] in H.
    apply IH in H; [|exact Hl]. cbn [after_sleep clock] in H. lia.
Qed.

(** From the end of the loop to the returned value. *)
Lemma wait_after_loop e w w1 info success v skip :
  poll' 300 None None e w = (Returned (LoopDone (Some info)), w1) ->
  poll_success playground info = Returned success ->
  settle_not_needed v = Returned skip ->
  (clock w <= clock w1)%Z ->
  wait' v e w
  = (Returned (WaitBool success),
     if skip then w1 else after_sleep (clock w1 - clock w) w1).
Proof.
  intros Hp Hs Hv Hc.
  unfold wait_for_server, bind at 1, time_time at 1.
  unfold bind at 1. rewrite Hp.
  unfold bind at 1, time_time at 1.
  unfold bind at 1, read_local, ret at 1.
  unfold bind at 1, lift at 1. rewrite Hs.
  unfold bind at 1, lift at 1. rewrite Hv.
  destruct skip; cbn [negb].
  - reflexivity.
  - unfold bind, time_sleep, ret.
    destruct (clock w1 - clock w <? 0)%Z eqn:E; [apply Z.ltb_lt in E; lia|].
    reflexivity.
Qed.

Lemma subscript_get info key v default :
  Json.subscript info key = Returned v -> Json.get info key default = Returned v.
Proof.
  destruct info; cbn; try discriminate.
  destruct (PyDict.get key fields); [auto|discriminate].
Qed.

Lemma subscript_get_total info key v default :
  Json.subscript info key = Returned v ->
  exists x, Json.get info "ok" default = Returned x.
Proof.
  destruct info; cbn; try discriminate. intros _.
  destruct (PyDict.get "ok" fields); eauto.
Qed.

Lemma next_replies_nth status e w k i :
  next_replies_have status e w k = true -> (i < k)%nat ->
  has_status status (server e (sent w + i)) = true.
Proof.
  unfold next_replies_have. rewrite forallb_forall. intros H Hi.
  apply H, in_seq. lia.
Qed.

Lemma has_status_ok_flag status a info :
  has_status status a = true -> polled_info a = Some info ->
  exists x, Json.get info "ok" (JBool false) = Returned x
            /\ Json.truthy x = ok_flag a.
Proof.
  intros H Hi.
  unfold has_status, polled_status in H. unfold ok_flag. rewrite Hi in *.
  destruct (Json.subscript info "status") as [st|] eqn:Es; [|discriminate].
  destruct (subscript_get_total _ _ _ (JBool false) Es) as [x Hx].
  exists x. now rewrite Hx.
Qed.

(** ** C2: how many status requests, and the value returned *)

(** C2, amended: with fewer than 300 pending answers before the completed
    one, exactly [k + 1] status requests are sent; the value returned is
    success in playground mode and, in package mode, the [ok] flag of the
    completed answer.  After 300 pending answers the loop stops, 300 requests
    were sent, and the value returned is [False] in playground mode and, in
    package mode, the [ok] flag of the last answer; nothing is raised.  The
    version is one the settle test accepts and requests take no negative
    time. *)
Theorem wait_for_server_polling v skip e w :
  settle_not_needed v = Returned skip ->
  (forall i, 0 <= latency e i)%Z ->
  (forall k, (k < 300)%nat ->
     next_replies_have "pending" e w k = true ->
     has_status "completed" (server e (sent w + k)) = true ->
     exists w',
       wait' v e w
       = (Returned (WaitBool (if playground then true
                              else ok_flag (server e (sent w + k)))), w')
       /\ sent w' = (sent w + (k + 1))%nat
       /\ requests_of (events w')
          = (requests_of (events w) ++ repeat q (k + 1))%list)
  /\ (next_replies_have "pending" e w 300 = true ->
      exists w',
        wait' v e w
        = (Returned (WaitBool (if playground then false
                               else ok_flag (server e (sent w + 299)))), w')
        /\ sent w' = (sent w + 300)%nat
        /\ requests_of (events w')
           = (requests_of (events w) ++ repeat q 300)%list).
Proof.
  intros Hv Hl. split.
  - intros k Hk Hpend Hdone.
    destruct (poll_pending_rounds playground task_id apikey apiurl e k
                (300 - k) None None w Hpend) as (r & info & _ & _ & Hrun).
    replace (k + (300 - k))%nat with 300%nat in Hrun by lia.
    destruct (300 - k)%nat as [|n] eqn:En; [lia|].
    set (wk := after_rounds q e k w) in *.
    assert (Hsent : sent wk = (sent w + k)%nat) by apply sent_after_rounds.
    rewrite <- Hsent in Hdone.
    destruct (poll_round_completed playground task_id apikey apiurl n r info e wk Hdone)
      as (info' & Hi & Hst & Hstep).
    rewrite Hstep in Hrun.
    assert (Hsuccess : poll_success playground info'
                       = Returned (if playground then true else ok_flag (server e (sent wk)))).
    { unfold poll_success. destruct playground.
      - now rewrite (subscript_get _ _ _ JNull Hst).
      - destruct (has_status_ok_flag _ _ _ Hdone Hi) as (x & Hx & Ht).
        rewrite Hx, Ht. reflexivity. }
    assert (Hclock : (clock w <= clock (after_request q e wk))%Z)
      by (eapply poll_clock_monotone; eauto).
    rewrite Hsent in Hsuccess.
    exists (if skip then after_request q e wk
            else after_sleep (clock (after_request q e wk) - clock w)
                             (after_request q e wk)).
    split; [now apply wait_after_loop with (info := info')|].
    assert (Hreq : requests_of (events (after_request q e wk))
                   = (requests_of (events w) ++ repeat q (k + 1))%list).
    { cbn [after_request events]. unfold requests_of at 1. rewrite flat_map_app.
      fold (requests_of (events wk)). unfold wk. rewrite requests_after_rounds.
      cbn [flat_map app]. rewrite repeat_app, <- app_assoc. reflexivity. }
    destruct skip; cbn [after_sleep sent events].
    + split; [cbn; lia|exact Hreq].
    + split; [cbn; lia|].
      unfold requests_of. rewrite flat_map_app. cbn [flat_map]. rewrite app_nil_r.
      exact Hreq.
  - intros Hpend.
    destruct (poll_pending_rounds playground task_id apikey apiurl e 300
                0 None None w Hpend) as (r & info & _ & Hinfo & Hrun).
    cbn [Nat.add] in Hrun.
    replace (300 + 0)%nat with 300%nat in Hrun by lia.
    assert (Hlast := next_replies_nth _ _ _ 300 299 Hpend ltac:(lia)).
    specialize (Hinfo 299%nat eq_refl).
    destruct (has_status_inv _ _ Hlast) as (r' & info' & st & Ha & Hc & Hb & Hs & Hst).
    assert (Hi : polled_info (server e (sent w + 299)) = Some info')
      by (unfold polled_info; now rewrite Ha, Hc).
    rewrite Hi in Hinfo. subst info.
    set (wk := after_rounds q e 300 w) in *.
    change (poll' 0 r (Some info') e wk) with (Returned (LoopDone (Some info')), wk) in Hrun.
    assert (Hsuccess : poll_success playground info'
                       = Returned (if playground then false
                                   else ok_flag (server e (sent w + 299)))).
    { unfold poll_success. destruct playground.
      - rewrite (subscript_get _ _ _ JNull Hs).
        now rewrite (eq_str_other _ _ "completed" Hst eq_refl).
      - destruct (has_status_ok_flag _ _ _ Hlast Hi) as (x & Hx & Ht).
        rewrite Hx, Ht. reflexivity. }
    assert (Hclock : (clock w <= clock wk)%Z) by (apply clock_after_rounds; exact Hl).
    exists (if skip then wk else after_sleep (clock wk - clock w) wk).
    split; [now apply wait_after_loop with (info := info')|].
    assert (Hsent : sent wk = (sent w + 300)%nat) by apply sent_after_rounds.
    assert (Hreq : requests_of (events wk)
                   = (requests_of (events w) ++ repeat q 300)%list)
      by apply requests_after_rounds.
    destruct skip; cbn [after_sleep sent events].
    + split; assumption.
    + split; [assumption|].
      unfold requests_of. rewrite flat_map_app. cbn [flat_map]. rewrite app_nil_r.
      exact Hreq.
Qed.

(** ** C8: the settle sleep *)

Lemma v_ge_not_lt (a b : Version) : v_ge a b = negb (v_lt a b).
Proof. unfold v_ge, v_lt. now destruct (vcompare a b). Qed.

(** C8: once the loop has ended and success or failure is determined, the
    function sleeps for the time the loop took, from the clock reading before
    it to the reading after it, exactly when the version is not the text
    [norestart] and is strictly below 1.5.3; otherwise the world is left as
    the loop left it. *)
Theorem settle_sleep_iff_older_server e w w1 info success s ver threshold :
  poll' 300 None None e w = (Returned (LoopDone (Some info)), w1) ->
  poll_success playground info = Returned success ->
  (forall i, 0 <= latency e i)%Z ->
  parse "1.5.3" = Some threshold ->
  s = "norestart" \/ parse s = Some ver ->
  wait' (JStr s) e w
  = (Returned (WaitBool success),
     if negb (String.eqb s "norestart") && v_lt ver threshold
     then after_sleep (clock w1 - clock w) w1
     else w1).
Proof.
  intros Hp Hs Hl Ht Hv.
  assert (Hskip : settle_not_needed (JStr s)
                  = Returned (negb (negb (String.eqb s "norestart")
                                    && v_lt ver threshold))).
  { unfold settle_not_needed. cbn [Json.eq_str].
    destruct (String.eqb_spec s "norestart") as [E|E]; [reflexivity|].
    destruct Hv as [Hv|Hv]; [contradiction|].
    rewrite Hv, Ht. cbn [negb andb]. now rewrite v_ge_not_lt. }
  rewrite (wait_after_loop e w w1 info success _ _ Hp Hs Hskip
             (poll_clock_monotone e 300 _ _ _ _ _ Hl Hp)).
  now destruct (negb (String.eqb s "norestart") && v_lt ver threshold).
Qed.

(** ** C10: a network failure inside the loop *)

Lemma poll_env_agree e e' n : forall r i w,
  (forall j, (sent w <= j)%nat -> server e j = server e' j) ->
  (forall j, latency e j = latency e' j) ->
  poll' n r i e w = poll' n r i e' w.
Proof.
  induction n as [|n IH]; intros r i w Hs Hl; [reflexivity|].
  cbn [poll]. unfold bind, http, read_local, response_json, lift, time_sleep, ret, raise.
  cbn [Z.ltb Z.compare].
  rewrite <- (Hs (sent w) (le_n _)).
  assert (Hw : after_request q e' w = after_request q e w)
    by (unfold after_request; now rewrite Hl).
  rewrite Hw.
  destruct (match server e (sent w) with Resp x => Some x | NetErr => r end)
    as [resp|]; [|reflexivity].
  destruct (negb (status_code resp =? 200)%Z); [reflexivity|].
  destruct (json_body resp) as [info|]; [|reflexivity].
  destruct (Json.subscript info "status") as [st|x]; [|reflexivity].
  destruct (Json.eq_str st "completed" || Json.eq_str st "unknown"); [reflexivity|].
  apply IH; [|exact Hl].
  intros j Hj. apply Hs. cbn in Hj. lia.
Qed.


End WaitFacts.

(** ** C2, C8, C10 on concrete servers *)

(** C2, the claim as stated fails.  In package mode a completed answer
    without a true [ok] flag makes the call return [False] after its one
    request; and when 300 pending answers come before the completed one, the
    loop stops before it: 300 requests, not 301, and [False]. *)
Lemma completed_sequence_not_always_success :
  (let e := scripted [status_reply "completed"] 0 false in
   next_replies_have "pending" e initial_world 0 = true
   /\ has_status "completed" (server e 0) = true
   /\ fst (wait_for_server (PV := ReleaseVersion.releases) false (JStr "task")
             "key" "https://da" (JStr "norestart") e initial_world)
      = Returned (WaitBool false))
  /\ (let e := scripted (repeat (status_reply "pending") 300
                          ++ [status_reply "completed"]) 0 false in
      let run := wait_for_server (PV := ReleaseVersion.releases) true (JStr "task")
                   "key" "https://da" (JStr "norestart") e initial_world in
      next_replies_have "pending" e initial_world 300 = true
      /\ has_status "completed" (server e 300) = true
      /\ fst run = Returned (WaitBool false)
      /\ sent (snd run) = 300%nat).
Proof.
  split; repeat split; vm_compute; reflexivity.
Qed.

(** C2 in playground mode: two pending answers then the completed one, and
    300 pending answers. *)
Lemma wait_for_server_polling_witness :
  (let e := scripted [status_reply "pending"; status_reply "pending";
                      status_reply "completed"] 250 false in
   exists w',
     wait_for_server (PV := ReleaseVersion.releases) true (JStr "task") "key"
       "https://da" (JStr "1.4.0") e initial_world
     = (Returned (WaitBool true), w')
     /\ sent w' = 3%nat)
  /\ (let e := scripted (repeat (status_reply "pending") 300) 250 false in
      exists w',
        wait_for_server (PV := ReleaseVersion.releases) true (JStr "task") "key"
          "https://da" (JStr "1.4.0") e initial_world
        = (Returned (WaitBool false), w')
        /\ sent w' = 300%nat).
Proof.
  split; intros e.
  - destruct (wait_for_server_polling (PV := ReleaseVersion.releases) true
                (JStr "task") "key" "https://da" (JStr "1.4.0") false e
                initial_world eq_refl (fun _ => ltac:(cbn; lia))) as [H _].
    destruct (H 2%nat ltac:(lia) eq_refl eq_refl) as (w' & Hw & Hs & _).
    exists w'. split; [exact Hw|exact Hs].
  - destruct (wait_for_server_polling (PV := ReleaseVersion.releases) true
                (JStr "task") "key" "https://da" (JStr "1.4.0") false e
                initial_world eq_refl (fun _ => ltac:(cbn; lia))) as [_ H].
    destruct (H eq_refl) as (w' & Hw & Hs & _).
    exists w'. split; [exact Hw|exact Hs].
Defined.

(** C8 on a poll of two requests of 250 milliseconds each and one sleep of a
    second: an older server, the threshold version, and no restart. *)
Lemma settle_sleep_iff_older_server_witness :
  let e := scripted [status_reply "pending"; status_reply "completed"] 250 false in
  let q := status_request true (JStr "task") "key" "https://da" in
  let w1 := after_request q e (after_sleep 1000 (after_request q e initial_world)) in
  wait_for_server (PV := ReleaseVersion.releases) true (JStr "task") "key"
    "https://da" (JStr "1.4.0") e initial_world
  = (Returned (WaitBool true), after_sleep 1500 w1)
  /\ wait_for_server (PV := ReleaseVersion.releases) true (JStr "task") "key"
       "https://da" (JStr "1.5.3") e initial_world
     = (Returned (WaitBool true), w1)
  /\ wait_for_server (PV := ReleaseVersion.releases) true (JStr "task") "key"
       "https://da" (JStr "norestart") e initial_world
     = (Returned (WaitBool true), w1).
Proof.
  intros e q w1. split; [|split].
  - exact (settle_sleep_iff_older_server (PV := ReleaseVersion.releases) true
             (JStr "task") "key" "https://da" e initial_world w1
             (JObj [("status", JStr "completed")]) true "1.4.0"
             [1; 4; 0]%N [1; 5; 3]%N eq_refl eq_refl
             (fun _ => ltac:(cbn; lia)) eq_refl (or_intror eq_refl)).
  - exact (settle_sleep_iff_older_server (PV := ReleaseVersion.releases) true
             (JStr "task") "key" "https://da" e initial_world w1
             (JObj [("status", JStr "completed")]) true "1.5.3"
             [1; 5; 3]%N [1; 5; 3]%N eq_refl eq_refl
             (fun _ => ltac:(cbn; lia)) eq_refl (or_intror eq_refl)).
  - exact (settle_sleep_iff_older_server (PV := ReleaseVersion.releases) true
             (JStr "task") "key" "https://da" e initial_world w1
             (JObj [("status", JStr "completed")]) true "norestart"
             [] [1; 5; 3]%N eq_refl eq_refl
             (fun _ => ltac:(cbn; lia)) eq_refl (or_introl eq_refl)).
Defined.


(** ** C1: the restart flag of the dependency branch *)

Lemma stateless_ret {A} (a : A) : stateless (ret a).
Proof. now intros e w. Qed.

Lemma stateless_raise {A} x : stateless (@raise A x).
Proof. now intros e w. Qed.

Lemma stateless_lift {A} (o : outcome A) : stateless (lift o).
Proof. now intros e w. Qed.

Lemma stateless_bind {A B} (m : M A) (k : A -> M B) :
  stateless m -> (forall a, stateless (k a)) -> stateless (bind m k).
Proof.
  intros Hm Hk e w. unfold bind. specialize (Hm e w).
  destruct (m e w) as [[a|x] w1]; cbn in Hm; subst w1; [apply Hk|reflexivity].
Qed.

Create HintDb stateless.
#[local] Hint Resolve stateless_ret stateless_raise stateless_lift : stateless.

Section RestartFacts.
Context {PV : PackagingVersion}.
Variable apiurl apikey : string.

Lemma stateless_parse_version s : stateless (parse_version s).
Proof. unfold parse_version. destruct (parse s); auto with stateless. Qed.

Lemma stateless_parsed_versions p d : stateless (parsed_versions p d).
Proof.
  unfold parsed_versions.
  repeat (apply stateless_bind; [|intros ?]);
    auto using stateless_parse_version with stateless.
  destruct (version d); auto with stateless.
Qed.

Lemma stateless_version_condition p d : stateless (version_condition p d).
Proof.
  unfold version_condition.
  destruct (operator d) as [op|]; auto with stateless.
  repeat match goal with
         | |- stateless (if ?c then _ else _) => destruct c
         | |- stateless (bind _ _) =>
             apply stateless_bind; [apply stateless_parsed_versions|intros ?]
         end; auto with stateless.
Qed.

Lemma stateless_mark_dependencies name alt p deps :
  stateless (mark_dependencies name alt p deps).
Proof.
  induction deps as [|[dn di] rest IH]; cbn [mark_dependencies];
    auto with stateless.
  apply stateless_bind.
  - destruct (String.eqb dn name || String.eqb dn alt); auto with stateless.
    apply stateless_bind; [apply stateless_version_condition|].
    intros c; auto with stateless.
  - intros info'. apply stateless_bind; [exact IH|]. intros; auto with stateless.
Qed.

Lemma stateless_lookup_package n acc p : stateless (lookup_package n acc p).
Proof.
  unfold lookup_package.
  apply stateless_bind; [auto with stateless|]. intros nv.
  apply stateless_bind; [auto with stateless|]. intros name.
  apply stateless_bind; [apply stateless_mark_dependencies|].
  intros deps; auto with stateless.
Qed.

Lemma stateless_lookup_packages n pkgs : forall acc,
  stateless (lookup_packages n pkgs acc).
Proof.
  induction pkgs as [|p rest IH]; intros acc; cbn [lookup_packages];
    auto with stateless.
  apply stateless_bind; [apply stateless_lookup_package|]. intros acc'. apply IH.
Qed.

(** The code's formula against the specification's: they agree unless no
    dependency is declared and the package is not installed. *)
Lemma restart_formula_spec already deps :
  restart_formula already deps
  = if already || (0 <? List.length deps)%nat
    then spec_restart_formula already deps
    else false.
Proof.
  unfold restart_formula, spec_restart_formula.
  destruct already; cbn [negb andb orb].
  - reflexivity.
  - destruct deps as [|d deps]; reflexivity.
Qed.

(** C1, amended: in the dependency branch, after the package list was
    fetched and searched, the restart flag is NOT(already installed AND every
    dependency marked installed) when at least one dependency is declared or
    the package is already installed; with no declared dependency and the
    package not found the flag is false: no restart. *)
Theorem dependency_branch_restart_flag restart st e w r packages already deps' :
  String.eqb restart "no" = false ->
  String.eqb restart "yes" = false ->
  has_python_files st = false ->
  (0 <? List.length (dependencies st))%nat || str_truthy (this_package_name st) = true ->
  server e (sent w) = Resp r ->
  status_code r = 200%Z ->
  json_body r = Some (JList packages) ->
  fst (lookup_packages (this_package_name st) packages (false, dependencies st)
         e (after_request (package_list_request apiurl apikey) e w))
  = Returned (already, deps') ->
  decide_restart apiurl apikey restart st e w
  = (Returned (inr (if already || (0 <? List.length deps')%nat
                    then spec_restart_formula already deps'
                    else false)),
     after_request (package_list_request apiurl apikey) e w).
Proof.
  intros Hno Hyes Hpy Hbranch Hr Hc Hb Hlook.
  unfold decide_restart. rewrite Hno, Hyes, Hpy, Hbranch. cbn [orb].
  unfold bind at 1, http at 1. rewrite Hr, Hc. cbn [Z.eqb Pos.eqb negb].
  unfold bind at 1, response_json at 1. rewrite Hb. unfold ret at 1.
  unfold bind at 1, lift at 1. cbn [Json.iter].
  unfold bind at 1.
  pose proof (stateless_lookup_packages (this_package_name st) packages
                (false, dependencies st) e
                (after_request (package_list_request apiurl apikey) e w)) as Hw.
  destruct (lookup_packages _ _ _ _ _) as [o w1]. cbn in Hlook, Hw. subst.
  unfold go_on, ret. cbn [fst snd]. now rewrite restart_formula_spec.
Qed.

End RestartFacts.

Section LookupFacts.
Context {PV : PackagingVersion}.

Lemma mark_dependencies_keys name alt p deps : forall e w deps',
  fst (mark_dependencies name alt p deps e w) = Returned deps' ->
  map fst deps' = map fst deps.
Proof.
  induction deps as [|[dn di] rest IH]; intros e w deps' H.
  - cbn in H. inversion H. reflexivity.
  - cbn [mark_dependencies] in H. unfold bind at 1 in H.
    destruct ((if String.eqb dn name || String.eqb dn alt
               then condition <- version_condition p di ;;
                    ret (if condition then mark_installed di else di)
               else ret di) e w) as [[info'|x] w1]; [|discriminate H].
    unfold bind at 1 in H.
    destruct (mark_dependencies name alt p rest e w1) as [[rest'|x] w2] eqn:Er;
      [|discriminate H].
    cbn in H. inversion H; subst. cbn [map fst]. f_equal.
    apply (IH e w1). now rewrite Er.
Qed.

(** What the loop over the installed packages computes, when it ends without
    an exception: the package counts as installed when it already did or
    when one of the listed packages bears its name, as such or in the
    hyphenated form; and the dependencies keep their names and order. *)
Lemma lookup_packages_result this pkgs : forall acc e w already deps',
  fst (lookup_packages this pkgs acc e w) = Returned (already, deps') ->
  already = fst acc || existsb (names_package this) pkgs
  /\ map fst deps' = map fst (snd acc).
Proof.
  induction pkgs as [|p rest IH]; intros acc e w already deps' H.
  - cbn in H. inversion H. destruct acc; cbn. now rewrite orb_false_r.
  - cbn [lookup_packages] in H. unfold bind at 1 in H.
    destruct (lookup_package this acc p e w) as [[acc'|x] w1] eqn:Ep;
      [|discriminate H].
    destruct (IH acc' e w1 already deps' H) as [Ha Hk].
    unfold lookup_package in Ep. unfold bind at 1, lift at 1 in Ep.
    cbn [existsb]. unfold names_package at 1.
    destruct (Json.subscript p "name") as [nv|x]; [|discriminate Ep].
    unfold bind at 1, lift at 1 in Ep.
    destruct nv as [| | |name| |]; try discriminate Ep.
    cbn [Json.as_str] in Ep. unfold bind at 1 in Ep.
    destruct (mark_dependencies name (alt_name_of name) p (snd acc) e w)
      as [[deps|x] w2] eqn:Em; [|discriminate Ep].
    cbn in Ep. inversion Ep; subst acc' w2. cbn [fst snd] in Ha, Hk.
    split.
    + rewrite Ha.
      destruct this as [n|]; [|now destruct (fst acc)].
      destruct (negb (PyStr.is_empty n)
                && (String.eqb n name || String.eqb n (alt_name_of name)));
        destruct (fst acc); reflexivity.
    + rewrite Hk. apply (mark_dependencies_keys name (alt_name_of name) p _ e w).
      now rewrite Em.
Qed.

End LookupFacts.

(** C1, the claim as stated fails: a descriptor that declares a name and no
    dependency, on a server where the package is not installed, gets the
    flag false, where the specification's formula gives true. *)
Lemma declared_name_without_dependencies_no_restart :
  let st := scan (DP := demo_patterns) [] "/pkg"
              (Dir "pkg" [] [mk_file "setup.py" demo_setup_text]) in
  let e := scripted [ok_json (JList [])] 0 false in
  this_package_name st = Some "docassemble.demo"
  /\ dependencies st = []
  /\ has_python_files st = false
  /\ fst (lookup_packages (PV := ReleaseVersion.releases) (this_package_name st) []
            (false, dependencies st) e initial_world)
     = Returned (false, [])
  /\ fst (decide_restart (PV := ReleaseVersion.releases) "https://da" "key" "auto"
            st e initial_world)
     = Returned (inr false)
  /\ spec_restart_formula false [] = true.
Proof.
  vm_compute. repeat split; reflexivity.
Qed.

(** C1 on a descriptor that requires [foo>=1.2], with [foo] 1.5.0 and the
    package itself installed: no restart. *)
Lemma dependency_branch_restart_flag_witness :
  let st := mk_scan (Some "/pkg") false (Some "docassemble.demo")
              [("foo", mk_dependency false (Some ">=") (Some "1.2"))]
              ["/pkg/setup.py"] in
  let e := scripted
             [ok_json (JList [JObj [("name", JStr "foo"); ("version", JStr "1.5.0")];
                              JObj [("name", JStr "docassemble.demo");
                                    ("version", JStr "0.0.1")]])] 0 false in
  decide_restart (PV := ReleaseVersion.releases) "https://da" "key" "auto" st e
    initial_world
  = (Returned (inr false),
     after_request (package_list_request "https://da" "key") e initial_world).
Proof.
  intros st e.
  exact (dependency_branch_restart_flag (PV := ReleaseVersion.releases)
           "https://da" "key" "auto" st e initial_world
           (mk_response 200 "" (Some (JList
              [JObj [("name", JStr "foo"); ("version", JStr "1.5.0")];
               JObj [("name", JStr "docassemble.demo"); ("version", JStr "0.0.1")]])))
           _ true [("foo", mk_dependency true (Some ">=") (Some "1.2"))]
           eq_refl eq_refl eq_refl eq_refl eq_refl eq_refl eq_refl eq_refl).
Defined.

(** ** C4: the directories the walk leaves out *)

Section WalkFacts.
Context {DP : DescriptorPatterns}.
Variable to_ignore : list string.

Lemma pruned_by_name_not_kept adjusted_root d :
  pruned_by_name d = true -> keep_dir to_ignore adjusted_root d = false.
Proof.
  unfold pruned_by_name, keep_dir. intros H.
  apply orb_true_iff in H. destruct H as [H|H]; rewrite H; cbn.
  - reflexivity.
  - now rewrite andb_false_r.
Qed.

(** A directory the filter drops could as well not be there. *)
Lemma walk_skips_dropped name pre sub post files root st :
  keep_dir to_ignore (adjusted root) (dname_of sub) = false ->
  walk to_ignore (Dir name (pre ++ sub :: post) files) root st
  = walk to_ignore (Dir name (pre ++ post) files) root st.
Proof.
  intros H. cbn [walk]. rewrite !fold_left_app. cbn [fold_left].
  now rewrite H.
Qed.

(** The same below any number of directories. *)
Lemma walk_drops root t t' :
  drops to_ignore root t t' -> forall st, walk to_ignore t root st = walk to_ignore t' root st.
Proof.
  induction 1 as [root name pre sub post files Hk
                 |root name pre sub sub' post files Hn Hd IH]; intros st.
  - now apply walk_skips_dropped.
  - cbn [walk]. rewrite !fold_left_app. cbn [fold_left].
    rewrite Hn. destruct (keep_dir to_ignore (adjusted root) (dname_of sub));
      [now rewrite IH|reflexivity].
Qed.

Lemma without_pruned_name_drops t t' :
  without_pruned_name t t' -> forall root, drops to_ignore root t t'.
Proof.
  induction 1 as [name pre sub post files Hp
                 |name pre sub sub' post files Hn Hd IH]; intros root.
  - apply drops_here. now apply pruned_by_name_not_kept.
  - apply drops_below; [exact Hn|apply IH].
Qed.

End WalkFacts.

(** C4, the claim as stated fails: directories named [dist], [venv] and [env]
    are entered and their files archived; [build] next to them is not. *)
Lemma dist_and_venv_are_walked :
  let t := Dir "pkg"
             [Dir "dist" [] [mk_file "bundle.txt" ""];
              Dir "venv" [] [mk_file "pyvenv.cfg" ""];
              Dir "env" [] [mk_file "activate" ""];
              Dir "build" [] [mk_file "lib.txt" ""]]
             [mk_file "interview.yml" ""] in
  archive (scan (DP := no_patterns) [] "/pkg" t)
  = ["/pkg/interview.yml"; "/pkg/dist/bundle.txt"; "/pkg/venv/pyvenv.cfg";
     "/pkg/env/activate"]
  /\ pruned_by_name "dist" = false
  /\ pruned_by_name "venv" = false
  /\ pruned_by_name "env" = false.
Proof.
  vm_compute. repeat split; reflexivity.
Qed.

(** C4, amended: a directory named [.git], [__pycache__], [.mypy_cache],
    [.venv], [.history] or [build], or whose name ends with [.egg-info], is
    pruned wherever the walk would meet it and whatever the ignore listing
    and the scanned path are: the scan gives what it gives on the tree
    without that directory, so the directory is not entered and none of its
    files is archived. *)
Theorem pruned_names_never_walked {DP : DescriptorPatterns} t t' :
  without_pruned_name t t' ->
  forall raw_ignore directory,
    scan raw_ignore directory t = scan raw_ignore directory t'.
Proof.
  intros H raw_ignore directory. unfold scan.
  apply walk_drops. now apply without_pruned_name_drops.
Qed.

(** C4 on a package whose namespace directory holds a bytecode cache. *)
Lemma pruned_names_never_walked_witness :
  let cache := Dir "__pycache__" [] [mk_file "util.cpython-312.pyc" ""] in
  let inner files := Dir "docassemble" files [mk_file "__init__.py" ""] in
  let package files := Dir "pkg" [inner files] [mk_file "setup.py" demo_setup_text] in
  without_pruned_name (package [cache]) (package [])
  /\ scan (DP := demo_patterns) ["data/"] "/home/user/pkg" (package [cache])
     = scan (DP := demo_patterns) ["data/"] "/home/user/pkg" (package []).
Proof.
  intros cache inner package.
  assert (H : without_pruned_name (package [cache]) (package [])).
  { apply (pruned_below "pkg" [] (inner [cache]) (inner []) []);
      [reflexivity|].
    apply (pruned_here "docassemble" [] cache []). reflexivity. }
  split; [exact H|].
  exact (pruned_names_never_walked (DP := demo_patterns) _ _ H ["data/"]
           "/home/user/pkg").
Defined.

(** The lookup of a directory in the ignore listing uses the walk root
    without its first component: under a root given by its absolute path the
    listed directory is entered, under a one-component relative root it is
    not. *)
Lemma ignore_listing_lookup_depends_on_root :
  let t := Dir "pkg" [Dir "node_modules" [] [mk_file "mod.js" ""]]
             [mk_file "interview.yml" ""] in
  archive (scan (DP := no_patterns) ["node_modules/"] "/home/user/pkg" t)
  = ["/home/user/pkg/interview.yml"; "/home/user/pkg/node_modules/mod.js"]
  /\ archive (scan (DP := no_patterns) ["node_modules/"] "pkg" t)
     = ["pkg/interview.yml"].
Proof.
  vm_compute. split; reflexivity.
Qed.

(** ** C5: the one retry of the playground install *)

Section PlaygroundFacts.
Context {PV : PackagingVersion}.
Variable apiurl apikey : string.

#[local] Abbreviation list_q := (project_list_request apiurl apikey).
#[local] Abbreviation create_q := (create_project_request apiurl apikey).
#[local] Abbreviation install_q := (playground_install_request apiurl apikey).

Lemma get_project_initial should_restart :
  PyDict.get "project" (initial_data should_restart) = None.
Proof. now destruct should_restart. Qed.

Lemma get_project_set project should_restart :
  PyDict.get "project" (PyDict.set "project" project (initial_data should_restart))
  = Some project.
Proof. now destruct should_restart. Qed.

(** C5: in playground mode, when the first submission is answered 400, the
    error is returned at once unless a project field was set and the body is
    the text [Invalid project.]; in that case the project is created and the
    archive submitted once more, and that is all: a creation answered by
    anything but 204 is returned as an error after that request, and a second
    400 is returned as an error after the one resubmission. *)
Theorem invalid_project_retried_once
  playground should_restart version e w listing posted r400 :
  let data :=
    if negb (String.eqb playground "default")
    then PyDict.set "project" playground (initial_data should_restart)
    else initial_data should_restart in
  let w1 := after_request list_q e w in
  let w2 := after_request (create_q playground) e w1 in
  let w3 := after_request (install_q data) e w2 in
  let w4 := after_request (create_q playground) e w3 in
  let w5 := after_request (install_q data) e w4 in
  let run := install_in_playground apiurl apikey playground version
               (initial_data should_restart) e w in
  let invalid :=
    match json_body r400 with
    | Some body => Json.eq_str body "Invalid project."
    | None => false
    end in
  server e (sent w) = Resp listing ->
  status_code listing = 200%Z ->
  server e (S (sent w)) = Resp posted ->
  server e (S (S (sent w))) = Resp r400 ->
  status_code r400 = 400%Z ->
  (String.eqb playground "default" || negb invalid = true ->
   run = (Returned (Message ("playground_install POST returned 400: " ++ text r400)),
          w3))
  /\ (String.eqb playground "default" = false -> invalid = true ->
      forall created,
        server e (S (S (S (sent w)))) = Resp created ->
        ((status_code created =? 204)%Z = false ->
         run = (Returned (Message
                  ("needed to create playground project but POST to api/playground/project returned "
                     ++ str_of_Z (status_code created) ++ ": " ++ text created)),
                w4))
        /\ ((status_code created =? 204)%Z = true ->
            forall again,
              server e (S (S (S (S (sent w))))) = Resp again ->
              (status_code again = 400%Z ->
               run = (Returned (Message ("playground_install POST returned 400: "
                                           ++ text again)), w5))
              /\ (status_code again = 204%Z ->
                  run = (Returned (Code 0), w5)))).
Proof.
  intros data w1 w2 w3 w4 w5 run invalid Hl Hlc Hp Hr Hrc.
  assert (Hrun : run =
    (x <-? retry_invalid_project apiurl apikey data r400 ;;
     success <-?
        (if (status_code x =? 200)%Z then
           match json_body x with
           | None => return_now (Message (text x))
           | Some info =>
               task_id <- lift (Json.subscript info "task_id") ;;
               version <- read_local "server_version_da" version ;;
               waited <- wait_for_server true task_id apikey apiurl version ;;
               go_on (wait_truthy waited)
           end
         else if (status_code x =? 204)%Z then go_on true
         else
           return_now (Message ("playground_install POST returned "
                                  ++ str_of_Z (status_code x) ++ ": " ++ text x))) ;;
      if success : bool then ret (Code 0) else ret (Code 1)) e w3).
  { unfold run, install_in_playground. fold data.
    unfold bind at 1, http at 1. rewrite Hl, Hlc. cbn [Z.eqb Pos.eqb].
    unfold or_return at 1, bind at 1, bind at 1, http at 1.
    cbn [after_request sent]. rewrite Hp. unfold go_on at 1, ret at 1.
    unfold bind at 1, http_or_click at 1, bind at 1, http at 1.
    cbn [after_request sent]. rewrite Hr. unfold ret at 1.
    rewrite Hrc. cbn [Z.eqb Pos.eqb]. reflexivity. }
  split.
  - intros Hcase. rewrite Hrun. unfold or_return at 1, bind at 1.
    unfold retry_invalid_project. rewrite Hrc.
    unfold data. apply orb_true_iff in Hcase. destruct Hcase as [Hd|Hi].
    + rewrite Hd. cbn [negb]. rewrite get_project_initial. reflexivity.
    + destruct (String.eqb playground "default"); cbn [negb].
      * rewrite get_project_initial. reflexivity.
      * rewrite get_project_set. unfold invalid in Hi.
        destruct (json_body r400) as [body|]; cbn [Json.eq_str];
          [rewrite Hi|]; reflexivity.
  - intros Hd Hi created Hc.
    assert (Hdata : PyDict.get "project" data = Some playground).
    { unfold data. rewrite Hd. cbn [negb]. apply get_project_set. }
    assert (Hinv : Json.eq_str match json_body r400 with
                               | Some j => j
                               | None => JStr ""
                               end "Invalid project." = true).
    { unfold invalid in Hi. destruct (json_body r400); [exact Hi|discriminate]. }
    split.
    + intros Hcc. rewrite Hrun. unfold or_return at 1, bind at 1.
      unfold retry_invalid_project. rewrite Hdata, Hinv. cbn [negb].
      unfold bind at 1, http_or_click at 1, bind at 1, http at 1.
      unfold w3, w2, w1. cbn [after_request sent]. rewrite Hc.
      unfold ret at 1. rewrite Hcc. reflexivity.
    + intros Hcc again Ha.
      assert (Hrun' : run =
        (success <-?
           (if (status_code again =? 200)%Z then
              match json_body again with
              | None => return_now (Message (text again))
              | Some info =>
                  task_id <- lift (Json.subscript info "task_id") ;;
                  version <- read_local "server_version_da" version ;;
                  waited <- wait_for_server true task_id apikey apiurl version ;;
                  go_on (wait_truthy waited)
              end
            else if (status_code again =? 204)%Z then go_on true
            else
              return_now (Message ("playground_install POST returned "
                                     ++ str_of_Z (status_code again) ++ ": "
                                     ++ text again))) ;;
         if success : bool then ret (Code 0) else ret (Code 1)) e w5).
      { rewrite Hrun. unfold or_return at 1, bind at 1.
        unfold retry_invalid_project. rewrite Hdata, Hinv. cbn [negb].
        unfold bind at 1, http_or_click at 1, bind at 1, http at 1.
        unfold w3, w2, w1. cbn [after_request sent]. rewrite Hc.
        unfold ret at 1. rewrite Hcc.
        cbn [negb]. unfold bind at 1, http_or_click at 1, bind at 1, http at 1.
        cbn [after_request sent]. rewrite Ha. unfold ret at 1, go_on at 1, ret at 1.
        reflexivity. }
      split; intros Hac; rewrite Hrun', Hac; reflexivity.
Qed.

End PlaygroundFacts.

(** C5 on a server that refuses the project twice. *)
Lemma invalid_project_retried_once_witness :
  let refused := mk_response 400
                   (double_quote ++ "Invalid project." ++ double_quote)
                   (Some (JStr "Invalid project.")) in
  let e := scripted [Resp (mk_response 200 "[]" (Some (JList [])));
                     Resp (mk_response 204 "" None);
                     Resp refused;
                     Resp (mk_response 204 "" None);
                     Resp refused] 0 false in
  let run := install_in_playground (PV := ReleaseVersion.releases) "https://da"
               "key" "demo" (Some (JStr "norestart")) (initial_data false) e
               initial_world in
  fst run = Returned (Message ("playground_install POST returned 400: " ++ text refused))
  /\ requests_of (events (snd run))
     = [project_list_request "https://da" "key";
        create_project_request "https://da" "key" "demo";
        playground_install_request "https://da" "key"
          [("restart", "0"); ("project", "demo")];
        create_project_request "https://da" "key" "demo";
        playground_install_request "https://da" "key"
          [("restart", "0"); ("project", "demo")]].
Proof.
  intros refused e run.
  pose proof (invalid_project_retried_once (PV := ReleaseVersion.releases)
                "https://da" "key" "demo" false (Some (JStr "norestart")) e
                initial_world (mk_response 200 "[]" (Some (JList [])))
                (mk_response 204 "" None) refused
                eq_refl eq_refl eq_refl eq_refl eq_refl) as [_ H].
  destruct (H eq_refl eq_refl (mk_response 204 "" None) eq_refl) as [_ H1].
  destruct (H1 eq_refl refused eq_refl) as [H2 _].
  specialize (H2 eq_refl). fold run in H2. rewrite H2. split; reflexivity.
Defined.

(** ** C6 and C9: the package endpoint *)

Section PackageFacts.
Context {PV : PackagingVersion} {DP : DescriptorPatterns}.
Variable apiurl apikey : string.

#[local] Abbreviation clear_q := (clear_cache_request apiurl apikey).

(** C6, amended: in package mode, once the polling has returned, whatever
    value it returned, the cache-clear request is sent exactly when the
    install was not restarting; an answer other than 204 to it is returned as
    an error; a restarting install sends no cache-clear request. *)
Theorem cache_clear_after_polling
  should_restart version data e w r info task waited w1 :
  server e (sent w) = Resp r ->
  status_code r = 200%Z ->
  json_body r = Some info ->
  Json.subscript info "task_id" = Returned task ->
  wait_for_server false task apikey apiurl version e
    (after_request (package_request apiurl apikey data) e w)
  = (Returned waited, w1) ->
  install_as_package apiurl apikey should_restart (Some version) data e w
  = if should_restart then (Returned (Code 0), w1)
    else
      match server e (sent w1) with
      | NetErr => (Raised ClickException, after_request clear_q e w1)
      | Resp cleared =>
          (Returned
             (if (status_code cleared =? 204)%Z then Code 0
              else Message ("clear_cache returned "
                              ++ str_of_Z (status_code cleared) ++ ": "
                              ++ text cleared)),
           after_request clear_q e w1)
      end.
Proof.
  intros Hr Hc Hb Ht Hw.
  unfold install_as_package.
  unfold bind at 1, http_or_click at 1, bind at 1, http at 1. rewrite Hr.
  unfold ret at 1. rewrite Hc. cbn [Z.eqb Pos.eqb negb].
  unfold bind at 1, response_json at 1. rewrite Hb. unfold ret at 1.
  unfold bind at 1, lift at 1. rewrite Ht.
  unfold bind at 1, read_local at 1, ret at 1.
  unfold bind at 1. rewrite Hw.
  destruct should_restart; cbn [negb]; [reflexivity|].
  unfold bind at 1, http_or_click at 1, bind at 1, http at 1.
  destruct (server e (sent w1)) as [cleared|]; [|reflexivity].
  unfold ret at 1. now destruct (status_code cleared =? 204)%Z.
Qed.

(** The value of [package_installer] never reaches the caller of
    [install]. *)
Lemma install_drops_result raw_ignore directory t playground restart e w v w' :
  package_installer apiurl apikey raw_ignore directory t playground restart e w
  = (Returned v, w') ->
  install apiurl apikey raw_ignore directory t playground restart e w
  = (Returned 0%Z, w').
Proof.
  intros H. unfold install, bind. now rewrite H.
Qed.

End PackageFacts.

(** C6, the claim as stated fails: after a non-restarting install that
    failed, the cache-clear request is sent all the same. *)
Lemma cache_cleared_after_failed_install :
  let e := scripted [ok_json (JObj [("task_id", JStr "task-1")]);
                     ok_json (JObj [("status", JStr "completed");
                                    ("ok", JBool false)]);
                     Resp (mk_response 204 "" None)] 0 false in
  let w1 := after_request (package_request "https://da" "key" [("restart", "0")])
              e initial_world in
  let run := package_installer (PV := ReleaseVersion.releases) (DP := demo_patterns)
               "https://da" "key" [] "/pkg" code_package None "no" e initial_world in
  fst (wait_for_server (PV := ReleaseVersion.releases) false (JStr "task-1") "key"
         "https://da" (JStr "norestart") e w1)
  = Returned (WaitBool false)
  /\ requests_of (events (snd run))
     = [package_request "https://da" "key" [("restart", "0")];
        status_request false (JStr "task-1") "key" "https://da";
        clear_cache_request "https://da" "key"].
Proof.
  vm_compute. split; reflexivity.
Qed.

(** C6 on a non-restarting install whose cache clear is answered 500. *)
Lemma cache_clear_after_polling_witness :
  let e := scripted [ok_json (JObj [("task_id", JStr "task-1")]);
                     ok_json (JObj [("status", JStr "completed");
                                    ("ok", JBool true)]);
                     Resp (mk_response 500 "busy" None)] 0 false in
  let q := package_request "https://da" "key" [("restart", "0")] in
  let w1 := after_request (status_request false (JStr "task-1") "key" "https://da")
              e (after_request q e initial_world) in
  install_as_package (PV := ReleaseVersion.releases) "https://da" "key" false
    (Some (JStr "norestart")) [("restart", "0")] e initial_world
  = (Returned (Message "clear_cache returned 500: busy"),
     after_request (clear_cache_request "https://da" "key") e w1).
Proof.
  intros e q w1.
  exact (cache_clear_after_polling (PV := ReleaseVersion.releases) "https://da"
           "key" false (JStr "norestart") [("restart", "0")] e initial_world
           (mk_response 200 "" (Some (JObj [("task_id", JStr "task-1")])))
           (JObj [("task_id", JStr "task-1")]) (JStr "task-1") (WaitBool true) w1
           eq_refl eq_refl eq_refl eq_refl eq_refl).
Defined.

(** C9, the code at the failing input: the install of a package with code
    fails on the server, the polling returns [False], and [package_installer]
    returns 0 all the same, as [install] does; the playground branch returns
    1 for a failed install. *)
Lemma failed_package_install_returns_zero :
  let e := scripted failing_install_script 0 false in
  let w2 := after_request (package_request "https://da" "key" []) e
              (after_request (package_list_request "https://da" "key") e
                 initial_world) in
  fst (wait_for_server (PV := ReleaseVersion.releases) false (JStr "task-1") "key"
         "https://da" (JStr "1.6.0") e w2)
  = Returned (WaitBool false)
  /\ fst (package_installer (PV := ReleaseVersion.releases) (DP := demo_patterns)
            "https://da" "key" [] "/pkg" code_package None "auto" e initial_world)
     = Returned (Code 0)
  /\ fst (install (PV := ReleaseVersion.releases) (DP := demo_patterns)
            "https://da" "key" [] "/pkg" code_package None "auto" e initial_world)
     = Returned 0%Z
  /\ (let e' := scripted
                  [ok_json (JList [JObj [("name", JStr "docassemble");
                                         ("version", JStr "1.6.0")]]);
                   ok_json (JList []);
                   Resp (mk_response 204 "" None);
                   ok_json (JObj [("task_id", JStr "task-1")]);
                   ok_json (JObj [("status", JStr "unknown")])] 0 false in
      fst (package_installer (PV := ReleaseVersion.releases) (DP := demo_patterns)
             "https://da" "key" [] "/pkg" code_package (Some "default") "auto"
             e' initial_world)
      = Returned (Code 1)).
Proof.
  vm_compute. repeat split; reflexivity.
Qed.

(** ** C7: an error during a round of the watch loop *)

Section WatchFacts.
Context {PV : PackagingVersion} {DP : DescriptorPatterns} {IM : IgnoreMatcher}.
Variable directory apiurl apikey : string.
Variable playground : option string.
Variable restart_param : string.
Variable buffer : Z.
Variable raw_ignore : list string.

#[local] Abbreviation round' :=
  (drain_round directory apiurl apikey playground restart_param buffer raw_ignore).
#[local] Abbreviation rounds' :=
  (rounds directory apiurl apikey playground restart_param buffer raw_ignore).
#[local] Abbreviation drain' :=
  (drain directory apiurl apikey playground restart_param buffer raw_ignore).
#[local] Abbreviation watch' :=
  (watch directory apiurl apikey playground restart_param buffer raw_ignore).

Lemma drain_after_rounds e pre : forall post lm w,
  drain' (pre ++ post) lm e w = (lm' <- rounds' pre lm ;; drain' post lm') e w.
Proof.
  induction pre as [|t pre IH]; intros post lm w.
  - reflexivity.
  - cbn [app drain rounds]. unfold bind.
    destruct (round' lm t e w) as [[lm'|x] w1]; [|reflexivity].
    rewrite IH. reflexivity.
Qed.


End WatchFacts.



(* ------------------------------------------------------------------------- *)
(** * Further properties *)
(* ------------------------------------------------------------------------- *)

(** ** wait_for_server: bounds, early return, errors *)

Section WaitMore.
Context {PV : PackagingVersion}.
Variable playground : bool.
Variable task_id : json.
Variable apikey apiurl : string.

#[local] Abbreviation q := (status_request playground task_id apikey apiurl).
#[local] Abbreviation poll' := (poll playground task_id apikey apiurl).
#[local] Abbreviation wait' := (wait_for_server playground task_id apikey apiurl).

Lemma requests_after_request rq e w :
  requests_of (events (after_request rq e w)) = (requests_of (events w) ++ [rq])%list.
Proof.
  cbn [after_request events]. unfold requests_of. rewrite flat_map_app.
  cbn [flat_map]. now rewrite app_nil_r.
Qed.

Lemma requests_after_sleep d w :
  requests_of (events (after_sleep d w)) = requests_of (events w).
Proof.
  cbn [after_sleep events]. unfold requests_of. rewrite flat_map_app.
  cbn [flat_map]. now rewrite app_nil_r.
Qed.

(** The loop sends one request per round and nothing else. *)
Lemma poll_request_bound e n : forall r0 i0 w,
  exists k,
    (k <= n)%nat /\ (n <> O -> 1 <= k)%nat
    /\ sent (snd (poll' n r0 i0 e w)) = (sent w + k)%nat
    /\ requests_of (events (snd (poll' n r0 i0 e w)))
       = (requests_of (events w) ++ repeat q k)%list.
Proof.
  induction n as [|n IH]; intros r0 i0 w.
  - exists 0%nat. cbn. rewrite app_nil_r. repeat split; try lia.
  - assert (Hone : exists k, (k <= S n)%nat /\ (S n <> O -> 1 <= k)%nat
             /\ sent (after_request q e w) = (sent w + k)%nat
             /\ requests_of (events (after_request q e w))
                = (requests_of (events w) ++ repeat q k)%list).
    { exists 1%nat. rewrite requests_after_request. cbn [repeat sent after_request].
      repeat split; lia. }
    cbn [poll]. unfold bind, http, read_local, response_json, lift, time_sleep,
      ret, raise. cbn [Z.ltb Z.compare].
    destruct (match server e (sent w) with Resp x => Some x | NetErr => r0 end)
      as [resp|]; [|exact Hone].
    destruct (negb (status_code resp =? 200)%Z); [exact Hone|].
    destruct (json_body resp) as [info|]; [|exact Hone].
    destruct (Json.subscript info "status") as [st|x]; [|exact Hone].
    destruct (Json.eq_str st "completed" || Json.eq_str st "unknown"); [exact Hone|].
    destruct (IH (Some resp) (Some info) (after_sleep 1000 (after_request q e w)))
      as (k & Hk & _ & Hs & Hr).
    exists (S k). rewrite Hs, Hr, requests_after_sleep, requests_after_request.
    cbn [after_sleep after_request sent repeat].
    repeat split; try lia.
    rewrite <- app_assoc. reflexivity.
Qed.

(** X1: whatever the server answers, and however the call ends, one call of
    [wait_for_server] sends at least one and at most 300 requests, all of
    them the status request of its task. *)
Theorem wait_for_server_request_bound v e w :
  exists n,
    (1 <= n <= 300)%nat
    /\ sent (snd (wait' v e w)) = (sent w + n)%nat
    /\ requests_of (events (snd (wait' v e w)))
       = (requests_of (events w) ++ repeat q n)%list.
Proof.
  destruct (poll_request_bound e 300 None None w) as (k & Hk & Hk1 & Hs & Hr).
  exists k. split; [split; [apply Hk1; discriminate|exact Hk]|].
  unfold wait_for_server, bind, time_time, read_local, lift, time_sleep, ret, raise.
  destruct (poll' 300 None None e w) as [[[m|info]|x] w1]; cbn [snd] in Hs, Hr;
    cbn [snd]; try (split; assumption).
  destruct info as [info|]; cbn [snd]; [|split; assumption].
  destruct (poll_success playground info); cbn [snd]; [|split; assumption].
  destruct (settle_not_needed v) as [skip|]; cbn [snd]; [|split; assumption].
  destruct skip; cbn [negb snd]; [split; assumption|].
  destruct (clock w1 - clock w <? 0)%Z; cbn [snd]; [split; assumption|].
  rewrite requests_after_sleep. cbn [after_sleep sent]. split; assumption.
Qed.

(** How the call ends when the loop ends with an early return or an
    exception. *)
Lemma wait_early_return v e w m w1 :
  poll' 300 None None e w = (Returned (EarlyReturn m), w1) ->
  wait' v e w = (Returned (WaitMessage m), w1).
Proof.
  intros H. unfold wait_for_server, bind at 1, time_time at 1. unfold bind at 1.
  now rewrite H.
Qed.

Lemma wait_raised v e w x w1 :
  poll' 300 None None e w = (Raised x, w1) ->
  wait' v e w = (Raised x, w1).
Proof.
  intros H. unfold wait_for_server, bind at 1, time_time at 1. unfold bind at 1.
  now rewrite H.
Qed.

(** The loop after [k] pending rounds, when rounds are left. *)
Lemma poll_after_pending e w k :
  (k < 300)%nat ->
  next_replies_have "pending" e w k = true ->
  exists r info,
    poll' 300 None None e w
    = poll' (S (299 - k)) r info e (after_rounds q e k w).
Proof.
  intros Hk Hp.
  destruct (poll_pending_rounds playground task_id apikey apiurl e k
              (S (299 - k)) None None w Hp) as (r & info & _ & _ & Hrun).
  replace (k + S (299 - k))%nat with 300%nat in Hrun by lia.
  now exists r, info.
Qed.

(** X2: when, after fewer than 300 pending answers, the status endpoint
    answers with a code other than 200, the call returns at once the text
    made of that code and body: no further request, no settle sleep, and the
    server version is not even looked at. *)
Theorem wait_for_server_returns_status_error v e w k r :
  (k < 300)%nat ->
  next_replies_have "pending" e w k = true ->
  server e (sent w + k) = Resp r ->
  (status_code r =? 200)%Z = false ->
  wait' v e w
  = (Returned (WaitMessage ("package_update_status returned "
                              ++ str_of_Z (status_code r) ++ ": " ++ text r)),
     after_request q e (after_rounds q e k w)).
Proof.
  intros Hk Hp Hr Hc.
  destruct (poll_after_pending e w k Hk Hp) as (r0 & i0 & Hrun).
  apply wait_early_return. rewrite Hrun.
  cbn [poll]. unfold bind at 1, http at 1.
  rewrite sent_after_rounds, Hr. cbn [read_local].
  unfold bind at 1, ret at 1. rewrite Hc. reflexivity.
Qed.

(** X4: an answer with code 200 that cannot be used ends the call with the
    exception of the failing step, after the request that fetched it: a body
    that does not decode gives [JSONDecodeError], a decoded body without a
    [status] entry gives the error of the subscript ([KeyError] for a
    dictionary). *)
Theorem wait_for_server_unusable_answer v e w k r :
  (k < 300)%nat ->
  next_replies_have "pending" e w k = true ->
  server e (sent w + k) = Resp r ->
  (status_code r =? 200)%Z = true ->
  match json_body r with
  | None =>
      wait' v e w = (Raised JSONDecodeError, after_request q e (after_rounds q e k w))
  | Some info =>
      forall x, Json.subscript info "status" = Raised x ->
                wait' v e w = (Raised x, after_request q e (after_rounds q e k w))
  end.
Proof.
  intros Hk Hp Hr Hc.
  destruct (poll_after_pending e w k Hk Hp) as (r0 & i0 & Hrun).
  destruct (json_body r) as [info|] eqn:Eb.
  - intros x Hx. apply wait_raised. rewrite Hrun.
    cbn [poll]. unfold bind at 1, http at 1.
    rewrite sent_after_rounds, Hr. cbn [read_local].
    unfold bind at 1, ret at 1. rewrite Hc. cbn [negb].
    unfold bind at 1, response_json at 1. rewrite Eb. unfold ret at 1.
    unfold bind at 1, lift at 1. rewrite Hx. reflexivity.
  - apply wait_raised. rewrite Hrun.
    cbn [poll]. unfold bind at 1, http at 1.
    rewrite sent_after_rounds, Hr. cbn [read_local].
    unfold bind at 1, ret at 1. rewrite Hc. cbn [negb].
    unfold bind at 1, response_json at 1. rewrite Eb. reflexivity.
Qed.

(** A round that sees the status [unknown] leaves the loop. *)
Lemma poll_round_unknown n r0 i0 e w :
  has_status "unknown" (server e (sent w)) = true ->
  exists info,
    polled_info (server e (sent w)) = Some info
    /\ Json.subscript info "status" = Returned (JStr "unknown")
    /\ poll' (S n) r0 i0 e w
       = (Returned (LoopDone (Some info)), after_request q e w).
Proof.
  intros H. destruct (has_status_inv _ _ H) as (r & info & st & Ha & Hc & Hb & Hs & Hst).
  exists info. split; [unfold polled_info; now rewrite Ha, Hc|]. split.
  - rewrite Hs. destruct st; cbn in Hst; try discriminate.
    apply String.eqb_eq in Hst. now subst.
  - cbn [poll]. unfold bind at 1, http at 1. rewrite Ha.
    unfold read_local, bind at 1, ret at 1. rewrite Hc. cbn [negb].
    unfold bind at 1, response_json at 1. rewrite Hb. unfold ret at 1.
    unfold bind at 1, lift at 1. rewrite Hs, Hst.
    rewrite orb_true_r. reflexivity.
Qed.

(** X3: the status [unknown] ends the polling like [completed] does, after
    [k + 1] requests, but it is no success in playground mode: the call
    returns [False] there, and in package mode the [ok] flag of that answer.
    The version is one the settle test accepts and requests take no negative
    time. *)
Theorem wait_for_server_unknown_status v skip e w k :
  settle_not_needed v = Returned skip ->
  (forall i, 0 <= latency e i)%Z ->
  (k < 300)%nat ->
  next_replies_have "pending" e w k = true ->
  has_status "unknown" (server e (sent w + k)) = true ->
  exists w',
    wait' v e w
    = (Returned (WaitBool (if playground then false
                           else ok_flag (server e (sent w + k)))), w')
    /\ sent w' = (sent w + (k + 1))%nat.
Proof.
  intros Hv Hl Hk Hp Hu.
  destruct (poll_after_pending e w k Hk Hp) as (r0 & i0 & Hrun).
  set (wk := after_rounds q e k w) in *.
  assert (Hsent : sent wk = (sent w + k)%nat) by apply sent_after_rounds.
  rewrite <- Hsent in Hu.
  destruct (poll_round_unknown (299 - k) r0 i0 e wk Hu) as (info & Hi & Hst & Hstep).
  rewrite Hstep in Hrun.
  assert (Hsuccess : poll_success playground info
                     = Returned (if playground then false
                                 else ok_flag (server e (sent wk)))).
  { unfold poll_success. destruct playground.
    - now rewrite (subscript_get _ _ _ JNull Hst).
    - destruct (has_status_ok_flag _ _ _ Hu Hi) as (x & Hx & Ht).
      rewrite Hx, Ht. reflexivity. }
  rewrite Hsent in Hsuccess.
  assert (Hclock : (clock w <= clock (after_request q e wk))%Z)
    by (eapply poll_clock_monotone; eauto).
  exists (if skip then after_request q e wk
          else after_sleep (clock (after_request q e wk) - clock w)
                           (after_request q e wk)).
  split; [now apply wait_after_loop with (info := info)|].
  destruct skip; cbn [after_sleep after_request sent]; lia.
Qed.

End WaitMore.

(** X2 on a status endpoint that answers 502 after one pending answer. *)
Lemma wait_for_server_returns_status_error_witness :
  let e := scripted [status_reply "pending";
                     Resp (mk_response 502 "Bad Gateway" None)] 0 false in
  fst (wait_for_server (PV := ReleaseVersion.releases) false (JStr "task-1") "key"
         "https://da" (JStr "not a version") e initial_world)
  = Returned (WaitMessage "package_update_status returned 502: Bad Gateway").
Proof.
  intros e.
  rewrite (wait_for_server_returns_status_error (PV := ReleaseVersion.releases)
             false (JStr "task-1") "key" "https://da" (JStr "not a version") e
             initial_world 1 (mk_response 502 "Bad Gateway" None)
             ltac:(lia) eq_refl eq_refl eq_refl).
  reflexivity.
Defined.

(** X3 on a playground restart whose status turns [unknown]. *)
Lemma wait_for_server_unknown_status_witness :
  let e := scripted [status_reply "pending"; status_reply "unknown"] 20 false in
  exists w',
    wait_for_server (PV := ReleaseVersion.releases) true (JStr "task-1") "key"
      "https://da" (JStr "1.6.0") e initial_world
    = (Returned (WaitBool false), w')
    /\ sent w' = 2%nat.
Proof.
  intros e.
  exact (wait_for_server_unknown_status (PV := ReleaseVersion.releases) true
           (JStr "task-1") "key" "https://da" (JStr "1.6.0") true e initial_world 1
           eq_refl (fun _ => ltac:(cbn; lia)) ltac:(lia) eq_refl eq_refl).
Defined.

(** X4 on a body that is no JSON, and on a dictionary without [status]. *)
Lemma wait_for_server_unusable_answer_witness :
  (let e := scripted [Resp (mk_response 200 "<html>" None)] 0 false in
   fst (wait_for_server (PV := ReleaseVersion.releases) false (JStr "task-1") "key"
          "https://da" (JStr "1.6.0") e initial_world)
   = Raised JSONDecodeError)
  /\ (let e := scripted [ok_json (JObj [("ok", JBool true)])] 0 false in
      fst (wait_for_server (PV := ReleaseVersion.releases) false (JStr "task-1")
             "key" "https://da" (JStr "1.6.0") e initial_world)
      = Raised (KeyError "status")).
Proof.
  split; intros e.
  - rewrite (wait_for_server_unusable_answer (PV := ReleaseVersion.releases)
               false (JStr "task-1") "key" "https://da" (JStr "1.6.0") e
               initial_world 0 (mk_response 200 "<html>" None)
               ltac:(lia) eq_refl eq_refl eq_refl).
    reflexivity.
  - rewrite (wait_for_server_unusable_answer (PV := ReleaseVersion.releases)
               false (JStr "task-1") "key" "https://da" (JStr "1.6.0") e
               initial_world 0
               (mk_response 200 "" (Some (JObj [("ok", JBool true)])))
               ltac:(lia) eq_refl eq_refl eq_refl (KeyError "status") eq_refl).
    reflexivity.
Defined.

(** ** The directory scan: what the walk keeps *)

Lemma tree_nested_ind (P : tree -> Prop) :
  (forall name subdirs files, Forall P subdirs -> P (Dir name subdirs files)) ->
  forall t, P t.
Proof.
  intros H. fix IH 1. intros [name subdirs files]. apply H.
  induction subdirs as [|s rest IHrest]; constructor; [apply IH|exact IHrest].
Qed.

Section ScanFacts.
Context {DP : DescriptorPatterns}.
Variable to_ignore : list string.

(** A relation between the state before and after that every step of the
    scan respects is respected by the walk. *)
Lemma walk_respects (R : scan_state -> scan_state -> Prop) :
  (forall st, R st st) ->
  (forall a b c, R a b -> R b c -> R a c) ->
  (forall st root files, R st (detect_root st root files)) ->
  (forall root adjusted_root st f,
     R st (scan_file to_ignore root adjusted_root st f)) ->
  forall t root st, R st (walk to_ignore t root st).
Proof.
  intros Hrefl Htrans Hdetect Hfile.
  assert (Hvisit : forall root files st, R st (visit to_ignore st root files)).
  { intros root files st. unfold visit.
    apply Htrans with (detect_root st root files); [apply Hdetect|].
    generalize (detect_root st root files) as st0.
    induction files as [|f files IH]; intros st0; cbn [fold_left]; [apply Hrefl|].
    eapply Htrans; [apply Hfile|apply IH]. }
  induction t as [name subdirs files IH] using tree_nested_ind.
  intros root st. cbn [walk].
  apply Htrans with (visit to_ignore st root files); [apply Hvisit|].
  generalize (visit to_ignore st root files) as st0.
  induction IH as [|sub rest Hsub _ IHrest]; intros st0; cbn [fold_left];
    [apply Hrefl|].
  eapply Htrans; [|apply IHrest].
  destruct (keep_dir to_ignore (adjusted root) (dname_of sub));
    [apply Hsub|apply Hrefl].
Qed.

(** The walk never changes the dependencies: the loop over the bracketed
    text records none. *)
Lemma walk_dependencies t root st :
  dependencies (walk to_ignore t root st) = dependencies st.
Proof.
  apply (walk_respects (fun a b => dependencies b = dependencies a)).
  - reflexivity.
  - intros a b c H1 H2. now rewrite H2.
  - intros st0 root0 files. unfold detect_root.
    destruct (root_directory st0); [reflexivity|].
    destruct (has_file "setup.py" files || has_file "setup.cfg" files);
      [|reflexivity].
    destruct (has_file "setup.py" files); [|reflexivity].
    cbn [dependencies].
    destruct (search_install_requires (read_file "setup.py" files));
      [apply parse_install_requires_records_nothing|reflexivity].
  - intros root0 ar st0 f. unfold scan_file.
    now destruct (skip_file to_ignore st0 root0 ar (fname f)).
Qed.

(** Once the package root is known, the walk leaves it and the declared
    name alone. *)
Lemma walk_keeps_root t root st r :
  root_directory st = Some r ->
  root_directory (walk to_ignore t root st) = Some r
  /\ this_package_name (walk to_ignore t root st) = this_package_name st.
Proof.
  apply (walk_respects
           (fun a b => root_directory a = Some r ->
                       root_directory b = Some r
                       /\ this_package_name b = this_package_name a)).
  - auto.
  - intros a b c H1 H2 Ha. destruct (H1 Ha) as [Hb Hn].
    destruct (H2 Hb) as [Hc Hn']. split; [exact Hc|congruence].
  - intros st0 root0 files H0. unfold detect_root. rewrite H0. auto.
  - intros root0 ar st0 f H0. unfold scan_file.
    destruct (skip_file to_ignore st0 root0 ar (fname f)); auto.
Qed.

(** The file loop changes neither the root nor the declared name. *)
Lemma files_keep_root root adjusted_root fs : forall st,
  root_directory (fold_left (scan_file to_ignore root adjusted_root) fs st)
  = root_directory st
  /\ this_package_name (fold_left (scan_file to_ignore root adjusted_root) fs st)
     = this_package_name st.
Proof.
  induction fs as [|f fs IH]; intros st; cbn [fold_left]; [auto|].
  destruct (IH (scan_file to_ignore root adjusted_root st f)) as [Hr Hn].
  rewrite Hr, Hn. unfold scan_file.
  now destruct (skip_file to_ignore st root adjusted_root (fname f)).
Qed.

End ScanFacts.

(** X5: when the scanned directory itself holds [setup.py], it is the package
    root and the declared name is the one found in that file, whatever
    descriptors lie in the directories below and whatever the ignore listing
    is: the root is detected once and never again. *)
Theorem top_descriptor_decides {DP : DescriptorPatterns}
  raw_ignore directory name subdirs files :
  has_file "setup.py" files = true ->
  root_directory (scan raw_ignore directory (Dir name subdirs files))
  = Some directory
  /\ this_package_name (scan raw_ignore directory (Dir name subdirs files))
     = declared_name (read_file "setup.py" files).
Proof.
  intros Hf. unfold scan. cbn [walk].
  set (ti := to_ignore_of raw_ignore).
  set (st1 := visit ti initial_scan directory files).
  assert (H1 : root_directory st1 = Some directory
               /\ this_package_name st1 = declared_name (read_file "setup.py" files)).
  { unfold st1, visit.
    assert (H0 : root_directory (detect_root initial_scan directory files)
                 = Some directory
                 /\ this_package_name (detect_root initial_scan directory files)
                    = declared_name (read_file "setup.py" files)).
    { unfold detect_root, declared_name. cbn [root_directory initial_scan].
      rewrite Hf. cbn [orb root_directory this_package_name].
      split; [reflexivity|].
      destruct (search_name (read_file "setup.py" files)) as [[[g1 g2] g3]|];
        [|reflexivity].
      now destruct (String.eqb g1 g3). }
    destruct (files_keep_root ti directory (adjusted directory) files
                (detect_root initial_scan directory files)) as [Hr Hn].
    rewrite Hr, Hn. exact H0. }
  destruct H1 as [Hr Hn]. rewrite <- Hn. clear Hn.
  revert Hr. generalize st1 as st0. clear st1.
  induction subdirs as [|sub rest IH]; intros st0 Hr; cbn [fold_left];
    [split; [exact Hr|reflexivity]|].
  destruct (keep_dir ti (adjusted directory) (dname_of sub)).
  - destruct (walk_keeps_root ti sub (path_join directory (dname_of sub)) st0
                directory Hr) as [Hr' Hn'].
    destruct (IH _ Hr') as [Hr'' Hn'']. split; [exact Hr''|congruence].
  - now apply IH.
Qed.

(** X6: the scan never records a dependency, whatever the descriptor says:
    the pieces of the bracketed text are stripped before the quote test, and
    the test asks for a first character that is a comma or a blank. *)
Theorem scan_records_no_dependency {DP : DescriptorPatterns} raw_ignore directory t :
  dependencies (scan raw_ignore directory t) = [].
Proof.
  unfold scan. now rewrite walk_dependencies.
Qed.

(** X5 on a package that vendors another one. *)
Lemma top_descriptor_decides_witness :
  let vendored := Dir "vendor" [] [mk_file "setup.py" "setup(name=other)"] in
  let files := [mk_file "setup.py" demo_setup_text] in
  has_file "setup.py" files = true
  /\ root_directory (scan (DP := demo_patterns) [] "/home/user/pkg"
                       (Dir "pkg" [vendored] files))
     = Some "/home/user/pkg"
  /\ this_package_name (scan (DP := demo_patterns) [] "/home/user/pkg"
                          (Dir "pkg" [vendored] files))
     = Some "docassemble.demo".
Proof.
  intros vendored files. split; [reflexivity|].
  exact (top_descriptor_decides (DP := demo_patterns) [] "/home/user/pkg" "pkg"
           [vendored] files eq_refl).
Defined.

Lemma endswith_app suf a b :
  PyStr.endswith suf b = true -> PyStr.endswith suf (a ++ b) = true.
Proof.
  intros H. induction a as [|c a IH]; cbn [append]; [exact H|].
  cbn [PyStr.endswith]. rewrite IH. apply orb_true_r.
Qed.

Lemma endswith_path_join suf root name :
  PyStr.endswith suf name = true ->
  PyStr.endswith suf (path_join root name) = true.
Proof.
  intros H. unfold path_join.
  destruct (PyStr.startswith "/" name); [exact H|].
  destruct (PyStr.is_empty root || PyStr.endswith "/" root).
  - now apply endswith_app.
  - apply endswith_app. now apply (endswith_app suf "/").
Qed.

Section ArchiveFacts.
Context {DP : DescriptorPatterns}.
Variable to_ignore : list string.

Lemma walk_archive_clean t root st :
  Forall clean_member (archive st) ->
  Forall clean_member (archive (walk to_ignore t root st)).
Proof.
  apply (walk_respects to_ignore
           (fun a b => Forall clean_member (archive a) ->
                       Forall clean_member (archive b))).
  - auto.
  - auto.
  - intros st0 root0 files H. unfold detect_root.
    destruct (root_directory st0); [exact H|].
    destruct (has_file "setup.py" files || has_file "setup.cfg" files);
      [|exact H].
    now destruct (has_file "setup.py" files).
  - intros root0 ar st0 f H. unfold scan_file.
    destruct (skip_file to_ignore st0 root0 ar (fname f)) eqn:Es; [exact H|].
    cbn [archive]. apply Forall_app. split; [exact H|].
    constructor; [|constructor].
    exists root0, (fname f). split; [reflexivity|].
    unfold skip_file in Es. unfold backup_like.
    repeat (apply orb_false_iff in Es; destruct Es as [Es ?]).
    repeat (apply orb_false_iff; split); assumption.
Qed.

Lemma walk_python_flag t root st :
  (has_python_files st = true ->
   exists p, In p (archive st) /\ PyStr.endswith ".py" p = true) ->
  has_python_files (walk to_ignore t root st) = true ->
  exists p, In p (archive (walk to_ignore t root st))
            /\ PyStr.endswith ".py" p = true.
Proof.
  apply (walk_respects to_ignore
           (fun a b =>
              (has_python_files a = true ->
               exists p, In p (archive a) /\ PyStr.endswith ".py" p = true) ->
              has_python_files b = true ->
              exists p, In p (archive b) /\ PyStr.endswith ".py" p = true)).
  - auto.
  - auto.
  - intros st0 root0 files H. unfold detect_root.
    destruct (root_directory st0); [exact H|].
    destruct (has_file "setup.py" files || has_file "setup.cfg" files);
      [|exact H].
    now destruct (has_file "setup.py" files).
  - intros root0 ar st0 f H. unfold scan_file.
    destruct (skip_file to_ignore st0 root0 ar (fname f)); [exact H|].
    cbn [has_python_files archive].
    destruct (negb (has_python_files st0) && PyStr.endswith ".py" (fname f)
              && negb (String.eqb (fname f) "setup.py" && is_root st0 root0)
              && negb (String.eqb (fname f) "__init__.py")) eqn:Epy.
    + intros _. exists (path_join root0 (fname f)). split.
      * apply in_or_app. right. now left.
      * apply endswith_path_join.
        apply andb_true_iff in Epy. destruct Epy as [Epy _].
        apply andb_true_iff in Epy. destruct Epy as [Epy _].
        apply andb_true_iff in Epy. now destruct Epy.
    + intros Hb. destruct (H Hb) as (p & Hin & Hp).
      exists p. split; [apply in_or_app; now left|exact Hp].
Qed.

End ArchiveFacts.




(** ** The restart decision and the server version *)

Section DecisionMore.
Context {PV : PackagingVersion} {DP : DescriptorPatterns}.
Variable apiurl apikey : string.

#[local] Abbreviation list_q := (package_list_request apiurl apikey).

(** Without dependencies the loop over the package list only needs the
    names to be text. *)
Lemma lookup_packages_no_dependencies this packages e w : forall already,
  forallb names_text packages = true ->
  exists already',
    lookup_packages this packages (already, []) e w = (Returned (already', []), w).
Proof.
  induction packages as [|p rest IH]; intros already H.
  - exists already. reflexivity.
  - cbn [forallb] in H. apply andb_true_iff in H. destruct H as [Hp Hrest].
    unfold names_text in Hp.
    destruct (Json.subscript p "name") as [nv|] eqn:En; [|discriminate].
    destruct nv as [| | |name| |]; try discriminate.
    cbn [lookup_packages]. unfold bind at 1, lookup_package.
    unfold bind at 1, lift at 1. rewrite En.
    unfold bind at 1, lift at 1. cbn [Json.as_str].
    unfold bind at 1. cbn [snd mark_dependencies]. unfold ret at 1, ret at 1.
    apply IH. exact Hrest.
Qed.

(** X9: in automatic mode, a package without code files whose descriptor
    declares a name is never installed with a restart: the package list is
    fetched once and, whatever packages it names, the flag is false.  (The
    scan records no dependency, so nothing can be found missing.) *)
Theorem named_code_free_package_no_restart
  raw_ignore directory t e w r packages :
  has_python_files (scan raw_ignore directory t) = false ->
  str_truthy (this_package_name (scan raw_ignore directory t)) = true ->
  server e (sent w) = Resp r ->
  status_code r = 200%Z ->
  json_body r = Some (JList packages) ->
  forallb names_text packages = true ->
  decide_restart apiurl apikey "auto" (scan raw_ignore directory t) e w
  = (Returned (inr false), after_request list_q e w).
Proof.
  intros Hpy Hname Hr Hc Hb Hn.
  assert (Hd : dependencies (scan raw_ignore directory t) = [])
    by (unfold scan; apply walk_dependencies).
  unfold decide_restart. cbn [String.eqb Ascii.eqb Bool.eqb orb].
  rewrite Hpy, Hname, orb_true_r.
  unfold bind at 1, http at 1. rewrite Hr, Hc. cbn [Z.eqb Pos.eqb negb].
  unfold bind at 1, response_json at 1. rewrite Hb. unfold ret at 1.
  unfold bind at 1, lift at 1. cbn [Json.iter].
  unfold bind at 1.
  rewrite Hd.
  destruct (lookup_packages_no_dependencies
              (this_package_name (scan raw_ignore directory t)) packages e
              (after_request list_q e w) false Hn) as [already Hl].
  match goal with
  | |- context [lookup_packages ?a ?b ?c ?d ?f] =>
      replace (lookup_packages a b c d f)
        with (@Returned (bool * dependencies_t) (already, []),
              after_request list_q e w) by (symmetry; exact Hl)
  end.
  unfold go_on, ret. cbn [fst snd].
  unfold restart_formula. cbn. now rewrite andb_false_r.
Qed.

(** X11: when a restart is due and the request for the server version fails
    (network failure, an error code, or a body that does not decode), the
    installer raises a [ClickException] after that one request: nothing is
    uploaded, in package mode or in playground mode. *)
Theorem version_lookup_failure_stops_install st playground restart e w :
  String.eqb restart "no" = false ->
  String.eqb restart "yes" || has_python_files st = true ->
  version_lookup_fails (server e (sent w)) = true ->
  install_scanned apiurl apikey st playground restart e w
  = (Raised ClickException, after_request list_q e w).
Proof.
  intros Hno Hyes Hfail.
  unfold install_scanned, or_return at 1. unfold bind at 1.
  unfold decide_restart. rewrite Hno, Hyes. unfold go_on at 1, ret at 1.
  unfold bind at 1, server_version_phase. unfold bind at 1, http at 1.
  unfold version_lookup_fails in Hfail.
  destruct (server e (sent w)) as [r|]; [|reflexivity].
  destruct (status_code r =? 200)%Z; cbn [negb].
  - destruct (json_body r); [discriminate|reflexivity].
  - now rewrite Hfail.
Qed.

(** X10: when a restart is due and the package list, though well received,
    names no package [docassemble], the local that holds the server version
    stays unassigned.  With [DEBUG] set the installer fails on it at once;
    otherwise, in package mode, it first uploads the archive and then fails
    with the unbound-local error, before any status request. *)
Theorem missing_server_version_fails_after_upload
  st restart e w listing packages :
  String.eqb restart "no" = false ->
  String.eqb restart "yes" || has_python_files st = true ->
  server e (sent w) = Resp listing ->
  status_code listing = 200%Z ->
  json_body listing = Some (JList packages) ->
  find_server_version packages None = Returned None ->
  let w1 := after_request list_q e w in
  if DEBUG e then
    install_scanned apiurl apikey st None restart e w
    = (Raised (UnboundLocalError "server_version_da"), w1)
  else
    forall r info task,
      server e (S (sent w)) = Resp r ->
      status_code r = 200%Z ->
      json_body r = Some info ->
      Json.subscript info "task_id" = Returned task ->
      install_scanned apiurl apikey st None restart e w
      = (Raised (UnboundLocalError "server_version_da"),
         after_request (package_request apiurl apikey []) e w1).
Proof.
  intros Hno Hyes Hl Hc Hb Hv w1.
  assert (Hrun : install_scanned apiurl apikey st None restart e w
    = (debug <- debug_flag ;;
       (if debug : bool
        then _ <- read_local "server_version_da" (@None json) ;; ret tt
        else ret tt) ;;;
       install_as_package apiurl apikey true None (initial_data true)) e w1).
  { unfold install_scanned, or_return at 1. unfold bind at 1.
    unfold decide_restart. rewrite Hno, Hyes. unfold go_on at 1, ret at 1.
    unfold bind at 1, server_version_phase. unfold bind at 1, http at 1.
    rewrite Hl, Hc. cbn [Z.eqb Pos.eqb negb]. rewrite Hb. cbn [Json.iter].
    rewrite Hv. reflexivity. }
  rewrite Hrun. unfold bind, debug_flag, read_local, ret, raise.
  destruct (DEBUG e).
  - reflexivity.
  - intros r info task Hr Hrc Hrb Ht.
    unfold install_as_package, http_or_click, bind, http, response_json, lift,
      read_local, ret, raise.
    unfold w1. cbv beta. cbn [after_request sent]. rewrite Hr, Hrc.
    cbn [Z.eqb Pos.eqb negb]. rewrite Hrb, Ht. reflexivity.
Qed.

End DecisionMore.

(** X9 on a package of interviews only, not yet installed on the server. *)
Lemma named_code_free_package_no_restart_witness :
  let t := Dir "pkg" [] [mk_file "setup.py" demo_setup_text;
                         mk_file "interview.yml" ""] in
  let listing := JList [JObj [("name", JStr "docassemble.webapp");
                              ("version", JStr "1.6.0")]] in
  let e := scripted [ok_json listing] 0 false in
  fst (decide_restart (PV := ReleaseVersion.releases) "https://da" "key" "auto"
         (scan (DP := demo_patterns) [] "/pkg" t) e initial_world)
  = Returned (inr false).
Proof.
  intros t listing e.
  rewrite (named_code_free_package_no_restart (PV := ReleaseVersion.releases)
             (DP := demo_patterns) "https://da" "key" [] "/pkg" t e initial_world
             (mk_response 200 "" (Some listing)) _
             eq_refl eq_refl eq_refl eq_refl eq_refl eq_refl).
  reflexivity.
Defined.

(** X11 on a server that refuses the key. *)
Lemma version_lookup_failure_stops_install_witness :
  let e := scripted [Resp (mk_response 403 "Access denied" None)] 0 false in
  install_scanned (PV := ReleaseVersion.releases) "https://da" "key"
    (scan (DP := demo_patterns) [] "/pkg" code_package) (Some "demo") "auto" e
    initial_world
  = (Raised ClickException,
     after_request (package_list_request "https://da" "key") e initial_world).
Proof.
  intros e.
  exact (version_lookup_failure_stops_install (PV := ReleaseVersion.releases)
           "https://da" "key" (scan (DP := demo_patterns) [] "/pkg" code_package)
           (Some "demo") "auto" e initial_world eq_refl eq_refl eq_refl).
Defined.

(** X10 on a server whose package list has no entry [docassemble]. *)
Lemma missing_server_version_fails_after_upload_witness :
  let listing := JList [JObj [("name", JStr "docassemble.base");
                              ("version", JStr "1.6.0")]] in
  let e := scripted [ok_json listing;
                     ok_json (JObj [("task_id", JStr "task-1")])] 0 false in
  let run := install_scanned (PV := ReleaseVersion.releases) "https://da" "key"
               (scan (DP := demo_patterns) [] "/pkg" code_package) None "auto" e
               initial_world in
  fst run = Raised (UnboundLocalError "server_version_da")
  /\ requests_of (events (snd run))
     = [package_list_request "https://da" "key";
        package_request "https://da" "key" []].
Proof.
  intros listing e run.
  pose proof (missing_server_version_fails_after_upload
                (PV := ReleaseVersion.releases) "https://da" "key"
                (scan (DP := demo_patterns) [] "/pkg" code_package) "auto" e
                initial_world (mk_response 200 "" (Some listing)) _
                eq_refl eq_refl eq_refl eq_refl eq_refl eq_refl) as H.
  cbn [DEBUG e scripted] in H.
  specialize (H (mk_response 200 "" (Some (JObj [("task_id", JStr "task-1")])))
                (JObj [("task_id", JStr "task-1")]) (JStr "task-1")
                eq_refl eq_refl eq_refl eq_refl).
  fold run in H. rewrite H. split; reflexivity.
Defined.

(** ** The playground branch *)

Section PlaygroundMore.
Context {PV : PackagingVersion}.
Variable apiurl apikey : string.

#[local] Abbreviation list_q := (project_list_request apiurl apikey).
#[local] Abbreviation create_q := (create_project_request apiurl apikey).
#[local] Abbreviation install_q := (playground_install_request apiurl apikey).

(** X12: when the list of projects is answered with a code other than 200,
    the playground install returns the error text after that one request:
    no project is created and the archive is not submitted. *)
Theorem project_list_error_stops_install playground version data e w listing :
  server e (sent w) = Resp listing ->
  (status_code listing =? 200)%Z = false ->
  install_in_playground apiurl apikey playground version data e w
  = (Returned (Message ("playground list of projects GET returned "
                          ++ str_of_Z (status_code listing) ++ ": "
                          ++ text listing)),
     after_request list_q e w).
Proof.
  intros Hl Hc. unfold install_in_playground.
  unfold bind at 1, http at 1. rewrite Hl, Hc. reflexivity.
Qed.

(** X13: in playground mode the value returned after the polling is 0 when
    the value of [wait_for_server] counts as true and 1 otherwise; the text
    of an early return of the polling counts as true, so a status endpoint
    that answers with an error code makes the install end with 0. *)
Theorem playground_result_follows_polling
  playground version data0 e w listing posted r info task waited w' :
  let data :=
    if negb (String.eqb playground "default")
    then PyDict.set "project" playground data0 else data0 in
  let w3 := after_request (install_q data) e
              (after_request (create_q playground) e (after_request list_q e w)) in
  server e (sent w) = Resp listing ->
  status_code listing = 200%Z ->
  server e (S (sent w)) = Resp posted ->
  server e (S (S (sent w))) = Resp r ->
  status_code r = 200%Z ->
  json_body r = Some info ->
  Json.subscript info "task_id" = Returned task ->
  wait_for_server true task apikey apiurl version e w3 = (Returned waited, w') ->
  install_in_playground apiurl apikey playground (Some version) data0 e w
  = (Returned (Code (if wait_truthy waited then 0 else 1)), w')
  /\ forall m, waited = WaitMessage ("package_update_status returned " ++ m) ->
               install_in_playground apiurl apikey playground (Some version)
                 data0 e w
               = (Returned (Code 0), w').
Proof.
  intros data w3 Hl Hlc Hp Hr Hrc Hb Ht Hw.
  assert (Hrun : install_in_playground apiurl apikey playground (Some version)
                   data0 e w
                 = (Returned (Code (if wait_truthy waited then 0 else 1)), w')).
  { unfold install_in_playground. fold data.
    unfold bind at 1, http at 1. rewrite Hl, Hlc. cbn [Z.eqb Pos.eqb].
    unfold or_return at 1, bind at 1, bind at 1, http at 1.
    cbn [after_request sent]. rewrite Hp. unfold go_on at 1, ret at 1.
    unfold bind at 1, http_or_click at 1, bind at 1, http at 1.
    cbn [after_request sent]. rewrite Hr. unfold ret at 1.
    rewrite Hrc. cbn [Z.eqb Pos.eqb].
    unfold or_return at 1, bind at 1, go_on at 1, ret at 1.
    unfold or_return at 1, bind at 1. rewrite Hb.
    unfold bind at 1, lift at 1. rewrite Ht.
    unfold bind at 1, read_local at 1, ret at 1.
    rewrite Hrc. cbn [Z.eqb Pos.eqb]. unfold bind at 1. unfold w3 in Hw. rewrite Hw.
    unfold go_on, ret. now destruct (wait_truthy waited). }
  split; [exact Hrun|].
  intros m Hm. rewrite Hrun, Hm. reflexivity.
Qed.

End PlaygroundMore.

(** X12 on a server that does not know the playground API. *)
Lemma project_list_error_stops_install_witness :
  let e := scripted [Resp (mk_response 404 "Not Found" None)] 0 false in
  install_in_playground (PV := ReleaseVersion.releases) "https://da" "key" "demo"
    (Some (JStr "norestart")) (initial_data false) e initial_world
  = (Returned (Message "playground list of projects GET returned 404: Not Found"),
     after_request (project_list_request "https://da" "key") e initial_world).
Proof.
  intros e.
  exact (project_list_error_stops_install (PV := ReleaseVersion.releases)
           "https://da" "key" "demo" (Some (JStr "norestart")) (initial_data false)
           e initial_world (mk_response 404 "Not Found" None) eq_refl eq_refl).
Defined.

(** X13 on a playground install whose status request is answered 500. *)
Lemma playground_result_follows_polling_witness :
  let e := scripted [ok_json (JList []);
                     Resp (mk_response 204 "" None);
                     ok_json (JObj [("task_id", JStr "task-1")]);
                     Resp (mk_response 500 "Internal Server Error" None)]
             0 false in
  fst (install_in_playground (PV := ReleaseVersion.releases) "https://da" "key"
         "default" (Some (JStr "norestart")) (initial_data false) e initial_world)
  = Returned (Code 0).
Proof.
  intros e.
  pose proof (playground_result_follows_polling (PV := ReleaseVersion.releases)
                "https://da" "key" "default" (JStr "norestart") (initial_data false)
                e initial_world (mk_response 200 "" (Some (JList [])))
                (mk_response 204 "" None)
                (mk_response 200 "" (Some (JObj [("task_id", JStr "task-1")])))
                (JObj [("task_id", JStr "task-1")]) (JStr "task-1")
                (WaitMessage
                   "package_update_status returned 500: Internal Server Error")
                _ eq_refl eq_refl eq_refl eq_refl eq_refl eq_refl eq_refl eq_refl)
    as [_ H].
  rewrite (H "500: Internal Server Error" eq_refl). reflexivity.
Defined.

(** ** The watch handler and the idle loop *)

Lemma pydict_get_set_same {V} k (v : V) d : PyDict.get k (PyDict.set k v d) = Some v.
Proof.
  induction d as [|[k' v'] d IH]; cbn [PyDict.set PyDict.get].
  - now rewrite String.eqb_refl.
  - destruct (String.eqb k' k) eqn:E; cbn [PyDict.get].
    + now rewrite String.eqb_refl.
    + now rewrite E.
Qed.

Lemma pydict_get_set_other {V} k k' (v : V) d :
  String.eqb k k' = false -> PyDict.get k' (PyDict.set k v d) = PyDict.get k' d.
Proof.
  intros Hk. induction d as [|[k0 v0] d IH]; cbn [PyDict.set PyDict.get].
  - now rewrite Hk.
  - destruct (String.eqb k0 k) eqn:E; cbn [PyDict.get].
    + apply String.eqb_eq in E. subst k0. now rewrite Hk.
    + now rewrite IH.
Qed.

Section HandlerFacts.
Context {IM : IgnoreMatcher}.
Variable directory : string.

#[local] Abbreviation handle := (on_any_event directory).

Lemma on_any_event_cases now lm event :
  handle now lm event
  = if qualifies directory event
    then mk_last_modified now (PyDict.set (src_path event) true (lm_files lm))
           (if PyStr.endswith ".py" (src_path event) then true else lm_restart lm)
    else lm.
Proof.
  unfold on_any_event, qualifies.
  destruct (is_directory event); [reflexivity|]. cbn [negb andb].
  destruct (String.eqb (event_type event) "created"
            || String.eqb (event_type event) "modified"); [|reflexivity].
  cbn [andb].
  now destruct (matches_ignore_patterns _ directory).
Qed.

Lemma recorded_stays now events : forall lm p,
  PyDict.get p (lm_files lm) = Some true ->
  PyDict.get p (lm_files (fold_left (handle now) events lm)) = Some true.
Proof.
  induction events as [|ev events IH]; intros lm p H; cbn [fold_left]; [exact H|].
  apply IH. rewrite on_any_event_cases.
  destruct (qualifies directory ev); [|exact H]. cbn [lm_files].
  destruct (String.eqb (src_path ev) p) eqn:E.
  - apply String.eqb_eq in E. subst p. apply pydict_get_set_same.
  - now rewrite pydict_get_set_other.
Qed.

(** X14: what a batch of events leaves in the pending record.  Every event
    the handler takes up has its path among the changed files; the restart
    flag is set exactly when it was set before or one of those events is for
    a path ending with [.py]; and the time is the clock reading when one of
    them was taken up and is left alone otherwise. *)
Theorem delivered_changes_recorded now events lm :
  let lm' := fold_left (handle now) events lm in
  (forall event, In event events -> qualifies directory event = true ->
                 PyDict.get (src_path event) (lm_files lm') = Some true)
  /\ lm_restart lm'
     = lm_restart lm
       || existsb (fun event => qualifies directory event
                                && PyStr.endswith ".py" (src_path event)) events
  /\ lm_time lm' = if existsb (qualifies directory) events then now else lm_time lm.
Proof.
  revert lm. induction events as [|ev events IH]; intros lm; cbn [fold_left].
  - cbn. split; [intros ? []|]. split; [now rewrite orb_false_r|reflexivity].
  - destruct (IH (handle now lm ev)) as (Hf & Hr & Ht).
    split; [|split].
    + intros event [->|Hin] Hq; [|now apply Hf].
      apply recorded_stays. rewrite on_any_event_cases, Hq. cbn [lm_files].
      apply pydict_get_set_same.
    + rewrite Hr, on_any_event_cases. cbn [existsb].
      destruct (qualifies directory ev); cbn [andb lm_restart orb]; [|reflexivity].
      destruct (PyStr.endswith ".py" (src_path ev)); cbn [orb].
      * now rewrite orb_true_r.
      * reflexivity.
    + rewrite Ht, on_any_event_cases. cbn [existsb].
      destruct (qualifies directory ev); cbn [orb lm_time]; [|reflexivity].
      now destruct (existsb (qualifies directory) events).
Qed.

Lemma quiet_events_ignored now events : forall lm,
  forallb (fun event => negb (qualifies directory event)) events = true ->
  fold_left (handle now) events lm = lm.
Proof.
  induction events as [|ev events IH]; intros lm H; cbn [fold_left]; [reflexivity|].
  cbn [forallb] in H. apply andb_true_iff in H. destruct H as [Hq Hrest].
  rewrite on_any_event_cases.
  destruct (qualifies directory ev); [discriminate|]. now apply IH.
Qed.

End HandlerFacts.

Section IdleFacts.
Context {PV : PackagingVersion} {DP : DescriptorPatterns} {IM : IgnoreMatcher}.
Variable directory apiurl apikey : string.
Variable playground : option string.
Variable restart_param : string.
Variable buffer : Z.
Variable raw_ignore : list string.

#[local] Abbreviation rounds' :=
  (rounds directory apiurl apikey playground restart_param buffer raw_ignore).

(** X15: while nothing is pending and the ticks bring no event the handler
    takes up, the watch loop only sleeps: whatever the number of rounds, no
    request is sent and nothing becomes pending. *)
Theorem idle_watch_sends_nothing ticks : forall lm e w,
  lm_time lm = 0%Z ->
  forallb (quiet directory) ticks = true ->
  exists w',
    rounds' ticks lm e w = (Returned lm, w')
    /\ sent w' = sent w
    /\ requests_of (events w') = requests_of (events w)
    /\ clock w' = (clock w + 1000 * Z.of_nat (List.length ticks))%Z.
Proof.
  induction ticks as [|t ticks IH]; intros lm e w Hlm Hq.
  - exists w. cbn. repeat split; lia.
  - cbn [forallb] in Hq. apply andb_true_iff in Hq. destruct Hq as [Ht Hrest].
    cbn [rounds]. unfold bind at 1, drain_round.
    unfold bind at 1, time_time at 1.
    rewrite (quiet_events_ignored directory (clock w) (delivered t) lm Ht).
    rewrite Hlm. cbn [Z.eqb negb].
    unfold bind at 1, ret at 1. unfold bind at 1, time_sleep at 1.
    cbn [Z.ltb Z.compare]. unfold ret at 1.
    destruct (IH lm e (after_sleep 1000 w) Hlm Hrest) as (w' & Hrun & Hs & Hr & Hc).
    exists w'. split; [exact Hrun|]. split; [exact Hs|]. split.
    + now rewrite Hr, requests_after_sleep.
    + rewrite Hc. cbn [after_sleep clock List.length]. lia.
Qed.

End IdleFacts.

(** X15 on a directory event and a deletion. *)
Lemma idle_watch_sends_nothing_witness :
  let t := Dir "pkg" [] [mk_file "interview.yml" ""] in
  let ticks := [mk_tick [mk_fs_event true "modified" "/pkg/data"] t;
                mk_tick [mk_fs_event false "deleted" "/pkg/old.yml"] t] in
  exists w',
    rounds (PV := ReleaseVersion.releases) (DP := no_patterns)
      (IM := ignore_nothing) "/pkg" "https://da" "key" None "auto" 3 [] ticks
      no_changes (scripted [] 0 false) watch_start
    = (Returned no_changes, w')
    /\ sent w' = 0%nat.
Proof.
  intros t ticks.
  destruct (idle_watch_sends_nothing (PV := ReleaseVersion.releases)
              (DP := no_patterns) (IM := ignore_nothing) "/pkg" "https://da" "key"
              None "auto" 3 [] ticks no_changes (scripted [] 0 false) watch_start
              eq_refl eq_refl) as (w' & Hrun & Hs & _).
  exists w'. split; [exact Hrun|exact Hs].
Defined.

(** ** Writing a requirement and reading it back *)

Lemma operator_free_cons c s :
  operator_free (String c s) = true ->
  Ascii.eqb c "<" = false /\ Ascii.eqb c ">" = false /\ Ascii.eqb c "=" = false
  /\ Ascii.eqb c PyStr.newline = false /\ operator_free s = true.
Proof.
  unfold operator_free. cbn [PyStr.char_in].
  rewrite (ascii_eqb_comm "<" c), (ascii_eqb_comm ">" c), (ascii_eqb_comm "=" c),
    (ascii_eqb_comm PyStr.newline c).
  rewrite !andb_true_iff, !negb_true_iff, !orb_false_iff.
  intros [[[[H1 H1'] [H2 H2']] [H3 H3']] [H4 H4']].
  repeat split; assumption.
Qed.

Lemma operator_free_one_line s : operator_free s = true -> one_line s.
Proof.
  unfold operator_free, one_line. intros H.
  apply andb_true_iff in H. destruct H as [_ H].
  now apply negb_true_iff in H.
Qed.

Lemma strip_prefix_cons a p b s :
  PyStr.strip_prefix (String a p) (String b s)
  = if Ascii.eqb a b then PyStr.strip_prefix p s else None.
Proof. reflexivity. Qed.

Lemma strip_prefix_nil s : PyStr.strip_prefix EmptyString s = Some s.
Proof. now destruct s. Qed.

Lemma alternation_cons op ops s :
  OperatorPattern.alternation (op :: ops) s
  = match PyStr.strip_prefix op s with
    | Some rest => Some (op, OperatorPattern.dot_star rest)
    | None => OperatorPattern.alternation ops s
    end.
Proof. reflexivity. Qed.

Lemma match_here_cons c r :
  OperatorPattern.match_here (String c r)
  = let stop :=
      match OperatorPattern.alternation OperatorPattern.operators (String c r) with
      | Some (op, g3) => Some (EmptyString, op, g3)
      | None => None
      end in
    if Ascii.eqb c PyStr.newline then stop
    else match OperatorPattern.match_here r with
         | Some (g1, op, g3) => Some (String c g1, op, g3)
         | None => stop
         end.
Proof. reflexivity. Qed.

(** Comparisons of two given characters, by computation. *)
Ltac eval_closed_eqb :=
  repeat match goal with
         | |- context [Ascii.eqb ?a ?b] =>
             let v := eval vm_compute in (Ascii.eqb a b) in
             match v with
             | true => change (Ascii.eqb a b) with true
             | false => change (Ascii.eqb a b) with false
             end
         end.

Ltac run_pattern :=
  repeat (rewrite ?alternation_cons, ?strip_prefix_cons, ?strip_prefix_nil;
          eval_closed_eqb; cbv beta iota zeta).

Lemma operator_free_head s :
  operator_free s = true ->
  OperatorPattern.alternation OperatorPattern.operators s = None
  /\ PyStr.strip_prefix "=" s = None.
Proof.
  destruct s as [|c s]; [now split|].
  intros H. destruct (operator_free_cons _ _ H) as (Hl & Hg & He & _ & _).
  rewrite (ascii_eqb_comm c "<") in Hl. rewrite (ascii_eqb_comm c ">") in Hg.
  rewrite (ascii_eqb_comm c "=") in He.
  unfold OperatorPattern.operators.
  rewrite !alternation_cons, !strip_prefix_cons, Hl, Hg, He. now split.
Qed.

Lemma operator_free_no_match s :
  operator_free s = true -> OperatorPattern.match_here s = None.
Proof.
  induction s as [|c s IH]; intros H; [reflexivity|].
  destruct (operator_free_head _ H) as [Ha _].
  destruct (operator_free_cons _ _ H) as (_ & _ & _ & Hn & Hs).
  rewrite match_here_cons. cbv zeta. now rewrite Ha, Hn, (IH Hs).
Qed.

(** The anchored pattern on an operator followed by a text free of
    operators. *)
Lemma match_here_operator op version :
  In op OperatorPattern.operators ->
  operator_free version = true ->
  OperatorPattern.match_here (op ++ version) = Some (EmptyString, op, version).
Proof.
  intros Hop Hv.
  pose proof (operator_free_no_match _ Hv) as Hm.
  destruct (operator_free_head _ Hv) as [Ha He].
  pose proof (dot_star_one_line _ (operator_free_one_line _ Hv)) as Hd.
  assert (Heq : OperatorPattern.match_here (String "=" version) = None).
  { rewrite match_here_cons, Hm. unfold OperatorPattern.operators.
    run_pattern. rewrite He. run_pattern. reflexivity. }
  unfold OperatorPattern.operators in Hop. cbn [In] in Hop.
  destruct Hop as [<-|[<-|[<-|[<-|[<-|[]]]]]]; cbn [append];
    rewrite match_here_cons, ?Heq, ?Hm; unfold OperatorPattern.operators;
    run_pattern; rewrite ?He; run_pattern; rewrite ?Hd; reflexivity.
Qed.

(** X16: a requirement written as a name, one of the five operators and a
    version, with no operator character in the name or the version, is read
    back as exactly that name, operator and version, each side stripped of
    the blanks around it. *)
Theorem split_dependency_round_trip name op version :
  In op OperatorPattern.operators ->
  operator_free name = true ->
  operator_free version = true ->
  split_dependency (name ++ op ++ version)
  = (PyStr.strip name,
     mk_dependency false (Some op) (Some (PyStr.strip version))).
Proof.
  intros Hop Hn Hv.
  assert (Hl : one_line (name ++ op ++ version)).
  { apply one_line_app. split; [now apply operator_free_one_line|].
    apply one_line_app. split; [|now apply operator_free_one_line].
    unfold OperatorPattern.operators in Hop. cbn [In] in Hop.
    destruct Hop as [<-|[<-|[<-|[<-|[<-|[]]]]]]; reflexivity. }
  unfold split_dependency. rewrite (search_one_line _ Hl).
  assert (Hm : OperatorPattern.match_here (name ++ op ++ version)
               = Some (name, op, version)).
  { clear Hl. induction name as [|c name IH]; cbn [append].
    - now apply match_here_operator.
    - destruct (operator_free_cons _ _ Hn) as (_ & _ & _ & Hnl & Hn').
      rewrite match_here_cons. cbv zeta. now rewrite Hnl, (IH Hn'). }
  now rewrite Hm.
Qed.

(** X16 on a requirement with blanks around the operator. *)
Lemma split_dependency_round_trip_witness :
  split_dependency ("docassemble.base " ++ ">=" ++ " 1.4.0")
  = ("docassemble.base", mk_dependency false (Some ">=") (Some "1.4.0")).
Proof.
  exact (split_dependency_round_trip "docassemble.base " ">=" " 1.4.0"
           (or_intror (or_introl eq_refl)) eq_refl eq_refl).
Defined.

(** ** The list of servers *)

Lemma pydict_set_known {V} k (v : V) d :
  PyDict.get k d = Some v -> PyDict.set k v d = d.
Proof.
  induction d as [|[k' v'] d IH]; cbn [PyDict.get PyDict.set]; [discriminate|].
  destruct (String.eqb k' k) eqn:E.
  - intros H. inversion H. apply String.eqb_eq in E. now subst.
  - intros H. now rewrite IH.
Qed.

Lemma eq_str_true j s : Json.eq_str j s = true -> j = JStr s.
Proof.
  destruct j; cbn; try discriminate. intros H. apply String.eqb_eq in H. now subst.
Qed.

Lemma get_is_object item key default v :
  Json.get item key default = Returned v -> exists fields, item = JObj fields.
Proof. destruct item; cbn; try discriminate. eauto. Qed.

Section ServerFacts.
Context {UP : UrlParser}.

(** The entry after the two assignments: it keeps its name and carries the
    URL and the key. *)
Lemma update_entry_fields apiurl apikey item name :
  Json.get item "name" JNull = Returned name ->
  Json.get (update_entry apiurl apikey item) "name" JNull = Returned name
  /\ Json.get (update_entry apiurl apikey item) "apiurl" JNull = Returned (JStr apiurl)
  /\ Json.get (update_entry apiurl apikey item) "apikey" JNull = Returned (JStr apikey).
Proof.
  intros H. destruct (get_is_object _ _ _ _ H) as [fields ->].
  cbn [update_entry Json.get] in *.
  rewrite pydict_get_set_same.
  rewrite (pydict_get_set_other "apikey" "apiurl") by reflexivity.
  rewrite pydict_get_set_same.
  rewrite (pydict_get_set_other "apikey" "name") by reflexivity.
  rewrite (pydict_get_set_other "apiurl" "name") by reflexivity.
  auto.
Qed.

(** When no entry bears the name, the search goes on behind the list. *)
Lemma update_named_none_find apiname apiurl apikey env tail :
  update_named apiname apiurl apikey env = Returned None ->
  find_server apiname (env ++ tail) = find_server apiname tail.
Proof.
  induction env as [|item rest IH]; cbn [update_named find_server app]; [auto|].
  destruct (Json.get item "name" JNull) as [name|]; [|discriminate].
  destruct (Json.eq_str name apiname); [discriminate|].
  destruct (update_named apiname apiurl apikey rest) as [[rest'|]|];
    try discriminate.
  intros _. now apply IH.
Qed.

Lemma update_named_none_update apiname apiurl apikey env tail :
  update_named apiname apiurl apikey env = Returned None ->
  update_named apiname apiurl apikey (env ++ tail)
  = match update_named apiname apiurl apikey tail with
    | Returned (Some tail') => Returned (Some (env ++ tail')%list)
    | other => other
    end.
Proof.
  induction env as [|item rest IH]; cbn [update_named app].
  - intros _. now destruct (update_named apiname apiurl apikey tail) as [[|]|].
  - destruct (Json.get item "name" JNull) as [name|]; [|discriminate].
    destruct (Json.eq_str name apiname); [discriminate|].
    destruct (update_named apiname apiurl apikey rest) as [[rest'|]|] eqn:Er;
      try discriminate.
    intros _. rewrite (IH eq_refl).
    now destruct (update_named apiname apiurl apikey tail) as [[|]|].
Qed.

Lemma new_entry_fields apiurl apikey :
  Json.get (new_entry apiurl apikey) "name" JNull
  = Returned (JStr (name_from_url apiurl))
  /\ Json.get (new_entry apiurl apikey) "apiurl" JNull = Returned (JStr apiurl)
  /\ Json.get (new_entry apiurl apikey) "apikey" JNull = Returned (JStr apikey).
Proof. now repeat split. Qed.

(** X17: after [add_or_update_env] has returned, the search by the name of
    the URL finds an entry that carries exactly the URL and the key that
    were given, under that name. *)
Theorem added_server_is_found env apiurl apikey env' :
  add_or_update_env env apiurl apikey = Returned env' ->
  exists item,
    find_server (name_from_url apiurl) env' = Returned (Some item)
    /\ Json.get item "name" JNull = Returned (JStr (name_from_url apiurl))
    /\ Json.get item "apiurl" JNull = Returned (JStr apiurl)
    /\ Json.get item "apikey" JNull = Returned (JStr apikey).
Proof.
  unfold add_or_update_env.
  destruct (update_named (name_from_url apiurl) apiurl apikey env)
    as [[found|]|] eqn:Eu; try discriminate.
  - intros H. inversion H; subst env'. clear H.
    revert found Eu. induction env as [|item rest IH]; intros found Eu;
      cbn [update_named] in Eu; [discriminate|].
    destruct (Json.get item "name" JNull) as [name|] eqn:En; [|discriminate].
    destruct (Json.eq_str name (name_from_url apiurl)) eqn:Em.
    + inversion Eu; subst found.
      apply eq_str_true in Em. subst name.
      destruct (update_entry_fields apiurl apikey item _ En) as (Hn & Hu & Hk).
      exists (update_entry apiurl apikey item).
      cbn [find_server]. rewrite Hn. cbn [Json.eq_str].
      rewrite String.eqb_refl. auto.
    + destruct (update_named (name_from_url apiurl) apiurl apikey rest)
        as [[rest'|]|]; try discriminate.
      inversion Eu; subst found.
      destruct (IH rest' eq_refl) as (it & Hf & Hrest).
      exists it. cbn [find_server]. rewrite En, Em. auto.
  - intros H. inversion H; subst env'. clear H.
    exists (new_entry apiurl apikey).
    rewrite (update_named_none_find _ _ _ _ _ Eu).
    destruct (new_entry_fields apiurl apikey) as (Hn & Hu & Hk).
    cbn [find_server]. rewrite Hn. cbn [Json.eq_str]. rewrite String.eqb_refl.
    auto.
Qed.

(** X18: [add_or_update_env] touches one entry at most: the list grows by
    one entry when no entry bore the name and keeps its length otherwise,
    and the search by any other name gives what it gave before. *)
Theorem add_or_update_leaves_others env apiurl apikey env' :
  add_or_update_env env apiurl apikey = Returned env' ->
  List.length env'
  = (List.length env
     + match find_server (name_from_url apiurl) env with
       | Returned (Some _) => 0
       | _ => 1
       end)%nat
  /\ forall other, String.eqb other (name_from_url apiurl) = false ->
                   find_server other env' = find_server other env.
Proof.
  unfold add_or_update_env.
  destruct (update_named (name_from_url apiurl) apiurl apikey env)
    as [[found|]|] eqn:Eu; try discriminate.
  - intros H. inversion H; subst env'. clear H.
    revert found Eu. induction env as [|item rest IH]; intros found Eu;
      cbn [update_named] in Eu; [discriminate|].
    destruct (Json.get item "name" JNull) as [name|] eqn:En; [|discriminate].
    destruct (Json.eq_str name (name_from_url apiurl)) eqn:Em.
    + inversion Eu; subst found. cbn [find_server List.length].
      rewrite En, Em. split; [lia|].
      intros other Ho.
      destruct (update_entry_fields apiurl apikey item _ En) as (Hn & _ & _).
      rewrite Hn. apply eq_str_true in Em. subst name.
      cbn [Json.eq_str]. rewrite String.eqb_sym, Ho. reflexivity.
    + destruct (update_named (name_from_url apiurl) apiurl apikey rest)
        as [[rest'|]|]; try discriminate.
      inversion Eu; subst found.
      destruct (IH rest' eq_refl) as (Hlen & Hother).
      cbn [find_server List.length]. rewrite En, Em. split; [lia|].
      intros other Ho. destruct (Json.eq_str name other); [reflexivity|].
      now apply Hother.
  - intros H. inversion H; subst env'. clear H.
    pose proof (update_named_none_find _ _ _ _ [] Eu) as Hnone.
    rewrite app_nil_r in Hnone. cbn [find_server] in Hnone. rewrite Hnone.
    rewrite length_app. cbn [List.length]. split; [lia|].
    intros other Ho. clear Hnone.
    induction env as [|item rest IH]; cbn [app find_server].
    + cbn. rewrite String.eqb_sym, Ho. reflexivity.
    + cbn [update_named] in Eu.
      destruct (Json.get item "name" JNull) as [name|]; [|reflexivity].
      destruct (Json.eq_str name (name_from_url apiurl)); [discriminate|].
      destruct (update_named (name_from_url apiurl) apiurl apikey rest)
        as [[rest'|]|]; try discriminate.
      destruct (Json.eq_str name other); [reflexivity|]. now apply IH.
Qed.

Lemma update_entry_again apiurl apikey item name :
  Json.get item "name" JNull = Returned name ->
  update_entry apiurl apikey (update_entry apiurl apikey item)
  = update_entry apiurl apikey item.
Proof.
  intros H. destruct (get_is_object _ _ _ _ H) as [fields ->].
  cbn [update_entry]. f_equal.
  rewrite (pydict_set_known "apiurl" (JStr apiurl)).
  - apply pydict_set_known. apply pydict_get_set_same.
  - rewrite (pydict_get_set_other "apikey" "apiurl") by reflexivity.
    apply pydict_get_set_same.
Qed.

(** X19: adding the same server twice is adding it once: on the list that
    [add_or_update_env] returned, the same call returns that list
    unchanged. *)
Theorem add_or_update_twice env apiurl apikey env' :
  add_or_update_env env apiurl apikey = Returned env' ->
  add_or_update_env env' apiurl apikey = Returned env'.
Proof.
  unfold add_or_update_env.
  destruct (update_named (name_from_url apiurl) apiurl apikey env)
    as [[found|]|] eqn:Eu; try discriminate.
  - intros H. inversion H; subst env'. clear H.
    assert (Hu : update_named (name_from_url apiurl) apiurl apikey found
                 = Returned (Some found)); [|now rewrite Hu].
    revert found Eu. induction env as [|item rest IH]; intros found Eu;
      cbn [update_named] in Eu; [discriminate|].
    destruct (Json.get item "name" JNull) as [name|] eqn:En; [|discriminate].
    destruct (Json.eq_str name (name_from_url apiurl)) eqn:Em.
    + inversion Eu; subst found. cbn [update_named].
      destruct (update_entry_fields apiurl apikey item _ En) as (Hn & _ & _).
      rewrite Hn, Em. now rewrite (update_entry_again _ _ _ _ En).
    + destruct (update_named (name_from_url apiurl) apiurl apikey rest)
        as [[rest'|]|]; try discriminate.
      inversion Eu; subst found. cbn [update_named].
      now rewrite En, Em, (IH rest' eq_refl).
  - intros H. inversion H; subst env'. clear H.
    rewrite (update_named_none_update _ _ _ _ _ Eu).
    cbn [update_named]. destruct (new_entry_fields apiurl apikey) as (Hn & _ & _).
    rewrite Hn. cbn [Json.eq_str]. rewrite String.eqb_refl.
    unfold new_entry. cbn [update_entry PyDict.set String.eqb Ascii.eqb Bool.eqb].
    reflexivity.
Qed.

End ServerFacts.

Section SelectionFacts.
Context {UP : UrlParser}.

(** What the loop of [select_server] returns is the first entry of the
    list that bears the name. *)
Lemma find_server_first server env item :
  find_server server env = Returned (Some item) ->
  Json.get item "name" JNull = Returned (JStr server)
  /\ exists before behind,
       env = (before ++ item :: behind)%list
       /\ find_server server before = Returned None.
Proof.
  induction env as [|first rest IH]; cbn [find_server]; [discriminate|].
  destruct (Json.get first "name" JNull) as [name|] eqn:En; [|discriminate].
  destruct (Json.eq_str name server) eqn:Em.
  - intros H. inversion H; subst first. apply eq_str_true in Em. subst name.
    split; [exact En|]. now exists [], rest.
  - intros H. destruct (IH H) as (Hn & before & behind & -> & Hb).
    split; [exact Hn|]. exists (first :: before), behind. split; [reflexivity|].
    cbn [find_server]. now rewrite En, Em.
Qed.


(** One test of a pair that the server answers with code 200. *)
Lemma test_passes apiurl apikey e w r :
  server e (sent w) = Resp r -> status_code r = 200%Z ->
  test_apiurl_apikey apiurl apikey e w
  = (Returned true, after_request (package_list_request apiurl apikey) e w).
Proof.
  intros Hr Hc. unfold test_apiurl_apikey, bind, http. rewrite Hr.
  unfold ret. now rewrite Hc.
Qed.

Lemma test_until_valid_first answers apiurl apikey e w r :
  server e (sent w) = Resp r -> status_code r = 200%Z ->
  test_until_valid answers apiurl apikey e w
  = (Returned (Some (apiurl, apikey)),
     after_request (package_list_request apiurl apikey) e w).
Proof.
  intros Hr Hc. destruct answers; cbn [test_until_valid]; unfold bind;
    now rewrite (test_passes _ _ _ _ _ Hr Hc).
Qed.

(** With both credentials and a passing test, [select_server] returns the
    last entry of the list that [add_or_update_env] gives. *)
Lemma select_with_credentials cfg env apiurl apikey chosen environ answers
    e w r env' :
  PyStr.is_empty apiurl = false -> PyStr.is_empty apikey = false ->
  server e (sent w) = Resp r -> status_code r = 200%Z ->
  add_or_update_env env apiurl apikey = Returned env' ->
  select_server cfg env (Some apiurl) (Some apikey) chosen environ answers e w
  = (Returned (Done (last env' JNull)),
     after_request (package_list_request apiurl apikey) e w).
Proof.
  intros Hu Hk Hr Hc Ha. unfold select_server, add_server_to_env.
  cbn [str_truthy]. rewrite Hu, Hk. cbn [negb andb orb].
  unfold bind at 1. unfold bind at 1.
  rewrite (test_until_valid_first _ _ _ _ _ _ Hr Hc). rewrite Ha.
  reflexivity.
Qed.

Lemma find_none_update_none apiname apiurl apikey env :
  find_server apiname env = Returned None ->
  update_named apiname apiurl apikey env = Returned None.
Proof.
  induction env as [|item rest IH]; cbn [find_server update_named]; [auto|].
  destruct (Json.get item "name" JNull) as [name|]; [|discriminate].
  destruct (Json.eq_str name apiname); [discriminate|].
  intros H. now rewrite (IH H).
Qed.

(** X21: with a URL and a key on the command line that pass the test, and
    no entry of that name in the configuration, the selected server is the
    new entry: the given URL, the given key, named after the URL. *)
Theorem new_credentials_are_selected cfg env apiurl apikey chosen environ
    answers e w r :
  PyStr.is_empty apiurl = false -> PyStr.is_empty apikey = false ->
  server e (sent w) = Resp r -> status_code r = 200%Z ->
  find_server (name_from_url apiurl) env = Returned None ->
  fst (select_server cfg env (Some apiurl) (Some apikey) chosen environ
         answers e w)
  = Returned (Done (new_entry apiurl apikey)).
Proof.
  intros Hu Hk Hr Hc Hf.
  rewrite (select_with_credentials cfg env apiurl apikey chosen environ
             answers e w r (env ++ [new_entry apiurl apikey])%list
             Hu Hk Hr Hc).
  - cbn [fst]. now rewrite last_last.
  - unfold add_or_update_env. now rewrite (find_none_update_none _ _ _ _ Hf).
Qed.

(** X22: with a URL and a key on the command line that pass the test, and
    an entry of that name in the configuration that is not its last entry,
    the entry is updated but the selected server is another one: the last
    entry of the configuration, as it was. *)
Theorem known_credentials_select_last_entry cfg before item behind apiurl
    apikey chosen environ answers e w r :
  PyStr.is_empty apiurl = false -> PyStr.is_empty apikey = false ->
  server e (sent w) = Resp r -> status_code r = 200%Z ->
  find_server (name_from_url apiurl) before = Returned None ->
  Json.get item "name" JNull = Returned (JStr (name_from_url apiurl)) ->
  behind <> [] ->
  fst (select_server cfg (before ++ item :: behind)%list (Some apiurl)
         (Some apikey) chosen environ answers e w)
  = Returned (Done (last behind JNull)).
Proof.
  intros Hu Hk Hr Hc Hf Hn Hb.
  rewrite (select_with_credentials cfg _ apiurl apikey chosen environ
             answers e w r
             (before ++ update_entry apiurl apikey item :: behind)%list
             Hu Hk Hr Hc).
  - cbn [fst]. do 2 f_equal.
    clear - Hb. induction before as [|b bs IH].
    + cbn [app]. destruct behind; [contradiction|reflexivity].
    + cbn [app]. rewrite <- IH.
      destruct (bs ++ update_entry apiurl apikey item :: behind)%list eqn:E;
        [now destruct bs|reflexivity].
  - unfold add_or_update_env.
    rewrite (update_named_none_update _ apiurl apikey _ _
               (find_none_update_none _ apiurl apikey _ Hf)).
    cbn [update_named]. rewrite Hn. cbn [Json.eq_str].
    now rewrite String.eqb_refl.
Qed.

End SelectionFacts.


Lemma new_credentials_are_selected_witness :
  fst (@select_server simple_urls None
         [server_entry "a.example" "https://a.example" "k1"]
         (Some "https://b.example") (Some "k2") "" None []
         (scripted [ok_json (JList [])] 0 false) watch_start)
  = Returned (Done (@new_entry simple_urls "https://b.example" "k2")).
Proof.
  apply (@new_credentials_are_selected simple_urls None
           [server_entry "a.example" "https://a.example" "k1"]
           "https://b.example" "k2" "" None []
           (scripted [ok_json (JList [])] 0 false) watch_start
           (mk_response 200 EmptyString (Some (JList [])))); reflexivity.
Defined.

Lemma known_credentials_select_last_entry_witness :
  fst (@select_server simple_urls None
         ([] ++ server_entry "a.example" "https://a.example" "old"
             :: [server_entry "b.example" "https://b.example" "k2"])%list
         (Some "https://a.example") (Some "new") "" None []
         (scripted [ok_json (JList [])] 0 false) watch_start)
  = Returned (Done (server_entry "b.example" "https://b.example" "k2")).
Proof.
  apply (@known_credentials_select_last_entry simple_urls None []
           (server_entry "a.example" "https://a.example" "old")
           [server_entry "b.example" "https://b.example" "k2"]
           "https://a.example" "new" "" None []
           (scripted [ok_json (JList [])] 0 false) watch_start
           (mk_response 200 EmptyString (Some (JList []))));
    try reflexivity.
  discriminate.
Defined.

Section TestedCredentials.
Context {UP : UrlParser}.

(** The loop of [add_server_to_env] ends with the test of the pair it
    returns, answered with code 200, and tests one pair for each answer of
    the prompt it consumed. *)
Lemma test_until_valid_passed answers apiurl apikey e w u k w' :
  test_until_valid answers apiurl apikey e w = (Returned (Some (u, k)), w') ->
  (exists w0 r,
      w' = after_request (package_list_request u k) e w0
      /\ server e (sent w0) = Resp r /\ status_code r = 200%Z)
  /\ (sent w' <= sent w + 1 + List.length answers)%nat.
Proof.
  revert apiurl apikey w.
  induction answers as [|answer rest IH]; intros apiurl apikey w;
    cbn [test_until_valid]; unfold bind at 1, test_apiurl_apikey at 1;
    unfold bind at 1, http at 1.
  - destruct (server e (sent w)) as [r|] eqn:Er; unfold ret.
    + destruct (status_code r =? 200)%Z eqn:Ec; [|discriminate].
      intros H. inversion H; subst u k w'. split.
      * exists w, r. apply Z.eqb_eq in Ec. auto.
      * cbn [after_request sent List.length]. lia.
    + discriminate.
  - assert (Hnext : forall w1, sent w1 = S (sent w) ->
              match answer with
              | Some (u0, k0) => test_until_valid rest u0 k0
              | None => ret None
              end e w1 = (Returned (Some (u, k)), w') ->
              (exists w0 r,
                  w' = after_request (package_list_request u k) e w0
                  /\ server e (sent w0) = Resp r /\ status_code r = 200%Z)
              /\ (sent w' <= sent w + 1 + List.length (answer :: rest))%nat).
    { intros w1 Hs. destruct answer as [[u0 k0]|]; [|discriminate].
      intros H. destruct (IH _ _ _ H) as (Hex & Hle). split; [exact Hex|].
      cbn [List.length]. lia. }
    destruct (server e (sent w)) as [r|] eqn:Er; unfold ret.
    + destruct (status_code r =? 200)%Z eqn:Ec.
      * intros H. inversion H; subst u k w'. split.
        -- exists w, r. apply Z.eqb_eq in Ec. auto.
        -- cbn [after_request sent List.length]. lia.
      * apply Hnext. reflexivity.
    + apply Hnext. reflexivity.
Qed.

(** X23: [add_server_to_env] stores tested credentials only.  Whenever it
    returns a list, the list is the configuration with one pair added or
    updated, the last request sent was the test of that very pair, and the
    server answered it with code 200; it tested at most one pair more than
    the prompt gave answers. *)
Theorem stored_credentials_passed_the_test cfg env apiurl apikey answers e w
    a w' :
  add_server_to_env cfg env apiurl apikey answers e w = (Returned (Done a), w') ->
  (exists u k w0 r,
      add_or_update_env env u k = Returned (new_env a)
      /\ w' = after_request (package_list_request u k) e w0
      /\ server e (sent w0) = Resp r /\ status_code r = 200%Z)
  /\ (sent w' <= sent w + 1 + List.length answers)%nat.
Proof.
  unfold add_server_to_env.
  set (start := match apiurl, apikey with
                | Some u, Some k => _
                | _, _ => _
                end).
  assert (Hstart : forall u k rest, start = Some ((u, k), rest) ->
                     (List.length rest <= List.length answers)%nat).
  { intros u k rest. unfold start.
    destruct apiurl as [u0|], apikey as [k0|];
      try destruct (PyStr.is_empty u0 || PyStr.is_empty k0);
      destruct answers as [|[given|] more];
      intros H; inversion H; subst; cbn [List.length]; lia. }
  destruct start as [[[u k] rest]|]; [|discriminate].
  specialize (Hstart u k rest eq_refl).
  unfold bind at 1.
  destruct (test_until_valid rest u k e w) as [[tested|x] w1] eqn:Et;
    [|discriminate].
  destruct tested as [[u' k']|]; [|discriminate].
  destruct (add_or_update_env env u' k') as [env'|] eqn:Ea; [|discriminate].
  unfold ret. intros H. inversion H; subst a w'. cbn [new_env].
  destruct (test_until_valid_passed _ _ _ _ _ _ _ _ Et)
    as ((w0 & r & Hw & Hr & Hc) & Hle).
  split; [|lia]. exists u', k', w0, r. auto.
Qed.

End TestedCredentials.

Lemma stored_credentials_passed_the_test_witness :
  let e := scripted [Resp (mk_response 403 "Access denied" None);
                     ok_json (JList [])] 0 false in
  exists a w',
    @add_server_to_env simple_urls (Some "cfg.yml") [] (Some "https://a.example")
      (Some "wrong") [Some ("https://a.example", "right")] e watch_start
    = (Returned (Done a), w')
    /\ new_env a = [server_entry "a.example" "https://a.example" "right"]
    /\ (sent w' <= sent watch_start + 1 + 1)%nat.
Proof.
  intros e.
  eexists. eexists. split; [reflexivity|]. split; [reflexivity|].
  apply (@stored_credentials_passed_the_test simple_urls (Some "cfg.yml") []
           (Some "https://a.example") (Some "wrong")
           [Some ("https://a.example", "right")] e watch_start _ _ eq_refl).
Defined.

(** X24: [display_servers] gives one line for each server, in the order of
    the configuration; the first line is the name of the first server
    followed by the default mark, and every other line is the name of its
    server as it stands. *)
Theorem display_servers_lines env names :
  env <> [] ->
  display_servers env = Returned names ->
  List.length names = List.length env
  /\ (exists name,
        Json.get (hd JNull env) "name" (JStr EmptyString) = Returned (JStr name)
        /\ hd JNull names = JStr (name ++ default_mark))
  /\ forall i, (1 <= i < List.length env)%nat ->
       Json.get (nth i env JNull) "name" (JStr EmptyString)
       = Returned (nth i names JNull).
Proof.
  destruct env as [|item rest]; [contradiction|]. intros _.
  cbn [display_servers].
  destruct (Json.get item "name" (JStr EmptyString)) as [[]|] eqn:En;
    try discriminate.
  destruct (display_rest rest) as [lines|] eqn:Er; [|discriminate].
  intros H. inversion H; subst names. clear H.
  assert (Hrest : List.length lines = List.length rest
                  /\ forall i, (i < List.length rest)%nat ->
                       Json.get (nth i rest JNull) "name" (JStr EmptyString)
                       = Returned (nth i lines JNull)).
  { clear En. revert lines Er.
    induction rest as [|it more IH]; intros lines Er; cbn [display_rest] in Er.
    - inversion Er. split; [reflexivity|]. cbn [List.length]. lia.
    - destruct (Json.get it "name" (JStr EmptyString)) as [n|] eqn:E1;
        [|discriminate].
      destruct (display_rest more) as [ls|]; [|discriminate].
      inversion Er; subst lines. destruct (IH ls eq_refl) as (Hl & Hi).
      split; [cbn [List.length]; lia|].
      intros [|i] Hlt; cbn [nth]; [exact E1|].
      apply Hi. cbn [List.length] in Hlt. lia. }
  destruct Hrest as (Hl & Hi).
  split; [cbn [List.length]; lia|]. split.
  - eexists. split; [exact En|reflexivity].
  - intros [|i] Hlt; [lia|]. cbn [nth]. apply Hi. cbn [List.length] in Hlt. lia.
Qed.

Lemma display_servers_lines_witness :
  let env := [server_entry "a.example" "https://a.example" "k1";
              server_entry "b.example" "https://b.example" "k2"] in
  display_servers env = Returned [JStr "a.example (default)"; JStr "b.example"]
  /\ List.length [JStr "a.example (default)"; JStr "b.example"]
     = List.length env.
Proof.
  intros env. split; [reflexivity|].
  apply (display_servers_lines env
           [JStr "a.example (default)"; JStr "b.example"]);
    [discriminate|reflexivity].
Defined.

(** ** The names of a new package *)

Lemma remove_whitespace_spaceless s : spaceless (remove_whitespace s) = true.
Proof.
  induction s as [|c r IH]; cbn [remove_whitespace]; [reflexivity|].
  destruct (PyStr.is_space c) eqn:E; [exact IH|].
  cbn [spaceless]. now rewrite E, IH.
Qed.

Lemma remove_whitespace_empty s :
  PyStr.is_empty (remove_whitespace s) = blank s.
Proof.
  induction s as [|c r IH]; cbn [remove_whitespace blank]; [reflexivity|].
  destruct (PyStr.is_space c); [exact IH|reflexivity].
Qed.

Lemma remove_whitespace_fixed s :
  spaceless s = true -> remove_whitespace s = s.
Proof.
  induction s as [|c r IH]; cbn [remove_whitespace spaceless]; [reflexivity|].
  destruct (PyStr.is_space c); cbn [negb andb]; [discriminate|].
  intros H. now rewrite (IH H).
Qed.

Lemma strip_prefix_ignore_case_spaceless p s rest :
  spaceless s = true ->
  strip_prefix_ignore_case p s = Some rest -> spaceless rest = true.
Proof.
  revert s. induction p as [|a p IH]; intros s Hs;
    cbn [strip_prefix_ignore_case].
  - intros H. now inversion H; subst.
  - destruct s as [|c s]; [discriminate|].
    destruct (Ascii.eqb (lower c) a); [|discriminate].
    cbn [spaceless] in Hs. apply andb_true_iff in Hs. apply IH, Hs.
Qed.

Lemma remove_docassemble_spaceless s :
  spaceless s = true -> spaceless (remove_docassemble s) = true.
Proof.
  intros Hs. unfold remove_docassemble.
  destruct (strip_prefix_ignore_case "docassemble" s) as [[|c rest]|] eqn:E;
    try exact Hs.
  destruct (Ascii.eqb c "-" || Ascii.eqb c "."); [|exact Hs].
  apply (strip_prefix_ignore_case_spaceless _ _ _ Hs) in E.
  cbn [spaceless] in E. now apply andb_true_iff in E.
Qed.

Lemma lower_space c : PyStr.is_space c = true -> lower c = c.
Proof. destruct c as [[] [] [] [] [] [] [] []]; vm_compute; congruence. Qed.

(** A word that the literal matches as a whole holds no whitespace when the
    literal holds none, and is matched the same in front of any text. *)
Lemma strip_whole_spaceless p word :
  spaceless p = true ->
  strip_prefix_ignore_case p word = Some EmptyString -> spaceless word = true.
Proof.
  revert word. induction p as [|a p IH]; intros word Hp;
    cbn [strip_prefix_ignore_case].
  - intros H. now inversion H.
  - destruct word as [|c word]; [discriminate|].
    destruct (Ascii.eqb (lower c) a) eqn:E; [|discriminate].
    cbn [spaceless] in Hp |- *. apply andb_true_iff in Hp. destruct Hp as [Ha Hp].
    intros H. rewrite (IH _ Hp H), andb_true_r.
    destruct (PyStr.is_space c) eqn:Ec; [|reflexivity].
    apply Ascii.eqb_eq in E. rewrite (lower_space _ Ec) in E. subst a.
    now rewrite Ec in Ha.
Qed.

Lemma strip_whole_app p word rest :
  strip_prefix_ignore_case p word = Some EmptyString ->
  strip_prefix_ignore_case p (word ++ rest) = Some rest.
Proof.
  revert word. induction p as [|a p IH]; intros word;
    cbn [strip_prefix_ignore_case].
  - intros H. now inversion H.
  - destruct word as [|c word]; [discriminate|].
    cbn [append]. destruct (Ascii.eqb (lower c) a); [|discriminate]. apply IH.
Qed.

(** X25: [create] gives up on the name exactly when the name it was given
    is made of whitespace only (the empty text included); otherwise the name
    of the package it goes on with holds no whitespace at all. *)
Theorem create_name_check package prompted output :
  match create_names package prompted output with
  | Invalid _ => blank (entered_name package prompted) = true
  | Start pkgname _ =>
      blank (entered_name package prompted) = false
      /\ spaceless pkgname = true
  end.
Proof.
  unfold create_names.
  rewrite remove_whitespace_empty.
  destruct (blank (entered_name package prompted)); [reflexivity|].
  split; [reflexivity|].
  apply remove_docassemble_spaceless, remove_whitespace_spaceless.
Qed.

(** X26: the name of a package directory gives its package back.  For a
    text without whitespace, possibly empty, entering docassemble, in any
    case, then a hyphen or a dot, then the text makes [create] go on with
    the text as the name of the package, and, when no output directory is
    asked for, with docassemble, a hyphen and the text as its directory:
    the prefix is removed once, and the check for an empty name comes
    before the removal. *)
Theorem create_directory_name_round_trip word separator name prompted :
  strip_prefix_ignore_case "docassemble" word = Some EmptyString ->
  (separator = "-" \/ separator = ".")%char ->
  spaceless name = true ->
  create_names (Some (word ++ String separator name)) prompted None
  = Start name ("docassemble-" ++ name).
Proof.
  intros Hw Hsep Hn.
  pose proof (strip_whole_spaceless "docassemble" word eq_refl Hw) as Hs.
  pose proof (fun rest => strip_whole_app _ _ rest Hw) as Hstrip.
  assert (Hsp : PyStr.is_space separator = false)
    by (destruct Hsep; subst; reflexivity).
  assert (Hall : spaceless (word ++ String separator name) = true).
  { clear - Hs Hsp Hn. induction word as [|c word IH]; cbn [append spaceless].
    - now rewrite Hsp, Hn.
    - cbn [spaceless] in Hs. apply andb_true_iff in Hs. destruct Hs as [Hc Hs].
      now rewrite Hc, (IH Hs). }
  unfold create_names, entered_name.
  assert (Hne : PyStr.is_empty (word ++ String separator name) = false)
    by (destruct word; reflexivity).
  rewrite Hne, (remove_whitespace_fixed _ Hall), Hne.
  unfold remove_docassemble. rewrite Hstrip.
  destruct Hsep; subst; reflexivity.
Qed.

Lemma create_directory_name_round_trip_witness :
  create_names (Some ("Docassemble" ++ String "." "demo")) "" None
  = Start "demo" "docassemble-demo"
  /\ create_names (Some ("docassemble" ++ String "-" "")) "" None
     = Start "" "docassemble-".
Proof.
  split.
  - apply (create_directory_name_round_trip "Docassemble" "." "demo" "");
      [reflexivity|now right|reflexivity].
  - apply (create_directory_name_round_trip "docassemble" "-" "" "");
      [reflexivity|now left|reflexivity].
Defined.

(** ** Examples for the list of servers and the handler *)

(** X17 on a configuration whose only server gets a new key. *)
Lemma added_server_is_found_witness :
  @add_or_update_env simple_urls
     [server_entry "a.example" "https://a.example" "old"]
     "https://a.example" "new"
  = Returned [server_entry "a.example" "https://a.example" "new"]
  /\ exists item,
       find_server (@name_from_url simple_urls "https://a.example")
         [server_entry "a.example" "https://a.example" "new"]
       = Returned (Some item)
       /\ Json.get item "name" JNull
          = Returned (JStr (@name_from_url simple_urls "https://a.example"))
       /\ Json.get item "apiurl" JNull = Returned (JStr "https://a.example")
       /\ Json.get item "apikey" JNull = Returned (JStr "new").
Proof.
  split; [reflexivity|].
  apply (@added_server_is_found simple_urls
           [server_entry "a.example" "https://a.example" "old"]
           "https://a.example" "new"
           [server_entry "a.example" "https://a.example" "new"]).
  reflexivity.
Defined.

(** X18 on a configuration that gets a second server. *)
Lemma add_or_update_leaves_others_witness :
  let env := [server_entry "a.example" "https://a.example" "k1"] in
  let env' := [server_entry "a.example" "https://a.example" "k1";
               server_entry "b.example" "https://b.example" "k2"] in
  @add_or_update_env simple_urls env "https://b.example" "k2" = Returned env'
  /\ List.length env' = 2%nat
  /\ find_server "a.example" env' = find_server "a.example" env.
Proof.
  intros env env'. split; [reflexivity|].
  destruct (@add_or_update_leaves_others simple_urls env "https://b.example"
              "k2" env' eq_refl) as [Hlen Hother].
  split; [exact Hlen|]. apply Hother. reflexivity.
Defined.

(** X19 on the same configuration. *)
Lemma add_or_update_twice_witness :
  let env' := [server_entry "a.example" "https://a.example" "k1";
               server_entry "b.example" "https://b.example" "k2"] in
  @add_or_update_env simple_urls env' "https://b.example" "k2" = Returned env'.
Proof.
  intros env'.
  apply (@add_or_update_twice simple_urls
           [server_entry "a.example" "https://a.example" "k1"]
           "https://b.example" "k2" env').
  reflexivity.
Defined.

(** X14 on a code file that is saved twice while a lock file comes and
    goes. *)
Lemma delivered_changes_recorded_witness :
  let events := [mk_fs_event false "modified" "/pkg/util.py";
                 mk_fs_event false "deleted" "/pkg/.#util.py";
                 mk_fs_event false "created" "/pkg/util.py"] in
  let lm' := fold_left (@on_any_event ignore_nothing "/pkg" 42) events no_changes in
  PyDict.get "/pkg/util.py" (lm_files lm') = Some true
  /\ lm_restart lm' = true
  /\ lm_time lm' = 42%Z.
Proof.
  intros events lm'.
  destruct (@delivered_changes_recorded ignore_nothing "/pkg" 42 events
              no_changes) as (Hfiles & Hrestart & Htime).
  split; [|split].
  - apply (Hfiles (mk_fs_event false "modified" "/pkg/util.py"));
      [now left|reflexivity].
  - exact Hrestart.
  - exact Htime.
Defined.
